(** * poe-api-bridge: a shallow embedding of [server.py]

    The bridge exposes an OpenAI-style HTTP API and drives the Poe bot
    protocol behind it.  This development embeds the request normalizer, the
    streaming adapter, the chunk formatter, the token accounting, the error
    normalizer and the image endpoints of [server.py] as Rocq functions, and
    proves properties of them.

    Conventions of the embedding:
    - a Python [str] is a [string] (its UTF-8 bytes; [len] is [String.length],
      which agrees with Python on ASCII text);
    - a Python [int] is a [Z];
    - a dynamically typed Python value (JSON data, [dict] literals, the value
      of [msg.content]) is a [json] value; a [dict] keeps its insertion order
      and is an association list with unique keys;
    - a raised exception is a value of type [exn]; code that can raise
      returns a [result];
    - the outside world (the upstream bot, file upload, HTTP fetch, the
      tokenizer, [os.urandom], [time.time], base64) is a record of oracles
      [Env]; calls are numbered through the counters of a [World] so that an
      oracle may answer differently at every call. *)

From Stdlib Require Import String Ascii List ZArith Bool Lia Arith Permutation.
Import ListNotations.
Local Open Scope list_scope.
Local Open Scope string_scope.

Set Implicit Arguments.

(* ===================================================================== *)
(** * Python strings *)
(* ===================================================================== *)

Module Py.

(** The double quote and the newline, which string literals cannot hold. *)
Definition dquote : ascii := ascii_of_nat 34.
Definition newline : ascii := ascii_of_nat 10.
Definition nl : string := String newline EmptyString.

(** [quoted s] is [s] between two double quotes. *)
Definition quoted (s : string) : string :=
  String dquote (s ++ String dquote EmptyString).

(** [s[n:]] *)
Fixpoint drop (n : nat) (s : string) : string :=
  match n, s with
  | O, _ => s
  | S _, EmptyString => EmptyString
  | S n', String _ s' => drop n' s'
  end.

(** [s.startswith(p)] *)
Definition startswith (s p : string) : bool := String.prefix p s.

(** [sub in s] for strings *)
Fixpoint contains (sub s : string) : bool :=
  String.prefix sub s ||
  match s with
  | EmptyString => false
  | String _ s' => contains sub s'
  end.

Fixpoint rev_append (s acc : string) : string :=
  match s with
  | EmptyString => acc
  | String c s' => rev_append s' (String c acc)
  end.

Definition rev (s : string) : string := rev_append s EmptyString.

(** [s.endswith(p)] *)
Definition endswith (s p : string) : bool := String.prefix (rev p) (rev s).

(** The first occurrence of a non-empty [sep] in [s]: the text before it
    and the text after it. *)
Fixpoint cut_first (sep s : string) : option (string * string) :=
  if String.prefix sep s then Some (EmptyString, drop (String.length sep) s)
  else match s with
       | EmptyString => None
       | String c s' =>
           match cut_first sep s' with
           | Some (a, b) => Some (String c a, b)
           | None => None
           end
       end.

(** The last occurrence of a non-empty [sep] in [s]. *)
Fixpoint cut_last (sep s : string) : option (string * string) :=
  match s with
  | EmptyString => None
  | String c s' =>
      match cut_last sep s' with
      | Some (a, b) => Some (String c a, b)
      | None =>
          if String.prefix sep s
          then Some (EmptyString, drop (String.length sep) s)
          else None
      end
  end.

(** [s.split(sep, 1)]: one or two pieces. *)
Definition split1 (s sep : string) : list string :=
  match cut_first sep s with
  | Some (a, b) => [a; b]
  | None => [s]
  end.

(** [s.rsplit(sep, 1)] *)
Definition rsplit1 (s sep : string) : list string :=
  match cut_last sep s with
  | Some (a, b) => [a; b]
  | None => [s]
  end.

(** [c.isspace()] on the ASCII range: tab to carriage return, the four
    separators 28..31 and the blank. *)
Definition isspace (c : ascii) : bool :=
  let n := nat_of_ascii c in
  ((9 <=? n)%nat && (n <=? 13)%nat) || ((28 <=? n)%nat && (n <=? 32)%nat).

Fixpoint lstrip_with (p : ascii -> bool) (s : string) : string :=
  match s with
  | EmptyString => EmptyString
  | String c s' => if p c then lstrip_with p s' else s
  end.

Definition rstrip_with (p : ascii -> bool) (s : string) : string :=
  rev (lstrip_with p (rev s)).

(** [s.strip()] *)
Definition strip (s : string) : string :=
  rstrip_with isspace (lstrip_with isspace s).

(** [s.rstrip(chars)] *)
Definition rstrip (s chars : string) : string :=
  rstrip_with (fun c => contains (String c EmptyString) chars) s.

(** [sep.join(parts)] for a list of strings *)
Fixpoint join (sep : string) (parts : list string) : string :=
  match parts with
  | [] => EmptyString
  | [p] => p
  | p :: rest => p ++ sep ++ join sep rest
  end.

End Py.

(* ===================================================================== *)
(** * Python values and [json.loads] *)
(* ===================================================================== *)

(** A dynamically typed value.  [JFloat] keeps the literal as written. *)
#[warnings="-register-all"]
Inductive json : Type :=
| JNull
| JBool (b : bool)
| JInt (n : Z)
| JFloat (literal : string)
| JStr (s : string)
| JArr (items : list json)
| JObj (members : list (string * json)).

Module Json.

(** ** Dictionaries: insertion-ordered, unique keys *)

(** [d.get(k)] / [k in d] *)
Fixpoint dict_get (k : string) (d : list (string * json)) : option json :=
  match d with
  | [] => None
  | (k', v) :: rest => if String.eqb k k' then Some v else dict_get k rest
  end.

(** [d[k] = v] *)
Fixpoint dict_set (k : string) (v : json) (d : list (string * json))
  : list (string * json) :=
  match d with
  | [] => [(k, v)]
  | (k', v') :: rest =>
      if String.eqb k k' then (k, v) :: rest else (k', v') :: dict_set k v rest
  end.

(** [dict(pairs)]: a later pair overwrites an earlier one with its key. *)
Definition dict_of_pairs (pairs : list (string * json)) : list (string * json) :=
  fold_left (fun d kv => dict_set (fst kv) (snd kv) d) pairs [].

(** [v.get(k)] on a value that is a dict, and on one that is not. *)
Definition get (k : string) (v : json) : option json :=
  match v with
  | JObj d => dict_get k d
  | _ => None
  end.

Definition eqb_str (v : json) (s : string) : bool :=
  match v with
  | JStr s' => String.eqb s' s
  | _ => false
  end.

(** ** Truthiness ([if v:]) *)

Definition is_zero_digit (c : ascii) : bool :=
  match c with
  | "1"%char | "2"%char | "3"%char | "4"%char | "5"%char
  | "6"%char | "7"%char | "8"%char | "9"%char => false
  | _ => true
  end.

(** The mantissa of a float literal: the text before its exponent. *)
Fixpoint mantissa (s : string) : string :=
  match s with
  | EmptyString => EmptyString
  | String c s' =>
      if (Ascii.eqb c "e" || Ascii.eqb c "E")%bool then EmptyString
      else String c (mantissa s')
  end.

Fixpoint all_chars (p : ascii -> bool) (s : string) : bool :=
  match s with
  | EmptyString => true
  | String c s' => p c && all_chars p s'
  end.

Definition float_is_zero (literal : string) : bool :=
  if String.eqb literal "NaN" || String.eqb literal "Infinity"
     || String.eqb literal "-Infinity"
  then false
  else all_chars is_zero_digit (mantissa literal).

Definition truthy (v : json) : bool :=
  match v with
  | JNull => false
  | JBool b => b
  | JInt n => negb (Z.eqb n 0)
  | JFloat l => negb (float_is_zero l)
  | JStr s => negb (String.eqb s EmptyString)
  | JArr l => match l with [] => false | _ => true end
  | JObj d => match d with [] => false | _ => true end
  end.

(** ** The scanner of [json.loads] *)

Definition is_ws (c : ascii) : bool :=
  Ascii.eqb c " " || Ascii.eqb c (ascii_of_nat 9)
  || Ascii.eqb c (ascii_of_nat 10) || Ascii.eqb c (ascii_of_nat 13).

Definition skip_ws (s : string) : string := Py.lstrip_with is_ws s.

Definition is_digit (c : ascii) : bool :=
  let n := nat_of_ascii c in ((48 <=? n)%nat && (n <=? 57)%nat).

Definition digit_val (c : ascii) : Z := (Z.of_nat (nat_of_ascii c) - 48)%Z.

Definition hex_val (c : ascii) : option Z :=
  let n := nat_of_ascii c in
  if ((48 <=? n) && (n <=? 57))%nat then Some (Z.of_nat n - 48)%Z
  else if ((65 <=? n) && (n <=? 70))%nat then Some (Z.of_nat n - 55)%Z
  else if ((97 <=? n) && (n <=? 102))%nat then Some (Z.of_nat n - 87)%Z
  else None.

(** Four hexadecimal digits. *)
Definition hex4 (s : string) : option (Z * string) :=
  match s with
  | String a (String b (String c (String d rest))) =>
      match hex_val a, hex_val b, hex_val c, hex_val d with
      | Some x, Some y, Some z, Some w =>
          Some (((x * 16 + y) * 16 + z) * 16 + w, rest)%Z
      | _, _, _, _ => None
      end
  | _ => None
  end.

Definition byte (n : Z) : ascii := ascii_of_nat (Z.to_nat n).

(** The UTF-8 bytes of a code point (a lone surrogate gets its three
    bytes as well). *)
Definition utf8 (cp : Z) : string :=
  (if cp <? 128 then String (byte cp) EmptyString
   else if cp <? 2048 then
     String (byte (192 + cp / 64))
       (String (byte (128 + cp mod 64)) EmptyString)
   else if cp <? 65536 then
     String (byte (224 + cp / 4096))
       (String (byte (128 + (cp / 64) mod 64))
          (String (byte (128 + cp mod 64)) EmptyString))
   else
     String (byte (240 + cp / 262144))
       (String (byte (128 + (cp / 4096) mod 64))
          (String (byte (128 + (cp / 64) mod 64))
             (String (byte (128 + cp mod 64)) EmptyString))))%Z.

(** A [\uXXXX] escape, after the [u]: a high surrogate followed by an
    escaped low surrogate is one code point. *)
Definition unicode_escape (s : string) : option (string * string) :=
  match hex4 s with
  | None => None
  | Some (hi, rest) =>
      let single := Some (utf8 hi, rest) in
      if ((55296 <=? hi) && (hi <=? 56319))%Z then
        match rest with
        | String "\" (String "u" rest2) =>
            match hex4 rest2 with
            | Some (lo, rest3) =>
                if ((56320 <=? lo) && (lo <=? 57343))%Z
                then Some (utf8 (65536 + (hi - 55296) * 1024 + (lo - 56320))%Z,
                           rest3)
                else single
            | None => single
            end
        | _ => single
        end
      else single
  end.

(** The body of a string literal, after its opening quote (strict mode:
    no raw control character). *)
Fixpoint scan_string (fuel : nat) (s : string) : option (string * string) :=
  match fuel with
  | O => None
  | S fuel' =>
      match s with
      | EmptyString => None
      | String c rest =>
          if Ascii.eqb c Py.dquote then Some (EmptyString, rest)
          else if Ascii.eqb c "\" then
            match rest with
            | EmptyString => None
            | String e rest' =>
                let plain (ch : ascii) :=
                  match scan_string fuel' rest' with
                  | Some (body, r) => Some (String ch body, r)
                  | None => None
                  end in
                if Ascii.eqb e Py.dquote then plain Py.dquote
                else if Ascii.eqb e "\" then plain "\"%char
                else if Ascii.eqb e "/" then plain "/"%char
                else if Ascii.eqb e "b" then plain (ascii_of_nat 8)
                else if Ascii.eqb e "f" then plain (ascii_of_nat 12)
                else if Ascii.eqb e "n" then plain (ascii_of_nat 10)
                else if Ascii.eqb e "r" then plain (ascii_of_nat 13)
                else if Ascii.eqb e "t" then plain (ascii_of_nat 9)
                else if Ascii.eqb e "u" then
                  match unicode_escape rest' with
                  | Some (bytes, r1) =>
                      match scan_string fuel' r1 with
                      | Some (body, r) => Some (bytes ++ body, r)
                      | None => None
                      end
                  | None => None
                  end
                else None
            end
          else if (nat_of_ascii c <? 32)%nat then None
          else
            match scan_string fuel' rest with
            | Some (body, r) => Some (String c body, r)
            | None => None
            end
      end
  end.

(** A maximal run of decimal digits. *)
Fixpoint digits (s : string) : string * string :=
  match s with
  | String c rest =>
      if is_digit c then let '(d, r) := digits rest in (String c d, r)
      else (EmptyString, s)
  | EmptyString => (EmptyString, EmptyString)
  end.

Definition decimal (ds : string) : Z :=
  (fix go (s : string) (acc : Z) : Z :=
     match s with
     | EmptyString => acc
     | String c rest => go rest (acc * 10 + digit_val c)%Z
     end) ds 0%Z.

(** The integer part of a number: [0] or a run that starts with [1..9]. *)
Definition int_part (s : string) : option (string * string) :=
  match s with
  | String "0" rest => Some ("0", rest)
  | String c _ =>
      if is_digit c then Some (digits s) else None
  | EmptyString => None
  end.

(** An optional fraction [.ddd]. *)
Definition frac_part (s : string) : string * string :=
  match s with
  | String "." rest =>
      match digits rest with
      | (EmptyString, _) => (EmptyString, s)
      | (d, r) => (String "." d, r)
      end
  | _ => (EmptyString, s)
  end.

(** An optional exponent [e+dd]. *)
Definition exp_part (s : string) : string * string :=
  match s with
  | String e rest =>
      if (Ascii.eqb e "e" || Ascii.eqb e "E")%bool then
        let '(sign, rest1) :=
          match rest with
          | String "+" r => ("+", r)
          | String "-" r => ("-", r)
          | _ => (EmptyString, rest)
          end in
        match digits rest1 with
        | (EmptyString, _) => (EmptyString, s)
        | (d, r) => (String e (sign ++ d), r)
        end
      else (EmptyString, s)
  | EmptyString => (EmptyString, s)
  end.

(** A number: an [int] when it has neither fraction nor exponent. *)
Definition scan_number (s : string) : option (json * string) :=
  let '(neg, body) :=
    match s with
    | String "-" r => (true, r)
    | _ => (false, s)
    end in
  match int_part body with
  | None => None
  | Some (ip, r0) =>
      let '(fp, r1) := frac_part r0 in
      let '(ep, r2) := exp_part r1 in
      let sign := if neg then "-" else EmptyString in
      if (String.eqb fp EmptyString && String.eqb ep EmptyString)%bool
      then Some (JInt (if neg then - decimal ip else decimal ip)%Z, r0)
      else Some (JFloat (sign ++ ip ++ fp ++ ep), r2)
  end.

(** [s] starts with the word [w]: the rest of [s]. *)
Definition after_word (w s : string) : option string :=
  if String.prefix w s then Some (Py.drop (String.length w) s) else None.

(** One value at the head of [s], and the text after it.  [fuel] bounds
    the depth of the scanner calls; twice the length of the text is
    enough. *)
Fixpoint scan_value (fuel : nat) (s : string) : option (json * string) :=
  match fuel with
  | O => None
  | S fuel' =>
      match s with
      | EmptyString => None
      | String c rest =>
          if Ascii.eqb c Py.dquote then
            match scan_string (S (String.length rest)) rest with
            | Some (body, r) => Some (JStr body, r)
            | None => None
            end
          else if Ascii.eqb c "{" then
            match skip_ws rest with
            | String "}" r => Some (JObj [], r)
            | r0 =>
                match scan_members fuel' r0 [] with
                | Some (ms, r) => Some (JObj (dict_of_pairs ms), r)
                | None => None
                end
            end
          else if Ascii.eqb c "[" then
            match skip_ws rest with
            | String "]" r => Some (JArr [], r)
            | r0 =>
                match scan_items fuel' r0 [] with
                | Some (vs, r) => Some (JArr vs, r)
                | None => None
                end
            end
          else if Ascii.eqb c "n" then
            option_map (fun r => (JNull, r)) (after_word "null" s)
          else if Ascii.eqb c "t" then
            option_map (fun r => (JBool true, r)) (after_word "true" s)
          else if Ascii.eqb c "f" then
            option_map (fun r => (JBool false, r)) (after_word "false" s)
          else if Ascii.eqb c "N" then
            option_map (fun r => (JFloat "NaN", r)) (after_word "NaN" s)
          else if Ascii.eqb c "I" then
            option_map (fun r => (JFloat "Infinity", r))
                       (after_word "Infinity" s)
          else
            match scan_number s with
            | Some res => Some res
            | None =>
                option_map (fun r => (JFloat "-Infinity", r))
                           (after_word "-Infinity" s)
            end
      end
  end

(** The members of an object, from a key on: [acc] holds the pairs read so
    far, in order. *)
with scan_members (fuel : nat) (s : string) (acc : list (string * json))
  : option (list (string * json) * string) :=
  match fuel with
  | O => None
  | S fuel' =>
      match s with
      | String q rest =>
          if Ascii.eqb q Py.dquote then
            match scan_string (S (String.length rest)) rest with
            | None => None
            | Some (key, r1) =>
                match skip_ws r1 with
                | String ":" r2 =>
                    match scan_value fuel' (skip_ws r2) with
                    | None => None
                    | Some (v, r3) =>
                        let acc' := (acc ++ [(key, v)])%list in
                        match skip_ws r3 with
                        | String "}" r4 => Some (acc', r4)
                        | String "," r4 => scan_members fuel' (skip_ws r4) acc'
                        | _ => None
                        end
                    end
                | _ => None
                end
            end
          else None
      | EmptyString => None
      end
  end

(** The items of an array, from a value on. *)
with scan_items (fuel : nat) (s : string) (acc : list json)
  : option (list json * string) :=
  match fuel with
  | O => None
  | S fuel' =>
      match scan_value fuel' s with
      | None => None
      | Some (v, r1) =>
          let acc' := (acc ++ [v])%list in
          match skip_ws r1 with
          | String "]" r2 => Some (acc', r2)
          | String "," r2 => scan_items fuel' (skip_ws r2) acc'
          | _ => None
          end
      end
  end.

(** [json.loads(s)]: [None] stands for a raised [JSONDecodeError].  One
    value, blanks around it allowed, nothing after it. *)
Definition loads (s : string) : option json :=
  match scan_value (2 * String.length s + 2) (skip_ws s) with
  | Some (v, rest) =>
      match skip_ws rest with
      | EmptyString => Some v
      | _ => None
      end
  | None => None
  end.

End Json.

(* ===================================================================== *)
(** * Exceptions *)
(* ===================================================================== *)

(** The exception classes the bridge tells apart.  [JSONDecodeError] is a
    subclass of [ValueError]; every class is a subclass of [Exception]. *)
Inductive pyclass : Type :=
| ValueError
| JSONDecodeError
| TypeError
| AttributeError
| IndexError
| HTTPException
| PoeAPIError
| OtherException.

Definition pyclass_eqb (a b : pyclass) : bool :=
  match a, b with
  | ValueError, ValueError | JSONDecodeError, JSONDecodeError
  | TypeError, TypeError | AttributeError, AttributeError
  | IndexError, IndexError | HTTPException, HTTPException
  | PoeAPIError, PoeAPIError | OtherException, OtherException => true
  | _, _ => false
  end.

(** A base class in an [except] clause or an [isinstance] test. *)
Inductive pybase : Type :=
| Exception
| Class (c : pyclass).

Definition issubclass (c : pyclass) (base : pybase) : bool :=
  match base with
  | Exception => true
  | Class ValueError => pyclass_eqb c ValueError || pyclass_eqb c JSONDecodeError
  | Class b => pyclass_eqb c b
  end.

(** An exception object.  [exn_text] is [str(e)]; for [PoeAPIError] it is
    also [e.message].  [status_code] is the attribute of [HTTPException] and
    of [PoeAPIError]; [exn_data] is [detail] of the former and [error_data]
    of the latter; [exn_id] is [error_id] of [PoeAPIError]. *)
Record exn : Type := {
  exn_class : pyclass;
  exn_text : string;
  status_code : Z;
  exn_data : json;
  exn_id : json
}.

Definition isinstance (e : exn) (base : pybase) : bool :=
  issubclass (exn_class e) base.

(** A builtin exception raised with a message. *)
Definition py_error (c : pyclass) (msg : string) : exn :=
  {| exn_class := c; exn_text := msg; status_code := 0;
     exn_data := JNull; exn_id := JNull |}.

(** [HTTPException(status_code=.., detail=..)] *)
Definition http_exception (status : Z) (detail : json) : exn :=
  {| exn_class := HTTPException; exn_text := EmptyString;
     status_code := status; exn_data := detail; exn_id := JNull |}.

(** [PoeAPIError(message, error_data=.., error_id=..)]: the status code
    keeps its default, 500. *)
Definition poe_api_error (message : string) (error_data error_id : json) : exn :=
  {| exn_class := PoeAPIError; exn_text := message; status_code := 500;
     exn_data := error_data; exn_id := error_id |}.

(** What a call gives: a value, or an exception in flight. *)
Inductive result (A : Type) : Type :=
| Return (a : A)
| Raise (e : exn).

Arguments Return {A} a.
Arguments Raise {A} e.

(* ===================================================================== *)
(** * The outside world *)
(* ===================================================================== *)

(** [fp.Attachment] *)
Record Attachment : Type := {
  url : string;
  content_type : string;
  name : string
}.

(** [fp.PartialResponse], one event of the upstream stream.
    [is_replace_response] is read with [getattr(.., False)]. *)
Record PartialResponse : Type := {
  text : string;
  is_replace_response : bool;
  attachment : option Attachment
}.

(** [fp.ProtocolMessage] *)
Record ProtocolMessage : Type := {
  role : string;
  content : string;
  attachments : list Attachment
}.

(** What one call of [get_bot_response] streams: its events, and how the
    stream ends, by closing ([None]) or by raising. *)
Definition BotStream : Type := (list PartialResponse * option exn)%type.

(** The two forms of [fp.upload_file]. *)
Inductive upload_source : Type :=
| FileBytes (file : string) (file_name : string)
| FileUrl (file_url : string).

(** Counters of the calls made so far. *)
Record World : Type := {
  bot_calls : nat;
  upload_calls : nat;
  urandom_calls : nat;
  time_calls : nat
}.

(** The collaborators of the bridge.  Each oracle is told how many calls
    of its kind came before, so that it may answer differently every time.
    An HTTP fetch is told the number of upstream bot calls made so far (the
    bridge fetches at most once after each of them). *)
Class Env : Type := {
  (** [len(tiktoken.get_encoding(..).encode(text))]; [None] when tiktoken
      raises *)
  tiktoken_len : string -> option nat;
  (** [base64.b64decode]; [None] when it raises [binascii.Error] *)
  b64decode : string -> option string;
  (** [base64.b64encode(..).decode()] *)
  b64encode : string -> string;
  (** [fp.upload_file(.., api_key=..)] *)
  upload_file : nat -> upload_source -> string -> result Attachment;
  (** [get_bot_response(messages, bot_name, api_key, skip_system_prompt)] *)
  get_bot_response : nat -> list ProtocolMessage -> string -> string -> BotStream;
  (** [httpx.AsyncClient().get(url).content] *)
  http_get : nat -> string -> result string;
  (** [os.urandom(12).hex()] *)
  urandom_hex : nat -> string;
  (** [int(time.time())] *)
  time_now : nat -> Z;
  (** [str(v)] of a value that is not a string, as an f-string renders it *)
  py_str : json -> string
}.

(** A computation that calls the outside world. *)
Definition M (A : Type) : Type := World -> A * World.

Definition ret {A} (a : A) : M A := fun w => (a, w).

Definition bind {A B} (c : M A) (k : A -> M B) : M B :=
  fun w => let '(a, w') := c w in k a w'.

Declare Scope world_scope.
Delimit Scope world_scope with world.
Notation "x <- c ;; k" := (bind c (fun x => k))
  (at level 61, c at next level, right associativity) : world_scope.
Notation "' pat <- c ;; k" := (bind c (fun x => match x with pat => k end))
  (at level 61, pat pattern, c at next level, right associativity) : world_scope.

Section Calls.
Context `{Env}.

Definition call_bot (messages : list ProtocolMessage) (bot_name api_key : string)
  : M BotStream :=
  fun w =>
    (get_bot_response (bot_calls w) messages bot_name api_key,
     {| bot_calls := S (bot_calls w); upload_calls := upload_calls w;
        urandom_calls := urandom_calls w; time_calls := time_calls w |}).

Definition call_upload (src : upload_source) (api_key : string)
  : M (result Attachment) :=
  fun w =>
    (upload_file (upload_calls w) src api_key,
     {| bot_calls := bot_calls w; upload_calls := S (upload_calls w);
        urandom_calls := urandom_calls w; time_calls := time_calls w |}).

Definition call_http_get (target : string) : M (result string) :=
  fun w => (http_get (bot_calls w) target, w).

Definition call_urandom_hex : M string :=
  fun w =>
    (urandom_hex (urandom_calls w),
     {| bot_calls := bot_calls w; upload_calls := upload_calls w;
        urandom_calls := S (urandom_calls w); time_calls := time_calls w |}).

Definition call_time : M Z :=
  fun w =>
    (time_now (time_calls w),
     {| bot_calls := bot_calls w; upload_calls := upload_calls w;
        urandom_calls := urandom_calls w; time_calls := S (time_calls w) |}).

(** An f-string field: [{v}] *)
Definition fmt (v : json) : string :=
  match v with
  | JStr s => s
  | _ => py_str v
  end.

End Calls.

(* ===================================================================== *)
(** * Error normalizer *)
(* ===================================================================== *)

(** [needle in v]: a substring test on a string, a membership test on a
    list, a key test on a dict; any other value is not iterable. *)
Definition py_in (needle : string) (v : json) : result bool :=
  match v with
  | JStr s => Return (Py.contains needle s)
  | JArr items => Return (existsb (fun x => Json.eqb_str x needle) items)
  | JObj d =>
      Return (match Json.dict_get needle d with Some _ => true | None => false end)
  | _ => Raise (py_error TypeError "argument is not iterable")
  end.

(** [v.get(k, default)]: only a dict has the method. *)
Definition py_get (v : json) (k : string) (default : json) : result json :=
  match v with
  | JObj d =>
      Return (match Json.dict_get k d with Some x => x | None => default end)
  | _ => Raise (py_error AttributeError "object has no attribute get")
  end.

(** [json.loads(s)] *)
Definition json_loads (s : string) : result json :=
  match Json.loads s with
  | Some v => Return v
  | None => Raise (py_error JSONDecodeError "Expecting value")
  end.

(** [pieces[i]] *)
Definition py_index (pieces : list string) (i : nat) : result string :=
  match nth_error pieces i with
  | Some x => Return x
  | None => Raise (py_error IndexError "list index out of range")
  end.

(** The local variables of [parse_poe_error]. *)
Record parse_locals : Type := {
  error_message : json;
  error_data : json;
  error_type : string;
  error_id : json
}.

(** A block of statements over some local variables: the variables when the
    block is left, and the exception that left it, if one did. *)
Definition block (L : Type) : Type := L -> L * option exn.

Definition and_then {L} (b1 b2 : block L) : block L :=
  fun l =>
    match b1 l with
    | (l1, None) => b2 l1
    | (l1, Some e) => (l1, Some e)
    end.

(** Lines 243-247 and 253-255: load the JSON text into [error_data], take
    its [text] field as the message, set the type.  An exception leaves the
    assignments made before it in place. *)
Definition load_error_data (payload error_str : string) : block parse_locals :=
  fun l =>
    match json_loads payload with
    | Raise e => (l, Some e)
    | Return data =>
        let l1 := {| error_message := error_message l; error_data := data;
                     error_type := error_type l; error_id := error_id l |} in
        match py_get data "text" (JStr error_str) with
        | Raise e => (l1, Some e)
        | Return msg =>
            ({| error_message := msg; error_data := data;
                error_type := "poe_api_error"; error_id := error_id l |}, None)
        end
    end.

(** Lines 243-257: the two structured forms. *)
Definition extract_block (error_str : string) : block parse_locals :=
  fun l =>
    if Py.startswith error_str "{" && Py.endswith error_str "}" then
      load_error_data error_str error_str l
    else if Py.contains "BotError('" error_str && Py.contains "')" error_str then
      match py_index (Py.split1 error_str "BotError('") 1 with
      | Raise e => (l, Some e)
      | Return tail =>
          match py_index (Py.rsplit1 tail "')") 0 with
          | Raise e => (l, Some e)
          | Return json_part =>
              match load_error_data json_part error_str l with
              | (l1, Some e) =>
                  (* except json.JSONDecodeError: pass *)
                  if isinstance e (Class JSONDecodeError) then (l1, None)
                  else (l1, Some e)
              | done => done
              end
          end
      end
    else (l, None).

(** Line 262: [error_message.split(..)[1].strip().rstrip(..)], which only a
    string supports. *)
Definition scan_error_id (msg : json) : result json :=
  match msg with
  | JStr s =>
      match py_index (Py.split1 s "error_id:") 1 with
      | Return piece => Return (JStr (Py.rstrip (Py.strip piece) ")"))
      | Raise e => Raise e
      end
  | _ => Raise (py_error AttributeError "object has no attribute split")
  end.

(** Lines 259-264 *)
Definition error_id_block : block parse_locals :=
  fun l =>
    match py_in "error_id:" (error_message l) with
    | Raise e => (l, Some e)
    | Return false => (l, None)
    | Return true =>
        match scan_error_id (error_message l) with
        | Return i =>
            ({| error_message := error_message l; error_data := error_data l;
                error_type := error_type l; error_id := i |}, None)
        | Raise e =>
            (* except Exception: pass *)
            if isinstance e Exception then (l, None) else (l, Some e)
        end
    end.

Definition set_error_type (t : string) (l : parse_locals) : parse_locals :=
  {| error_message := error_message l; error_data := error_data l;
     error_type := t; error_id := error_id l |}.

(** Lines 266-270 *)
Definition classify_block (error : exn) (error_str : string) : block parse_locals :=
  fun l =>
    if isinstance error (Class ValueError) && Py.contains "Model" error_str
    then (set_error_type "model_not_found" l, None)
    else
      match py_in "Internal server error" (error_message l) with
      | Raise e => (l, Some e)
      | Return true => (set_error_type "poe_server_error" l, None)
      | Return false => (l, None)
      end.

(** The body of the [try] of [parse_poe_error], lines 241-270. *)
Definition parse_try (error : exn) : block parse_locals :=
  let error_str := exn_text error in
  and_then (extract_block error_str)
           (and_then error_id_block (classify_block error error_str)).

Definition parse_initial (error : exn) : parse_locals :=
  {| error_message := JStr (exn_text error); error_data := JNull;
     error_type := "server_error"; error_id := JNull |}.

(** [parse_poe_error], lines 225-278: the tuple it returns is the record of
    its four local variables. *)
Definition parse_poe_error (error : exn) : result parse_locals :=
  match parse_try error (parse_initial error) with
  | (l, None) => Return l
  | (l, Some e) =>
      (* except json.JSONDecodeError: pass *)
      if isinstance e (Class JSONDecodeError) then Return l
      (* except Exception: pass *)
      else if isinstance e Exception then Return l
      else Raise e
  end.

(** ** The error path of [chat_completions], lines 554-612 *)

(** [{"error": {"message": .., "type": .., "poe_error": ..}}] with the
    [error_id] member when the identifier is truthy. *)
Definition poe_error_detail (message : json) (type : string) (data id : json) : json :=
  let inner := [("message", message); ("type", JStr type); ("poe_error", data)] in
  JObj [("error",
         JObj (if Json.truthy id then Json.dict_set "error_id" id inner else inner))].

Definition plain_error_detail (message : json) (type : string) : json :=
  JObj [("error", JObj [("message", message); ("type", JStr type)])].

(** The [except Exception as e] clause: the exception it raises. *)
Definition chat_completions_except (e : exn) : exn :=
  if isinstance e (Class HTTPException) then e
  else if isinstance e (Class PoeAPIError) then
    if Json.truthy (exn_data e)
    then http_exception (status_code e)
           (poe_error_detail (JStr (exn_text e)) "poe_api_error" (exn_data e) (exn_id e))
    else http_exception (status_code e)
           (plain_error_detail (JStr (exn_text e)) "poe_api_error")
  else if isinstance e (Class ValueError) then
    if Py.contains "Model" (exn_text e)
    then http_exception 404 (plain_error_detail (JStr (exn_text e)) "invalid_request_error")
    else http_exception 400 (plain_error_detail (JStr (exn_text e)) "invalid_request_error")
  else
    match parse_poe_error e with
    | Raise e' => e'
    | Return l =>
        if Json.truthy (error_data l)
        then http_exception 500
               (poe_error_detail (error_message l) (error_type l) (error_data l) (error_id l))
        else http_exception 500 (plain_error_detail (error_message l) (error_type l))
    end.

(** The type of an error body, [detail["error"]["type"]]. *)
Definition detail_type (detail : json) : option json :=
  match Json.get "error" detail with
  | Some inner => Json.get "type" inner
  | None => None
  end.

(** [create_error_response], lines 129-146. *)
Definition error_types : list (Z * string) :=
  [(400, "invalid_request_error"); (401, "authentication_error");
   (403, "permission_error"); (404, "not_found_error");
   (429, "rate_limit_error"); (500, "server_error")]%Z.

Fixpoint assoc_Z (k : Z) (d : list (Z * string)) : option string :=
  match d with
  | [] => None
  | (k', v) :: rest => if Z.eqb k k' then Some v else assoc_Z k rest
  end.

Definition create_error_response
  (message error_type : string) (status : Z) (param : option string) : exn :=
  let type :=
    if negb (String.eqb error_type EmptyString) then error_type
    else match assoc_Z status error_types with
         | Some t => t
         | None => "server_error"
         end in
  let err := [("message", JStr message); ("type", JStr type)] in
  http_exception status
    (JObj (match param with
           | Some p =>
               if negb (String.eqb p EmptyString)
               then Json.dict_set "param" (JStr p) err else err
           | None => err
           end)).

(* ===================================================================== *)
(** * Request normalizer: roles *)
(* ===================================================================== *)

(** [normalize_role], server.py lines 214-222. *)
Definition normalize_role (role : string) : string :=
  if String.eqb role "user" then "user"
  else if String.eqb role "assistant" then "bot"
  else if String.eqb role "system" then "system"
  else role.

(** [normalize_model], lines 149-155 *)
Definition normalize_model (model : string) : string := Py.strip model.

(* ===================================================================== *)
(** * Token accounting *)
(* ===================================================================== *)

(** The dict that [count_message_tokens] builds: always these three keys. *)
Record TokenCounts : Type := {
  prompt_tokens : Z;
  completion_tokens : Z;
  total_tokens : Z
}.

(** The dict as it is serialised in a chunk. *)
Definition usage_json (t : TokenCounts) : json :=
  JObj [("prompt_tokens", JInt (prompt_tokens t));
        ("completion_tokens", JInt (completion_tokens t));
        ("total_tokens", JInt (total_tokens t))].

(** [token_counts["completion_tokens"] = v] *)
Definition set_completion_tokens (v : Z) (t : TokenCounts) : TokenCounts :=
  {| prompt_tokens := prompt_tokens t; completion_tokens := v;
     total_tokens := total_tokens t |}.

(** [token_counts["total_tokens"] = v] *)
Definition set_total_tokens (v : Z) (t : TokenCounts) : TokenCounts :=
  {| prompt_tokens := prompt_tokens t; completion_tokens := completion_tokens t;
     total_tokens := v |}.

Section Bridge.
Context `{Env}.
Local Open Scope world_scope.

(** [count_tokens], lines 385-396 *)
Definition count_tokens (text : string) : Z :=
  match tiktoken_len text with
  | Some n => Z.of_nat n
  | None => (Z.of_nat (String.length text) / 4)%Z
  end.

(** The loop of [count_message_tokens], lines 409-417 *)
Fixpoint count_roles (messages : list ProtocolMessage) (prompt completion : Z)
  : Z * Z :=
  match messages with
  | [] => (prompt, completion)
  | msg :: rest =>
      let token_count := count_tokens (content msg) in
      if String.eqb (role msg) "bot" || String.eqb (role msg) "assistant"
      then count_roles rest prompt (completion + token_count)%Z
      else count_roles rest (prompt + token_count)%Z completion
  end.

(** [count_message_tokens], lines 399-426 *)
Definition count_message_tokens (messages : list ProtocolMessage) : TokenCounts :=
  let '(prompt, completion) := count_roles messages 0%Z 0%Z in
  let prompt := (prompt + 3)%Z in
  {| prompt_tokens := prompt; completion_tokens := completion;
     total_tokens := (prompt + completion)%Z |}.

(** Lines 817-819 (and 836-840): the counters after the stream. *)
Definition recount (accumulated_response : string) (t : TokenCounts) : TokenCounts :=
  let completion := count_tokens accumulated_response in
  let t1 := set_completion_tokens completion t in
  set_total_tokens (prompt_tokens t1 + completion)%Z t1.

(* =================================================================== *)
(** * Attachment pipeline *)
(* =================================================================== *)

(** The [extension_map] of [process_base64_image] *)
Definition extension_of (mime_type : string) : string :=
  if String.eqb mime_type "image/jpeg" then "jpg"
  else if String.eqb mime_type "image/png" then "png"
  else if String.eqb mime_type "image/webp" then "webp"
  else if String.eqb mime_type "image/gif" then "gif"
  else if String.eqb mime_type "application/pdf" then "pdf"
  else "bin".

(** The [try] of [process_base64_image], lines 284-311 *)
Definition process_base64_image_try (data_url api_key : string)
  : M (result Attachment) :=
  if negb (Py.startswith data_url "data:")
  then ret (Raise (py_error ValueError "Invalid data URL format"))
  else
    match Py.split1 data_url ";base64," with
    | [header; data] =>
        let mime_type := Py.drop 5 header in
        match b64decode data with
        | None => ret (Raise (py_error ValueError "Incorrect padding"))
        | Some file_data =>
            let file_name := "uploaded_file." ++ extension_of mime_type in
            call_upload (FileBytes file_data file_name) api_key
        end
    | _ =>
        ret (Raise (py_error ValueError "not enough values to unpack"))
    end.

(** [process_base64_image], lines 281-314: every exception leaves as a
    [ValueError]. *)
Definition process_base64_image (data_url api_key : string)
  : M (result Attachment) :=
  r <- process_base64_image_try data_url api_key ;;
  ret match r with
      | Return a => Return a
      | Raise e =>
          if isinstance e Exception
          then Raise (py_error ValueError
                        ("Failed to process base64 image: " ++ exn_text e))
          else Raise e
      end.

(** [process_image_url], lines 317-326 *)
Definition process_image_url (target api_key : string) : M (result Attachment) :=
  r <- call_upload (FileUrl target) api_key ;;
  ret match r with
      | Return a => Return a
      | Raise e =>
          if isinstance e Exception
          then Raise (py_error ValueError
                        ("Failed to process image URL: " ++ exn_text e))
          else Raise e
      end.

(* =================================================================== *)
(** * Request normalizer: content *)
(* =================================================================== *)

(** The two lists [convert_openai_content_to_poe] fills. *)
Definition parts_state : Type := (list json * list Attachment)%type.

(** Lines 350-357 (and 370-375): a data URL is decoded and uploaded, any
    other URL is handed to the upstream. *)
Definition upload_image (u api_key : string) : M (result Attachment) :=
  if Py.startswith u "data:" then process_base64_image u api_key
  else process_image_url u api_key.

(** Lines 349-363 (and 369-380): upload one image and leave a textual
    anchor; [failed] opens the text left when the upload raises a
    [ValueError].  Only a string has [startswith]. *)
Definition attach_image (target : json) (failed : string) (api_key : string)
    (st : parts_state) : M (result parts_state) :=
  let '(text_parts, attachments) := st in
  match target with
  | JStr u =>
      r <- upload_image u api_key ;;
      ret match r with
          | Return a =>
              Return ((text_parts ++
                         [JStr ((if Py.startswith u "data:"
                                 then "[Uploaded Image: "
                                 else "[Image from URL: ") ++ name a ++ "]")])%list,
                      (attachments ++ [a])%list)
          | Raise e =>
              if isinstance e (Class ValueError)
              then Return ((text_parts ++ [JStr (failed ++ u ++ "]")])%list,
                           attachments)
              else Raise e
          end
  | _ => ret (Raise (py_error AttributeError "object has no attribute startswith"))
  end.

(** [comp.get(..) == t] for the [type] member of a part *)
Definition type_is (d : list (string * json)) (t : string) : bool :=
  match Json.dict_get "type" d with
  | Some v => Json.eqb_str v t
  | None => false
  end.

(** One content part, lines 340-380 *)
Definition convert_part (comp : json) (api_key : string) (st : parts_state)
  : M (result parts_state) :=
  let '(text_parts, attachments) := st in
  match comp with
  | JObj d =>
      match (if type_is d "text" then Json.dict_get "text" d else None) with
      | Some t => ret (Return ((text_parts ++ [t])%list, attachments))
      | None =>
          if type_is d "image_url" then
            let image_url_obj :=
              match Json.dict_get "image_url" d with
              | Some v => v
              | None => JObj []
              end in
            match py_get image_url_obj "url" (JStr EmptyString) with
            | Raise e => ret (Raise e)
            | Return target =>
                if Json.truthy target
                then attach_image target "[Image (upload failed): " api_key st
                else ret (Return st)
            end
          else if type_is d "image" then
            let image_url :=
              match Json.dict_get "image_url" d with
              | Some v => v
              | None => JStr EmptyString
              end in
            if Json.truthy image_url
            then attach_image image_url "[Image: " api_key st
            else ret (Return st)
          else ret (Return st)
      end
  | _ => ret (Return st)
  end.

(** The loop of [convert_openai_content_to_poe], lines 339-380 *)
Fixpoint convert_parts (content : list json) (api_key : string) (st : parts_state)
  : M (result parts_state) :=
  match content with
  | [] => ret (Return st)
  | comp :: rest =>
      r <- convert_part comp api_key st ;;
      match r with
      | Return st' => convert_parts rest api_key st'
      | Raise e => ret (Raise e)
      end
  end.

(** [sep.join(parts)]: every part must be a string. *)
Fixpoint py_join_items (parts : list json) : result (list string) :=
  match parts with
  | [] => Return []
  | JStr s :: rest =>
      match py_join_items rest with
      | Return l => Return (s :: l)
      | Raise e => Raise e
      end
  | _ :: _ => Raise (py_error TypeError "sequence item: expected str instance")
  end.

Definition py_join (sep : string) (parts : list json) : result string :=
  match py_join_items parts with
  | Return l => Return (Py.join sep l)
  | Raise e => Raise e
  end.

(** [convert_openai_content_to_poe], lines 329-382 *)
Definition convert_openai_content_to_poe (content : list json) (api_key : string)
  : M (result (string * list Attachment)) :=
  r <- convert_parts content api_key ([], []) ;;
  ret match r with
      | Raise e => Raise e
      | Return (text_parts, attachments) =>
          match py_join " " text_parts with
          | Return joined => Return (joined, attachments)
          | Raise e => Raise e
          end
      end.

(** ** The message loop of [chat_completions], lines 459-497 *)

(** [ChatCompletionMessage]: [content] is any value. *)
Record ChatCompletionMessage : Type := {
  msg_role : string;
  msg_content : json
}.

(** The fallback of lines 476-487, one part *)
Definition fallback_part (comp : json) (parts : list json) : result (list json) :=
  match comp with
  | JObj d =>
      match (if type_is d "text" then Json.dict_get "text" d else None) with
      | Some t => Return (parts ++ [t])%list
      | None =>
          if type_is d "image_url" then
            let obj := match Json.dict_get "image_url" d with
                       | Some v => v
                       | None => JObj []
                       end in
            match py_get obj "url" (JStr EmptyString) with
            | Raise e => Raise e
            | Return u => Return (parts ++ [JStr ("[Image: " ++ fmt u ++ "]")])%list
            end
          else if type_is d "image" then
            let u := match Json.dict_get "image_url" d with
                     | Some v => v
                     | None => JStr EmptyString
                     end in
            Return (parts ++ [JStr ("[Image: " ++ fmt u ++ "]")])%list
          else Return parts
      end
  | _ => Return parts
  end.

Fixpoint fallback_parts (content parts : list json) : result (list json) :=
  match content with
  | [] => Return parts
  | comp :: rest =>
      match fallback_part comp parts with
      | Return parts' => fallback_parts rest parts'
      | Raise e => Raise e
      end
  end.

(** [fp.ProtocolMessage(role=.., content=.., attachments=..)]: the content
    must be a string, or the validation raises (a [ValueError]). *)
Definition protocol_message (r : string) (c : json) (atts : list Attachment)
  : result ProtocolMessage :=
  match c with
  | JStr s => Return {| role := r; content := s; attachments := atts |}
  | _ => Raise (py_error ValueError "validation error for ProtocolMessage")
  end.

(** One turn of the loop, lines 461-497 *)
Definition prepare_message (msg : ChatCompletionMessage) (api_key : string)
  : M (result ProtocolMessage) :=
  let r := normalize_role (msg_role msg) in
  let c := if Json.truthy (msg_content msg) then msg_content msg
           else JStr EmptyString in
  match c with
  | JArr parts =>
      conv <- convert_openai_content_to_poe parts api_key ;;
      ret match conv with
          | Return (text_content, file_attachments) =>
              protocol_message r (JStr text_content) file_attachments
          | Raise e =>
              if isinstance e Exception then
                match fallback_parts parts [] with
                | Raise e' => Raise e'
                | Return ps =>
                    match py_join " " ps with
                    | Raise e' => Raise e'
                    | Return joined => protocol_message r (JStr joined) []
                    end
                end
              else Raise e
          end
  | _ => ret (protocol_message r c [])
  end.

Fixpoint prepare_messages (msgs : list ChatCompletionMessage) (api_key : string)
    (messages : list ProtocolMessage) : M (result (list ProtocolMessage)) :=
  match msgs with
  | [] => ret (Return messages)
  | msg :: rest =>
      r <- prepare_message msg api_key ;;
      match r with
      | Return m => prepare_messages rest api_key (messages ++ [m])%list
      | Raise e => ret (Raise e)
      end
  end.

(* =================================================================== *)
(** * Chunk formatter *)
(* =================================================================== *)

(** [create_stream_chunk], lines 681-732 *)
Definition create_stream_chunk (message_text model format_type : string)
    (is_first_chunk is_replace : bool) : M json :=
  chunk_id <- call_urandom_hex ;;
  timestamp <- call_time ;;
  ret (if String.eqb format_type "completion" then
         JObj [("id", JStr ("cmpl-" ++ chunk_id));
               ("object", JStr "text_completion");
               ("created", JInt timestamp);
               ("model", JStr model);
               ("choices",
                JArr [JObj [("text", JStr message_text);
                            ("index", JInt 0);
                            ("logprobs", JNull);
                            ("finish_reason", JNull)]])]
       else if String.eqb format_type "chat" then
         JObj [("id", JStr ("chatcmpl-" ++ chunk_id));
               ("object", JStr "chat.completion.chunk");
               ("created", JInt timestamp);
               ("model", JStr model);
               ("choices",
                JArr [JObj [("index", JInt 0);
                            ("delta",
                             JObj (Json.dict_set "content" (JStr message_text)
                                     (if is_first_chunk
                                      then [("role", JStr "assistant")]
                                      else [])));
                            ("finish_reason", JNull);
                            ("logprobs", JNull)]])]
       else
         JObj [("response", JStr message_text);
               ("done", JBool false);
               ("is_replace", JBool is_replace)]).

(** [if token_counts: result["usage"] = token_counts]: the dict of the
    counters has three keys and is truthy. *)
Definition with_usage (token_counts : option TokenCounts)
    (chunk : list (string * json)) : json :=
  JObj match token_counts with
       | Some t => Json.dict_set "usage" (usage_json t) chunk
       | None => chunk
       end.

(** [create_final_chunk], lines 735-772 *)
Definition create_final_chunk (model format_type : string)
    (token_counts : option TokenCounts) : M json :=
  chunk_id <- call_urandom_hex ;;
  timestamp <- call_time ;;
  ret (if String.eqb format_type "completion" then
         with_usage token_counts
           [("id", JStr ("cmpl-" ++ chunk_id));
            ("object", JStr "text_completion");
            ("created", JInt timestamp);
            ("model", JStr model);
            ("choices",
             JArr [JObj [("text", JStr EmptyString);
                         ("index", JInt 0);
                         ("logprobs", JNull);
                         ("finish_reason", JStr "stop")]])]
       else if String.eqb format_type "chat" then
         with_usage token_counts
           [("id", JStr ("chatcmpl-" ++ chunk_id));
            ("object", JStr "chat.completion.chunk");
            ("created", JInt timestamp);
            ("model", JStr model);
            ("choices",
             JArr [JObj [("index", JInt 0);
                         ("logprobs", JNull);
                         ("delta", JObj []);
                         ("finish_reason", JStr "stop")]])]
       else
         with_usage token_counts
           [("response", JStr EmptyString); ("done", JBool true)]).

(* =================================================================== *)
(** * Streaming adapter *)
(* =================================================================== *)

(** One item of an event stream: [Data j] stands for the bytes of
    [data: ] followed by [json.dumps(j)] and a blank line, [Done] for the
    bytes of [data: [DONE]] and a blank line. *)
Inductive sse : Type :=
| Data (payload : json)
| Done.

(** The variables the loop of [stream_response_with_replace] updates. *)
Record stream_locals : Type := {
  first_chunk : bool;
  accumulated_response : string
}.

(** The variables before the first event. *)
Definition stream_start : stream_locals :=
  {| first_chunk := true; accumulated_response := EmptyString |}.

(** Lines 801-803: the text of an event, with the URL of its attachment
    on a line of its own. *)
Definition message_text_of (message : PartialResponse) : string :=
  match attachment message with
  | Some a => text message ++ Py.nl ++ url a
  | None => text message
  end.

(** The body of the loop, lines 793-814: the variables after the event and
    the item yielded. *)
Definition stream_event (model format_type : string) (message : PartialResponse)
    (l : stream_locals) : M (stream_locals * sse) :=
  let is_replace := is_replace_response message in
  let accumulated := if is_replace then EmptyString else accumulated_response l in
  let message_text := message_text_of message in
  chunk <- create_stream_chunk message_text model format_type
             (first_chunk l) is_replace ;;
  ret ({| first_chunk := false;
          accumulated_response := accumulated ++ message_text |},
       Data chunk).

(** The loop over the events received before the stream ends. *)
Fixpoint stream_events (model format_type : string) (events : list PartialResponse)
    (l : stream_locals) : M (stream_locals * list sse) :=
  match events with
  | [] => ret (l, [])
  | message :: rest =>
      ' (l1, item) <- stream_event model format_type message l ;;
      ' (l2, items) <- stream_events model format_type rest l1 ;;
      ret (l2, item :: items)
  end.

(** [format_type in ["completion", "chat"]] *)
Definition wants_done (format_type : string) : bool :=
  String.eqb format_type "completion" || String.eqb format_type "chat".

(** Lines 842-852: the payload of the error event. *)
Definition stream_error_payload (p : parse_locals) (accumulated_response : string)
    (token_counts : TokenCounts) : json :=
  let err := [("message", error_message p);
              ("type", JStr (error_type p));
              ("code", JStr (error_type p))] in
  let err := if Json.truthy (error_id p)
             then Json.dict_set "error_id" (error_id p) err else err in
  let payload := [("error", JObj err)] in
  JObj (if negb (String.eqb accumulated_response EmptyString)
        then Json.dict_set "usage" (usage_json token_counts) payload
        else payload).

(** The counters a generator holds when its stream has ended: lines
    816-819 after a normal end; lines 833-840 after an exception, where
    they are counted again only if some text had arrived. *)
Definition counters_at_end (ending : option exn) (accumulated_response : string)
    (token_counts : TokenCounts) : TokenCounts :=
  match ending with
  | None => recount accumulated_response token_counts
  | Some _ =>
      if negb (String.eqb accumulated_response EmptyString)
      then recount accumulated_response token_counts
      else token_counts
  end.

(** [stream_response_with_replace], lines 775-856: the items it yields,
    in order, and the exception that escapes it, if one does. *)
Definition stream_response_with_replace (model : string)
    (messages : list ProtocolMessage) (api_key format_type : string)
  : M (list sse * option exn) :=
  let model := normalize_model model in
  let token_counts := count_message_tokens messages in
  ' (events, ending) <- call_bot messages model api_key ;;
  ' (l, items) <- stream_events model format_type events stream_start ;;
  let token_counts :=
    counters_at_end ending (accumulated_response l) token_counts in
  match ending with
  | None =>
      final_chunk <- create_final_chunk model format_type (Some token_counts) ;;
      ret ((items ++ [Data final_chunk] ++
              (if wants_done format_type then [Done] else []))%list, None)
  | Some e =>
      match parse_poe_error e with
      | Raise e' => ret (items, Some e')
      | Return p =>
          ret ((items ++
                  [Data (stream_error_payload p (accumulated_response l)
                           token_counts)] ++
                  (if wants_done format_type then [Done] else []))%list, None)
      end
  end.

(** [stream_openai_format], lines 1333-1337 *)
Definition stream_openai_format (model : string) (messages : list ProtocolMessage)
    (api_key : string) : M (list sse * option exn) :=
  stream_response_with_replace model messages api_key "chat".

(** The buffer [accumulated_response] once the loop has seen [events]. *)
Definition stream_buffer (model format_type : string)
    (events : list PartialResponse) (w : World) : string :=
  accumulated_response
    (fst (fst (stream_events model format_type events stream_start w))).

(** ** Reading a chunk *)

(** [chunk["choices"][0]] *)
Definition first_choice (chunk : json) : option json :=
  match Json.get "choices" chunk with
  | Some (JArr (c :: _)) => Some c
  | _ => None
  end.

(** [chunk["choices"][0]["finish_reason"]] *)
Definition finish_reason_of (chunk : json) : option json :=
  match first_choice chunk with
  | Some c => Json.get "finish_reason" c
  | None => None
  end.

(** [chunk["choices"][0]["delta"]] *)
Definition delta_of (chunk : json) : option json :=
  match first_choice chunk with
  | Some c => Json.get "delta" c
  | None => None
  end.

(** A chunk that carries the stop signal. *)
Definition is_terminal (item : sse) : bool :=
  match item with
  | Data j =>
      match finish_reason_of j with
      | Some v => Json.eqb_str v "stop"
      | None => false
      end
  | Done => false
  end.

Definition is_done (item : sse) : bool :=
  match item with
  | Done => true
  | Data _ => false
  end.

(** The counters satisfy the invariant of the usage object. *)
Definition consistent (t : TokenCounts) : Prop :=
  total_tokens t = (prompt_tokens t + completion_tokens t)%Z.

(* =================================================================== *)
(** * The accumulation variant *)
(* =================================================================== *)

(** The variables the loop of [generate_poe_bot_response_with_files]
    updates; [response_content] is [response["content"]]. *)
Record accumulate_locals : Type := {
  accumulated_text : string;
  received_files : list Attachment;
  response_content : string
}.

(** The body of the loop, lines 1256-1268 *)
Definition accumulate_event (message : PartialResponse) (l : accumulate_locals)
  : accumulate_locals :=
  let accumulated :=
    (if is_replace_response message then EmptyString else accumulated_text l)
    ++ text message in
  {| accumulated_text := accumulated;
     received_files :=
       match attachment message with
       | Some a => (received_files l ++ [a])%list
       | None => received_files l
       end;
     response_content := accumulated |}.

Definition accumulate_events (events : list PartialResponse) (l : accumulate_locals)
  : accumulate_locals :=
  fold_left (fun l message => accumulate_event message l) events l.

Definition accumulate_start : accumulate_locals :=
  {| accumulated_text := EmptyString; received_files := [];
     response_content := EmptyString |}.

(** The buffer [accumulated_text] once the loop has seen [events]. *)
Definition accumulation_buffer (events : list PartialResponse) : string :=
  accumulated_text (accumulate_events events accumulate_start).

(** Lines 1283-1285 *)
Definition append_file_urls (files : list Attachment) (content : string) : string :=
  fold_left (fun c a => c ++ Py.nl ++ url a ++ Py.nl) files content.

(** [generate_poe_bot_response_with_files], lines 1240-1287 *)
Definition generate_poe_bot_response_with_files (model : string)
    (messages : list ProtocolMessage) (api_key : string) : M (result json) :=
  let model := normalize_model model in
  ' (events, ending) <- call_bot messages model api_key ;;
  let l := accumulate_events events accumulate_start in
  ret match ending with
      | Some e =>
          match parse_poe_error e with
          | Raise e' => Raise e'
          | Return p =>
              if Json.truthy (error_data p)
              then Raise (poe_api_error
                            ("Poe API Error: " ++ fmt (error_message p))
                            (error_data p) (error_id p))
              else Raise e
          end
      | None =>
          Return (JObj [("role", JStr "assistant");
                        ("content",
                         JStr (append_file_urls (received_files l)
                                 (response_content l)))])
      end.

(* =================================================================== *)
(** * [chat_completions] *)
(* =================================================================== *)

(** [ChatCompletionRequest], the fields the handler reads ([tools] is
    absent or empty). *)
Record ChatCompletionRequest : Type := {
  req_model : string;
  req_messages : list ChatCompletionMessage;
  req_stream : bool
}.

(** What a handler gives back. *)
Inductive response : Type :=
| JsonBody (body : json)
| EventStream (items : list sse) (escaped : option exn).

(** [response["content"]] of the dict the accumulation variant returns *)
Definition content_of (r : json) : string :=
  match Json.get "content" r with
  | Some (JStr s) => s
  | _ => EmptyString
  end.

(** The [try] of [chat_completions], lines 436-552 *)
Definition chat_completions_try (request : ChatCompletionRequest) (api_key : string)
  : M (result response) :=
  match req_messages request with
  | [] =>
      ret (Raise (http_exception 400
             (JObj [("error",
                     JObj [("message", JStr "Messages array cannot be empty");
                           ("type", JStr "invalid_request_error");
                           ("param", JStr "messages")])])))
  | _ =>
      prepared <- prepare_messages (req_messages request) api_key [] ;;
      match prepared with
      | Raise e => ret (Raise e)
      | Return messages =>
          if req_stream request then
            ' (items, escaped) <- stream_openai_format (req_model request)
                                    messages api_key ;;
            ret (Return (EventStream items escaped))
          else
            r <- generate_poe_bot_response_with_files (req_model request)
                   messages api_key ;;
            match r with
            | Raise e => ret (Raise e)
            | Return resp =>
                let token_counts := count_message_tokens messages in
                let token_counts := recount (content_of resp) token_counts in
                chunk_id <- call_urandom_hex ;;
                created <- call_time ;;
                ret (Return (JsonBody
                  (JObj [("id", JStr ("chatcmpl-" ++ chunk_id));
                         ("object", JStr "chat.completion");
                         ("created", JInt created);
                         ("model", JStr (req_model request));
                         ("choices",
                          JArr [JObj [("index", JInt 0);
                                      ("message",
                                       JObj [("role", JStr "assistant");
                                             ("content", JStr (content_of resp))]);
                                      ("finish_reason", JStr "stop")]]);
                         ("usage", usage_json token_counts)])))
            end
      end
  end.

(** [chat_completions], lines 432-612 *)
Definition chat_completions (request : ChatCompletionRequest) (api_key : string)
  : M (result response) :=
  r <- chat_completions_try request api_key ;;
  ret match r with
      | Return resp => Return resp
      | Raise e =>
          if isinstance e Exception then Raise (chat_completions_except e)
          else Raise e
      end.

(* =================================================================== *)
(** * Image endpoints *)
(* =================================================================== *)

(** [get_first_file_from_bot], lines 1073-1086: the first attachment of
    the stream; the stream is left at that event. *)
Fixpoint first_file (events : list PartialResponse) (ending : option exn)
  : result (option Attachment) :=
  match events with
  | [] => match ending with
          | Some e => Raise e
          | None => Return None
          end
  | message :: rest =>
      match attachment message with
      | Some a => Return (Some a)
      | None => first_file rest ending
      end
  end.

Definition get_first_file_from_bot (model : string)
    (messages : list ProtocolMessage) (api_key : string)
  : M (result (option Attachment)) :=
  ' (events, ending) <- call_bot messages model api_key ;;
  ret (first_file events ending).

(** [max(1, min(n or 1, 10))], lines 1097 and 1163 *)
Definition num_images_of (n : option Z) : Z :=
  let n_or_1 := match n with
                | Some v => if Z.eqb v 0 then 1%Z else v
                | None => 1%Z
                end in
  Z.max 1 (Z.min n_or_1 10).

(** The variables the loop of the image endpoints updates. *)
Record image_locals : Type := {
  data : list json;
  successful_generations : Z
}.

(** The body of the loop, lines 1106-1124 (and 1198-1216) *)
Definition image_attempt (model : string) (messages : list ProtocolMessage)
    (api_key : string) (response_format : option string) (l : image_locals)
  : M image_locals :=
  file_result <- get_first_file_from_bot model messages api_key ;;
  match file_result with
  | Raise e => ret l
  | Return None => ret l
  | Return (Some file) =>
      let is_b64 := match response_format with
                    | Some f => String.eqb f "b64_json"
                    | None => false
                    end in
      if is_b64 then
        img_response <- call_http_get (url file) ;;
        ret match img_response with
            | Raise e => l
            | Return bytes =>
                {| data := (data l ++ [JObj [("b64_json", JStr (b64encode bytes))]])%list;
                   successful_generations := (successful_generations l + 1)%Z |}
            end
      else
        ret {| data := (data l ++ [JObj [("url", JStr (url file))]])%list;
               successful_generations := (successful_generations l + 1)%Z |}
  end.

(** [for i in range(num_images)] *)
Fixpoint image_attempts (count : nat) (model : string)
    (messages : list ProtocolMessage) (api_key : string)
    (response_format : option string) (l : image_locals) : M image_locals :=
  match count with
  | O => ret l
  | S count' =>
      l1 <- image_attempt model messages api_key response_format l ;;
      image_attempts count' model messages api_key response_format l1
  end.

(** The end of both endpoints: the body of a 200, or the 500. *)
Definition image_result (l : image_locals) (failure type : string)
  : M (result json) :=
  if (0 <? successful_generations l)%Z then
    created <- call_time ;;
    ret (Return (JObj [("created", JInt created); ("data", JArr (data l))]))
  else
    ret (Raise (http_exception 500
           (JObj [("error", JObj [("message", JStr failure);
                                  ("type", JStr type)])]))).

(** [ImageGenerationRequest] *)
Record ImageGenerationRequest : Type := {
  img_prompt : string;
  img_model : option string;
  img_n : option Z;
  img_response_format : option string
}.

(** [x or default] for an optional string *)
Definition str_or (x : option string) (default : string) : string :=
  match x with
  | Some v => if String.eqb v EmptyString then default else v
  | None => default
  end.

(** [image_generations], lines 1092-1145 *)
Definition image_generations (request : ImageGenerationRequest) (api_key : string)
  : M (result json) :=
  let model := normalize_model (str_or (img_model request) "Imagen-3-Fast") in
  let num_images := num_images_of (img_n request) in
  let messages := [{| role := "user"; content := img_prompt request;
                      attachments := [] |}] in
  l <- image_attempts (Z.to_nat num_images) model messages api_key
         (img_response_format request)
         {| data := []; successful_generations := 0 |} ;;
  image_result l "Failed to generate image - no file returned from bot"
               "image_generation_error".

(** [image_edits], lines 1151-1237; [image_content] is what
    [image.read()] gives. *)
Definition image_edits (image_content prompt : string) (model : option string)
    (n : option Z) (response_format : option string) (api_key : string)
  : M (result json) :=
  let model := normalize_model (str_or model "StableDiffusionXL") in
  let num_images := num_images_of n in
  let image_b64 := b64encode image_content in
  let openai_content :=
    [JObj [("type", JStr "text"); ("text", JStr prompt)];
     JObj [("type", JStr "image_url");
           ("image_url",
            JObj [("url", JStr ("data:image/jpeg;base64," ++ image_b64))])]] in
  conv <- convert_openai_content_to_poe openai_content api_key ;;
  match conv with
  | Raise e =>
      ret match parse_poe_error e with
          | Raise e' => Raise e'
          | Return p =>
              Raise (http_exception 500
                       (JObj [("error", JObj [("message", error_message p);
                                              ("type", JStr (error_type p))])]))
          end
  | Return (poe_content, atts) =>
      let messages := [{| role := "user"; content := poe_content;
                          attachments := atts |}] in
      l <- image_attempts (Z.to_nat num_images) model messages api_key
             response_format
             {| data := []; successful_generations := 0 |} ;;
      image_result l "Failed to edit image - no file returned from bot"
                   "image_edit_error"
  end.

(** ** Reading the attempts off the oracles *)

(** What the attempt that makes bot call number [k] adds to [data]:
    nothing when the stream raises or closes before any file, nothing
    when the file is wanted as base64 and the fetch raises. *)
Definition attempt_entry (model : string) (messages : list ProtocolMessage)
    (api_key : string) (response_format : option string) (k : nat) : option json :=
  let stream := get_bot_response k messages model api_key in
  match first_file (fst stream) (snd stream) with
  | Return (Some file) =>
      if match response_format with
         | Some f => String.eqb f "b64_json"
         | None => false
         end
      then match http_get (S k) (url file) with
           | Return bytes => Some (JObj [("b64_json", JStr (b64encode bytes))])
           | Raise _ => None
           end
      else Some (JObj [("url", JStr (url file))])
  | _ => None
  end.

(** The attempt succeeded. *)
Definition attempt_succeeds (model : string) (messages : list ProtocolMessage)
    (api_key : string) (response_format : option string) (k : nat) : bool :=
  match attempt_entry model messages api_key response_format k with
  | Some _ => true
  | None => false
  end.

(** The entries of the successful attempts among [count] attempts that
    start at bot call number [first], in order. *)
Definition entries_of (model : string) (messages : list ProtocolMessage)
    (api_key : string) (response_format : option string) (first count : nat)
  : list json :=
  flat_map (fun k =>
              match attempt_entry model messages api_key response_format k with
              | Some entry => [entry]
              | None => []
              end)
           (seq first count).

(** The number of successful attempts among them. *)
Definition successes (model : string) (messages : list ProtocolMessage)
    (api_key : string) (response_format : option string) (first count : nat) : nat :=
  length (filter (attempt_succeeds model messages api_key response_format)
                 (seq first count)).

(** ** Predicates of the proofs *)

(** A chunk made for an event: it has no usage member and, in the chat
    and completion formats, no finish reason. *)
Definition content_item (format_type : string) (item : sse) : Prop :=
  exists (message_text model : string) (first replace : bool) (w : World),
    item = Data (fst (create_stream_chunk message_text model format_type
                        first replace w)).

(** Every text part collected so far is a string. *)
Definition all_strings (parts : list json) : Prop :=
  Forall (fun p => exists s : string, p = JStr s) parts.

(** The world after [count] more bot calls. *)
Definition after_bot_calls (count : nat) (w : World) : World :=
  {| bot_calls := bot_calls w + count; upload_calls := upload_calls w;
     urandom_calls := urandom_calls w; time_calls := time_calls w |}.

End Bridge.

(* ===================================================================== *)
(** * Worked inputs *)
(* ===================================================================== *)

(** A world that follows a script: the k-th bot call streams [streams k],
    the k-th upload gives [uploads k], the fetch after the k-th bot call
    gives [fetches k].  The tokenizer is down (so [count_tokens] falls back
    on a quarter of the length) and base64 is the identity. *)
Definition scripted (streams : nat -> BotStream)
    (uploads : nat -> result Attachment) (fetches : nat -> result string) : Env :=
  {| tiktoken_len := fun _ => None;
     b64decode := fun s => Some s;
     b64encode := fun s => s;
     upload_file := fun k _ _ => uploads k;
     get_bot_response := fun k _ _ _ => streams k;
     http_get := fun k _ => fetches k;
     urandom_hex := fun _ => "0123456789abcdef01234567";
     time_now := fun k => (1700000000 + Z.of_nat k)%Z;
     py_str := fun _ => "?" |}.

Definition world0 : World :=
  {| bot_calls := 0; upload_calls := 0; urandom_calls := 0; time_calls := 0 |}.

(** An event that appends, and one that replaces. *)
Definition delta (s : string) : PartialResponse :=
  {| text := s; is_replace_response := false; attachment := None |}.

Definition replace_delta (s : string) : PartialResponse :=
  {| text := s; is_replace_response := true; attachment := None |}.

(** The content parts of a message: a text part, an image part in the
    [image_url] form, an image part in the legacy [image] form. *)
Definition text_part (t : string) : json :=
  JObj [("type", JStr "text"); ("text", JStr t)].

Definition image_url_part (u : string) : json :=
  JObj [("type", JStr "image_url"); ("image_url", JObj [("url", JStr u)])].

Definition legacy_image_part (u : string) : json :=
  JObj [("type", JStr "image"); ("image_url", JStr u)].

Inductive well_formed_part : json -> Prop :=
| wf_text (t : string) : well_formed_part (text_part t)
| wf_image_url (u : string) : well_formed_part (image_url_part u)
| wf_legacy_image (u : string) : well_formed_part (legacy_image_part u).

(** A world whose stream is Hi, then replace Bye, and where every upload
    and every fetch fails. *)
Definition two_event_world : Env :=
  scripted (fun _ => ([delta "Hi"; replace_delta "Bye"], None))
           (fun _ => Raise (py_error OtherException "no upload"))
           (fun _ => Raise (py_error OtherException "no fetch")).

(** A generated file. *)
Definition picture (k : nat) : Attachment :=
  {| url := "https://files.example/" ++ String (ascii_of_nat (48 + k)) ".png";
     content_type := "image/png";
     name := "image.png" |}.

(** A world for five image attempts: the second stream raises, the fourth
    closes without a file, the others deliver a file. *)
Definition five_attempt_world : Env :=
  scripted (fun k =>
              match k with
              | 1 => ([delta "working"], Some (py_error OtherException "bot crashed"))
              | 3 => ([delta "sorry, no image"], None)
              | _ => ([delta "here it is";
                       {| text := EmptyString; is_replace_response := false;
                          attachment := Some (picture k) |}], None)
              end)
           (fun _ => Raise (py_error OtherException "no upload"))
           (fun _ => Raise (py_error OtherException "no fetch")).

(** A world where no attempt delivers a file. *)
Definition barren_world : Env :=
  scripted (fun k =>
              match k with
              | 0 => ([], Some (py_error OtherException "bot crashed"))
              | _ => ([delta "sorry, no image"], None)
              end)
           (fun _ => Raise (py_error OtherException "no upload"))
           (fun _ => Raise (py_error OtherException "no fetch")).

Definition five_images : ImageGenerationRequest :=
  {| img_prompt := "a lighthouse"; img_model := None; img_n := Some 5%Z;
     img_response_format := Some "url" |}.

(** The fault text [{"text": "no access", "error_id": "abc123"}] *)
Definition no_access_text : string :=
  "{" ++ Py.quoted "text" ++ ": " ++ Py.quoted "no access" ++ ", "
      ++ Py.quoted "error_id" ++ ": " ++ Py.quoted "abc123" ++ "}".

(** The fault text [{"text": 5}] *)
Definition numeric_text_fault : string := "{" ++ Py.quoted "text" ++ ": 5}".

(** The fault text [{"text": "no access (error_id: abc123)"}] *)
Definition tagged_text_fault : string :=
  "{" ++ Py.quoted "text" ++ ": " ++ Py.quoted "no access (error_id: abc123)" ++ "}".

(* ===================================================================== *)
(** * The status table of the specification *)
(* ===================================================================== *)

(** The table as the specification words it, from the kind of an error to
    its HTTP status: [invalid_request_error] 400, [authentication_error]
    401, [permission_error] 403, [not_found_error] and [model_not_found]
    404, [rate_limit_error] 429, everything else 500. *)
Definition spec_status_of_kind (kind : string) : Z :=
  if String.eqb kind "invalid_request_error" then 400
  else if String.eqb kind "authentication_error" then 401
  else if String.eqb kind "permission_error" then 403
  else if String.eqb kind "not_found_error" then 404
  else if String.eqb kind "model_not_found" then 404
  else if String.eqb kind "rate_limit_error" then 429
  else 500.

(** A block leaves the type of the error as it was, or sets it to [t]. *)
Definition type_kept_or (t : string) (l l' : parse_locals) : Prop :=
  error_type l' = error_type l \/ error_type l' = t.

(* ===================================================================== *)
(** * The other streaming and accumulation paths *)
(* ===================================================================== *)

Section Variants.
Context `{Env}.
Local Open Scope world_scope.

(** The body of the loop of [stream_response], lines 630-636: the text of
    the event alone, no replace flag. *)
Definition plain_event (model format_type : string) (message : PartialResponse)
    (l : stream_locals) : M (stream_locals * sse) :=
  chunk <- create_stream_chunk (text message) model format_type
             (first_chunk l) false ;;
  ret ({| first_chunk := false;
          accumulated_response := accumulated_response l ++ text message |},
       Data chunk).

Fixpoint plain_events (model format_type : string) (events : list PartialResponse)
    (l : stream_locals) : M (stream_locals * list sse) :=
  match events with
  | [] => ret (l, [])
  | message :: rest =>
      ' (l1, item) <- plain_event model format_type message l ;;
      ' (l2, items) <- plain_events model format_type rest l1 ;;
      ret (l2, item :: items)
  end.

(** [stream_response], lines 615-678 *)
Definition stream_response (model : string) (messages : list ProtocolMessage)
    (api_key format_type : string) : M (list sse * option exn) :=
  let model := normalize_model model in
  let token_counts := count_message_tokens messages in
  ' (events, ending) <- call_bot messages model api_key ;;
  ' (l, items) <- plain_events model format_type events stream_start ;;
  let token_counts :=
    counters_at_end ending (accumulated_response l) token_counts in
  match ending with
  | None =>
      final_chunk <- create_final_chunk model format_type (Some token_counts) ;;
      ret ((items ++ [Data final_chunk] ++
              (if wants_done format_type then [Done] else []))%list, None)
  | Some e =>
      match parse_poe_error e with
      | Raise e' => ret (items, Some e')
      | Return p =>
          ret ((items ++
                  [Data (stream_error_payload p (accumulated_response l)
                           token_counts)] ++
                  (if wants_done format_type then [Done] else []))%list, None)
      end
  end.

(** [stream_completions_format], lines 862-866 *)
Definition stream_completions_format (model : string)
    (messages : list ProtocolMessage) (api_key : string)
  : M (list sse * option exn) :=
  stream_response model messages api_key "completion".

(** The body of the loop of [stream_completions_format_with_files], lines
    882-893 *)
Definition files_event (model : string) (message : PartialResponse)
    (l : stream_locals) : M (stream_locals * sse) :=
  let message_text := message_text_of message in
  chunk <- create_stream_chunk message_text model "completion"
             (first_chunk l) false ;;
  ret ({| first_chunk := false;
          accumulated_response := accumulated_response l ++ message_text |},
       Data chunk).

Fixpoint files_events (model : string) (events : list PartialResponse)
    (l : stream_locals) : M (stream_locals * list sse) :=
  match events with
  | [] => ret (l, [])
  | message :: rest =>
      ' (l1, item) <- files_event model message l ;;
      ' (l2, items) <- files_events model rest l1 ;;
      ret (l2, item :: items)
  end.

(** [stream_completions_format_with_files], lines 869-924: the final chunk
    is made with the word completion for its model, and the sentinel is
    always sent. *)
Definition stream_completions_format_with_files (model : string)
    (messages : list ProtocolMessage) (api_key : string)
  : M (list sse * option exn) :=
  let model := normalize_model model in
  let token_counts := count_message_tokens messages in
  ' (events, ending) <- call_bot messages model api_key ;;
  ' (l, items) <- files_events model events stream_start ;;
  let token_counts :=
    counters_at_end ending (accumulated_response l) token_counts in
  match ending with
  | None =>
      final_chunk <- create_final_chunk "completion" "completion"
                       (Some token_counts) ;;
      ret ((items ++ [Data final_chunk; Done])%list, None)
  | Some e =>
      match parse_poe_error e with
      | Raise e' => ret (items, Some e')
      | Return p =>
          ret ((items ++
                  [Data (stream_error_payload p (accumulated_response l)
                           token_counts); Done])%list, None)
      end
  end.

(** The variables the loop of [generate_poe_bot_response] updates. *)
Record plain_locals : Type := {
  plain_text : string;
  plain_content : string
}.

(** The body of the loop, lines 1305-1314 *)
Definition plain_accumulate_event (message : PartialResponse) (l : plain_locals)
  : plain_locals :=
  let accumulated :=
    (if is_replace_response message then EmptyString else plain_text l)
    ++ text message in
  {| plain_text := accumulated; plain_content := accumulated |}.

(** [generate_poe_bot_response], lines 1290-1330 *)
Definition generate_poe_bot_response (model : string)
    (messages : list ProtocolMessage) (api_key : string) : M (result json) :=
  let model := normalize_model model in
  ' (events, ending) <- call_bot messages model api_key ;;
  let l := fold_left (fun l message => plain_accumulate_event message l) events
             {| plain_text := EmptyString; plain_content := EmptyString |} in
  ret match ending with
      | Some e =>
          match parse_poe_error e with
          | Raise e' => Raise e'
          | Return p =>
              if Json.truthy (error_data p)
              then Raise (poe_api_error
                            ("Poe API Error: " ++ fmt (error_message p))
                            (error_data p) (error_id p))
              else Raise e
          end
      | None =>
          Return (JObj [("role", JStr "assistant");
                        ("content", JStr (plain_content l))])
      end.

(** ** [completions], lines 1031-1070 *)



(** ** [global_exception_handler], lines 945-966 *)



End Variants.

(* ===================================================================== *)
(** * Bearer authentication *)
(* ===================================================================== *)

Module Auth.

(** [c.isspace()] for a character of a header value (one byte, one
    character): the ASCII blanks, the next-line control and the
    no-break space. *)
Definition isspace (c : ascii) : bool :=
  Py.isspace c || (nat_of_ascii c =? 133)%nat || (nat_of_ascii c =? 160)%nat.

(** [c.lower()] for such a character. *)
Definition lower_char (c : ascii) : ascii :=
  let n := nat_of_ascii c in
  if ((65 <=? n) && (n <=? 90))%nat then ascii_of_nat (n + 32)
  else if ((192 <=? n) && (n <=? 222) && negb (n =? 215))%nat
       then ascii_of_nat (n + 32)
  else c.

(** [s.lower()] *)
Fixpoint lower (s : string) : string :=
  match s with
  | EmptyString => EmptyString
  | String c rest => String (lower_char c) (lower rest)
  end.

(** [s.split()]: the runs of characters between blanks.  [word] is the run
    being read, in reverse. *)
Fixpoint split_from (s : string) (word : string) : list string :=
  match s with
  | EmptyString =>
      match word with
      | EmptyString => []
      | _ => [Py.rev word]
      end
  | String c rest =>
      if isspace c then
        match word with
        | EmptyString => split_from rest EmptyString
        | _ => Py.rev word :: split_from rest EmptyString
        end
      else split_from rest (String c word)
  end.

Definition split (s : string) : list string := split_from s EmptyString.

(** What [CustomHTTPBearer.__call__] gives: the credentials, or the
    [HTTPException] it raises, with its headers. *)
Inductive outcome : Type :=
| Credentials (scheme credentials : string)
| Refused (status : Z) (detail : json) (headers : list (string * string)).

Definition refused (message : string) : outcome :=
  Refused 401
    (JObj [("error", JObj [("message", JStr message);
                           ("type", JStr "authentication_error")])])
    [("WWW-Authenticate", "Bearer")].

(** [CustomHTTPBearer.__call__], lines 160-201; [authorization] is
    [request.headers.get(..)]. *)
Definition bearer (authorization : option string) : outcome :=
  match authorization with
  | None => refused "Authentication error: No token provided"
  | Some header =>
      if String.eqb header EmptyString
      then refused "Authentication error: No token provided"
      else
        match split header with
        | [scheme; credentials] =>
            if negb (String.eqb (lower scheme) "bearer")
            then refused ("Authentication error: Invalid scheme '" ++ scheme
                            ++ "' - must be 'Bearer'")
            else Credentials scheme credentials
        | _ => refused "Authentication error: Malformed Authorization header"
        end
  end.

(** [get_api_key], lines 207-211 *)
Definition get_api_key (authorization : option string) : result string :=
  match bearer authorization with
  | Credentials _ credentials => Return credentials
  | Refused status detail _ => Raise (http_exception status detail)
  end.

End Auth.

(* ===================================================================== *)
(** * Reading replies *)
(* ===================================================================== *)

(** The text a chunk carries for its event: [choices[0].text] in the
    completion format, [choices[0].delta.content] in the chat format,
    [response] otherwise. *)
Definition chunk_text (format_type : string) (item : sse) : option json :=
  match item with
  | Done => None
  | Data j =>
      if String.eqb format_type "completion" then
        match first_choice j with
        | Some c => Json.get "text" c
        | None => None
        end
      else if String.eqb format_type "chat" then
        match delta_of j with
        | Some d => Json.get "content" d
        | None => None
        end
      else Json.get "response" j
  end.

(** [choices[0].delta.role] of a chat chunk *)
Definition chunk_role (item : sse) : option json :=
  match item with
  | Done => None
  | Data j =>
      match delta_of j with
      | Some d => Json.get "role" d
      | None => None
      end
  end.

(** The error object of an error event. *)
Definition error_of (item : sse) : option json :=
  match item with
  | Done => None
  | Data j => Json.get "error" j
  end.

(** The four types [parse_poe_error] gives. *)
Definition known_type (t : string) : Prop :=
  t = "server_error" \/ t = "poe_api_error" \/
  t = "model_not_found" \/ t = "poe_server_error".



(** An event without replace flag and without attachment. *)
Definition plain_delta (message : PartialResponse) : Prop :=
  is_replace_response message = false /\ attachment message = None.

(** An entry of the data array with the one member [key]. *)
Definition entry_with (key : string) (entry : json) : Prop :=
  exists v : string, entry = JObj [(key, JStr v)].

(** The member of an image entry for a response format. *)
Definition entry_key (response_format : option string) : string :=
  match response_format with
  | Some f => if String.eqb f "b64_json" then "b64_json" else "url"
  | None => "url"
  end.

(** No character of [s] is a blank. *)
Definition no_blank (s : string) : Prop :=
  Json.all_chars (fun c => negb (Auth.isspace c)) s = true.

(** After the extraction the type is still the default, or it is
    poe_api_error and the payload is a JSON object. *)
Definition extracted (l : parse_locals) : Prop :=
  error_type l = "server_error" \/
  (error_type l = "poe_api_error" /\
   exists d : list (string * json), error_data l = JObj d).

(** What a loop over the events yields: as many chunks as events, each
    with the text [text_of] takes from its event, the first of which is
    made with the flag [first_chunk] of the start and the others without;
    and the buffer it leaves. *)
Definition loop_outcome (format_type : string)
    (text_of : PartialResponse -> string) (events : list PartialResponse)
    (l : stream_locals) (l' : stream_locals) (items : list sse) : Prop :=
  length items = length events /\
  map (chunk_text format_type) items
  = map (fun e => Some (JStr (text_of e))) events /\
  (format_type = "chat" ->
   match items with
   | [] => True
   | item :: later =>
       chunk_role item
       = (if first_chunk l then Some (JStr "assistant") else None) /\
       Forall (fun i => chunk_role i = None) later
   end) /\
  (events <> [] -> first_chunk l' = false) /\
  (events = [] -> l' = l).

(** The calls made between two worlds: at most [k] uploads, nothing
    else. *)
Definition uploads_between (w w' : World) (k : nat) : Prop :=
  bot_calls w' = bot_calls w /\ urandom_calls w' = urandom_calls w /\
  time_calls w' = time_calls w /\
  upload_calls w <= upload_calls w' <= upload_calls w + k.

(** An image part whose [image_url] member is not an object. *)
Definition flat_image_url_part (v : json) : json :=
  JObj [("type", JStr "image_url"); ("image_url", v)].


(* ===================================================================== *)
(** * Properties of the role mapping *)
(* ===================================================================== *)

(** C8. [normalize_role] is a total function on role strings: it sends
    user to user, assistant to bot and system to system, and returns every
    other role unchanged. *)
Theorem normalize_role_mapping :
  normalize_role "user" = "user" /\
  normalize_role "assistant" = "bot" /\
  normalize_role "system" = "system" /\
  (forall r : string, exists r' : string, normalize_role r = r') /\
  (forall r : string,
      normalize_role r = if String.eqb r "assistant" then "bot" else r).
Proof.
  repeat split; try reflexivity.
  - intros r. eexists. reflexivity.
  - intros r. unfold normalize_role.
    destruct (String.eqb_spec r "user") as [-> | _]; [reflexivity |].
    destruct (String.eqb_spec r "assistant") as [_ | _]; [reflexivity |].
    destruct (String.eqb_spec r "system") as [-> | _]; reflexivity.
Qed.

(* ===================================================================== *)
(** * Properties of the error normalizer *)
(* ===================================================================== *)

Lemma isinstance_Exception (e : exn) : isinstance e Exception = true.
Proof. reflexivity. Qed.

(** The handlers of [parse_poe_error] catch whatever its [try] raises. *)
Lemma parse_poe_error_returns (fault : exn) :
  parse_poe_error fault = Return (fst (parse_try fault (parse_initial fault))).
Proof.
  unfold parse_poe_error.
  destruct (parse_try fault (parse_initial fault)) as [l [e |]];
    [destruct (isinstance e (Class JSONDecodeError)) |]; reflexivity.
Qed.

(** ** The type a fault is given *)

Lemma load_error_data_type (payload s : string) (l : parse_locals) :
  type_kept_or "poe_api_error" l (fst (load_error_data payload s l)).
Proof.
  unfold load_error_data, type_kept_or.
  destruct (json_loads payload) as [data | e]; simpl; [| now left].
  destruct (py_get data "text" (JStr s)); simpl; [now right | now left].
Qed.

Lemma extract_block_type (s : string) (l : parse_locals) :
  type_kept_or "poe_api_error" l (fst (extract_block s l)).
Proof.
  unfold extract_block.
  destruct (Py.startswith s "{" && Py.endswith s "}").
  - apply load_error_data_type.
  - destruct (Py.contains "BotError('" s && Py.contains "')" s);
      [| now left].
    destruct (py_index (Py.split1 s "BotError('") 1) as [tail | e];
      [| now left].
    destruct (py_index (Py.rsplit1 tail "')") 0) as [part | e]; [| now left].
    pose proof (load_error_data_type part s l) as Hl.
    destruct (load_error_data part s l) as [l1 [e |]]; cbn [fst] in Hl;
      [destruct (isinstance e (Class JSONDecodeError)) |]; exact Hl.
Qed.

Lemma error_id_block_type (l : parse_locals) :
  error_type (fst (error_id_block l)) = error_type l.
Proof.
  unfold error_id_block.
  destruct (py_in "error_id:" (error_message l)) as [[|] | e]; try reflexivity.
  destruct (scan_error_id (error_message l)) as [i | e]; [reflexivity |].
  destruct (isinstance e Exception); reflexivity.
Qed.

Lemma classify_block_type (fault : exn) (s : string) (l : parse_locals) :
  isinstance fault (Class ValueError) = false ->
  type_kept_or "poe_server_error" l (fst (classify_block fault s l)).
Proof.
  intros Hv. unfold classify_block. rewrite Hv. simpl.
  destruct (py_in "Internal server error" (error_message l)) as [[|] | e];
    [now right | now left | now left].
Qed.

(** A fault that is no [ValueError] gets one of three types. *)
Lemma parse_try_type (fault : exn) :
  isinstance fault (Class ValueError) = false ->
  let t := error_type (fst (parse_try fault (parse_initial fault))) in
  t = "server_error" \/ t = "poe_api_error" \/ t = "poe_server_error".
Proof.
  intros Hv. unfold parse_try, and_then.
  pose proof (extract_block_type (exn_text fault) (parse_initial fault)) as H1.
  destruct (extract_block (exn_text fault) (parse_initial fault)) as [l1 [e |]];
    cbn [fst] in *.
  - destruct H1 as [-> | ->]; auto.
  - pose proof (error_id_block_type l1) as H2.
    destruct (error_id_block l1) as [l2 [e |]]; cbn [fst] in *.
    + rewrite H2. destruct H1 as [-> | ->]; auto.
    + pose proof (@classify_block_type fault (exn_text fault) l2 Hv) as H3.
      destruct (classify_block fault (exn_text fault) l2) as [l3 r];
        cbn [fst] in *.
      destruct H3 as [-> | ->]; auto.
      rewrite H2. destruct H1 as [-> | ->]; auto.
Qed.

(** ** The fault of the specification's example *)

(** C5, as the code has it.  A fault whose text is the JSON object with the
    members text = no access and error_id = abc123 is given the message
    no access and the type poe_api_error, the whole object as its data, and
    no identifier: the identifier is looked for in the message only, after
    the marker error_id: (second part: the same fault with the marker
    inside its text does get abc123). *)
Theorem parse_poe_error_no_access (fault : exn) :
  (exn_text fault = no_access_text ->
   parse_poe_error fault =
   Return {| error_message := JStr "no access";
             error_data := JObj [("text", JStr "no access");
                                 ("error_id", JStr "abc123")];
             error_type := "poe_api_error";
             error_id := JNull |}) /\
  (exn_text fault = tagged_text_fault ->
   parse_poe_error fault =
   Return {| error_message := JStr "no access (error_id: abc123)";
             error_data := JObj [("text", JStr "no access (error_id: abc123)")];
             error_type := "poe_api_error";
             error_id := JStr "abc123" |}).
Proof.
  destruct fault as [c t sc d i]; cbn [exn_text].
  split; intros ->; destruct c; vm_compute; reflexivity.
Qed.

(** The example fault, as any exception may carry it. *)
Lemma parse_poe_error_no_access_witness :
  parse_poe_error (py_error OtherException no_access_text) =
  Return {| error_message := JStr "no access";
            error_data := JObj [("text", JStr "no access");
                                ("error_id", JStr "abc123")];
            error_type := "poe_api_error";
            error_id := JNull |}.
Proof.
  apply (proj1 (parse_poe_error_no_access (py_error OtherException no_access_text))).
  reflexivity.
Defined.

(** C5, as stated, fails: the identifier of the example fault is not
    abc123 but None. *)
Lemma no_access_id_is_none :
  exists l : parse_locals,
    parse_poe_error (py_error OtherException no_access_text) = Return l /\
    error_message l = JStr "no access" /\
    error_type l = "poe_api_error" /\
    error_id l = JNull /\
    error_id l <> JStr "abc123".
Proof.
  eexists. split; [vm_compute; reflexivity |].
  cbn. repeat split. discriminate.
Qed.

(** ** The message after a swallowed exception *)

(** C7, at the fault whose text is the JSON object with text = 5.  The
    normalizer never raises, whatever the fault.  For this fault the test
    for the marker error_id: raises a TypeError inside the try, the handler
    swallows it, and the message returned is the number 5 taken from the
    JSON text, not the text of the fault. *)
Theorem parse_poe_error_numeric_text :
  (forall fault : exn, exists l : parse_locals, parse_poe_error fault = Return l) /\
  (exists e : exn,
      snd (parse_try (py_error OtherException numeric_text_fault)
             (parse_initial (py_error OtherException numeric_text_fault))) = Some e /\
      exn_class e = TypeError) /\
  (exists l : parse_locals,
      parse_poe_error (py_error OtherException numeric_text_fault) = Return l /\
      error_message l = JInt 5 /\
      error_message l <> JStr numeric_text_fault).
Proof.
  split; [| split].
  - intros fault. eexists. apply parse_poe_error_returns.
  - eexists. split; vm_compute; reflexivity.
  - eexists. split; [vm_compute; reflexivity |].
    cbn. split; [reflexivity | discriminate].
Qed.

(** ** The status of a chat error *)

Lemma detail_type_poe (message : json) (type : string) (data id : json) :
  detail_type (poe_error_detail message type data id) = Some (JStr type).
Proof. unfold poe_error_detail. destruct (Json.truthy id); reflexivity. Qed.

Lemma detail_type_plain (message : json) (type : string) :
  detail_type (plain_error_detail message type) = Some (JStr type).
Proof. reflexivity. Qed.

(** C6, as the code has it.  An HTTPException is raised again as it is.
    Any other failure leaves as an HTTPException whose status follows the
    class of the failure: a PoeAPIError keeps its own status code, with the
    kind poe_api_error; a ValueError gives the kind invalid_request_error,
    with 404 when its text mentions Model and 400 otherwise; anything else
    gives 500, with the kind the normalizer found (server_error,
    poe_api_error or poe_server_error).  The status is the one the table
    gives for the kind except for a ValueError that mentions Model, and for
    a PoeAPIError whose status code is not 500. *)
Theorem chat_error_status_by_class (e : exn) :
  isinstance e (Class HTTPException) = false ->
  exn_class (chat_completions_except e) = HTTPException /\
  exists kind : string,
    detail_type (exn_data (chat_completions_except e)) = Some (JStr kind) /\
    (if isinstance e (Class PoeAPIError) then
       kind = "poe_api_error" /\
       status_code (chat_completions_except e) = status_code e
     else if isinstance e (Class ValueError) then
       kind = "invalid_request_error" /\
       status_code (chat_completions_except e) =
       (if Py.contains "Model" (exn_text e) then 404 else 400)%Z
     else
       (kind = "server_error" \/ kind = "poe_api_error" \/
        kind = "poe_server_error") /\
       status_code (chat_completions_except e) = 500%Z) /\
    (isinstance e (Class ValueError) && Py.contains "Model" (exn_text e) = false ->
     (isinstance e (Class PoeAPIError) = true -> status_code e = 500%Z) ->
     status_code (chat_completions_except e) = spec_status_of_kind kind).
Proof.
  intros Hh. unfold chat_completions_except. rewrite Hh.
  destruct (isinstance e (Class PoeAPIError)) eqn:Hp.
  - destruct (Json.truthy (exn_data e)).
    + split; [reflexivity |]. exists "poe_api_error".
      split; [apply detail_type_poe |].
      split; [split; reflexivity |]. intros _ H5. cbn. now apply H5.
    + split; [reflexivity |]. exists "poe_api_error".
      split; [reflexivity |].
      split; [split; reflexivity |]. intros _ H5. cbn. now apply H5.
  - destruct (isinstance e (Class ValueError)) eqn:Hv.
    + destruct (Py.contains "Model" (exn_text e)).
      * split; [reflexivity |]. exists "invalid_request_error".
        split; [reflexivity |]. split; [split; reflexivity |].
        intros Hm. discriminate Hm.
      * split; [reflexivity |]. exists "invalid_request_error".
        split; [reflexivity |]. split; [split; reflexivity |].
        intros _ _. reflexivity.
    + rewrite parse_poe_error_returns.
      pose proof (parse_try_type e Hv) as Ht. cbv zeta in Ht.
      set (l := fst (parse_try e (parse_initial e))) in *.
      assert (Hs : spec_status_of_kind (error_type l) = 500%Z)
        by (destruct Ht as [-> | [-> | ->]]; reflexivity).
      destruct (Json.truthy (error_data l)).
      * split; [reflexivity |]. exists (error_type l).
        split; [apply detail_type_poe |]. split; [split; [exact Ht | reflexivity] |].
        intros _ _. rewrite Hs. reflexivity.
      * split; [reflexivity |]. exists (error_type l).
        split; [reflexivity |]. split; [split; [exact Ht | reflexivity] |].
        intros _ _. rewrite Hs. reflexivity.
Qed.

(** An upstream fault that is neither an HTTPException nor a ValueError. *)
Lemma chat_error_status_by_class_witness :
  isinstance (py_error OtherException no_access_text) (Class HTTPException) = false /\
  exn_class (chat_completions_except (py_error OtherException no_access_text))
  = HTTPException.
Proof.
  split; [reflexivity |].
  apply (chat_error_status_by_class (py_error OtherException no_access_text)).
  reflexivity.
Defined.

(** C6, as stated, fails: a ValueError that mentions Model leaves with the
    kind invalid_request_error and the status 404, where the table gives
    400 for that kind. *)
Lemma model_value_error_is_404 :
  exists kind : string,
    detail_type (exn_data (chat_completions_except
                             (py_error ValueError "Model gpt-x not found")))
    = Some (JStr kind) /\
    kind = "invalid_request_error" /\
    status_code (chat_completions_except
                   (py_error ValueError "Model gpt-x not found")) = 404%Z /\
    status_code (chat_completions_except
                   (py_error ValueError "Model gpt-x not found"))
    <> spec_status_of_kind kind.
Proof.
  exists "invalid_request_error". repeat split. vm_compute. discriminate.
Qed.

(* ===================================================================== *)
(** * Properties of the streaming adapter *)
(* ===================================================================== *)

Section StreamingProperties.
Context `{Env}.

(** The loop over two runs of events is the loop over the first, then the
    loop over the second from where the first stopped. *)
Lemma stream_events_app (model format_type : string)
    (es1 es2 : list PartialResponse) (l : stream_locals) (w : World) :
  stream_events model format_type (es1 ++ es2) l w =
  let '((l1, items1), w1) := stream_events model format_type es1 l w in
  let '((l2, items2), w2) := stream_events model format_type es2 l1 w1 in
  ((l2, (items1 ++ items2)%list), w2).
Proof.
  revert l w. induction es1 as [| e es1 IH]; intros l w.
  - cbn. destruct (stream_events model format_type es2 l w) as [[l2 items2] w2].
    reflexivity.
  - cbn [app stream_events]. unfold bind.
    destruct (stream_event model format_type e l w) as [[l1 item] w1].
    rewrite IH.
    destruct (stream_events model format_type es1 l1 w1) as [[l2 items1] w2].
    unfold ret. cbn beta iota.
    destruct (stream_events model format_type es2 l2 w2) as [[l3 items2] w3].
    reflexivity.
Qed.

Lemma stream_event_buffer (model format_type : string) (e : PartialResponse)
    (l : stream_locals) (w : World) :
  accumulated_response (fst (fst (stream_event model format_type e l w))) =
  (if is_replace_response e then EmptyString else accumulated_response l)
    ++ message_text_of e.
Proof. reflexivity. Qed.

Lemma accumulate_events_app (es1 es2 : list PartialResponse)
    (l : accumulate_locals) :
  accumulate_events (es1 ++ es2) l = accumulate_events es2 (accumulate_events es1 l).
Proof. unfold accumulate_events. apply fold_left_app. Qed.

Lemma response_content_is_buffer (events : list PartialResponse) :
  response_content (accumulate_events events accumulate_start) =
  accumulation_buffer events.
Proof.
  unfold accumulation_buffer.
  destruct events as [| e events] using rev_ind; [reflexivity |].
  rewrite accumulate_events_app. reflexivity.
Qed.

(** C1. In the streaming adapter and in the accumulation variant alike,
    the buffer after one more event is the text of that event appended to
    the buffer before it, or to the empty buffer when the event is a
    replace event, so that what came before a replace event is dropped.
    The events Hi, there give the buffer Hi there; the events Hi, replace
    Bye give the buffer Bye.  When the upstream stream closes, the reply of
    the accumulation variant holds that buffer, followed by the URLs of the
    files received. *)
Theorem replace_resets_buffer (model format_type : string)
    (messages : list ProtocolMessage) (api_key : string)
    (events : list PartialResponse) (e : PartialResponse) (w : World) :
  stream_buffer model format_type (events ++ [e]) w =
    (if is_replace_response e then EmptyString
     else stream_buffer model format_type events w) ++ message_text_of e /\
  accumulation_buffer (events ++ [e]) =
    (if is_replace_response e then EmptyString
     else accumulation_buffer events) ++ text e /\
  stream_buffer model format_type [delta "Hi"; delta " there"] w = "Hi there" /\
  stream_buffer model format_type [delta "Hi"; replace_delta "Bye"] w = "Bye" /\
  accumulation_buffer [delta "Hi"; delta " there"] = "Hi there" /\
  accumulation_buffer [delta "Hi"; replace_delta "Bye"] = "Bye" /\
  (get_bot_response (bot_calls w) messages (normalize_model model) api_key
   = (events, None) ->
   fst (generate_poe_bot_response_with_files model messages api_key w) =
   Return (JObj [("role", JStr "assistant");
                 ("content",
                  JStr (append_file_urls
                          (received_files (accumulate_events events accumulate_start))
                          (accumulation_buffer events)))])).
Proof.
  repeat split; try reflexivity.
  - unfold stream_buffer. rewrite stream_events_app.
    destruct (stream_events model format_type events stream_start w)
      as [[l1 items1] w1].
    cbn [fst]. reflexivity.
  - unfold accumulation_buffer. rewrite accumulate_events_app. reflexivity.
  - intros Hstream. unfold generate_poe_bot_response_with_files, bind, call_bot.
    rewrite Hstream. cbn [ret fst]. now rewrite response_content_is_buffer.
Qed.

(** ** What the generator yields *)

Lemma stream_events_items (model format_type : string)
    (events : list PartialResponse) (l : stream_locals) (w : World) :
  Forall (content_item format_type)
         (snd (fst (stream_events model format_type events l w))) /\
  length (snd (fst (stream_events model format_type events l w))) = length events.
Proof.
  revert l w. induction events as [| e events IH]; intros l w.
  - split; [constructor | reflexivity].
  - cbn [stream_events]. unfold bind.
    destruct (stream_event model format_type e l w) as [[l1 item] w1] eqn:He.
    specialize (IH l1 w1).
    destruct (stream_events model format_type events l1 w1) as [[l2 items] w2].
    cbn [ret fst snd length] in *. destruct IH as [IHf IHl].
    split; [| now rewrite IHl].
    constructor; [| exact IHf].
    unfold stream_event, bind in He.
    destruct (create_stream_chunk (message_text_of e) model format_type
                (first_chunk l) (is_replace_response e) w) as [chunk w'] eqn:Hc.
    cbn [ret] in He. injection He as _ <- _.
    exists (message_text_of e), model, (first_chunk l), (is_replace_response e), w.
    now rewrite Hc.
Qed.

Lemma content_item_no_usage (format_type : string) (j : json) :
  content_item format_type (Data j) -> Json.get "usage" j = None.
Proof.
  intros (t & m & f & r & w & [= ->]).
  unfold create_stream_chunk, bind, call_urandom_hex, call_time, ret.
  cbn [fst].
  destruct (String.eqb format_type "completion"); [reflexivity |].
  destruct (String.eqb format_type "chat"); reflexivity.
Qed.

Lemma content_item_chat (item : sse) :
  content_item "chat" item -> is_terminal item = false /\ is_done item = false.
Proof.
  intros (t & m & f & r & w & ->). split; reflexivity.
Qed.

Lemma final_chunk_usage (model format_type : string) (t : TokenCounts) (w : World) :
  Json.get "usage" (fst (create_final_chunk model format_type (Some t) w))
  = Some (usage_json t).
Proof.
  unfold create_final_chunk, bind, call_urandom_hex, call_time, ret.
  cbn [fst].
  destruct (String.eqb format_type "completion"); [reflexivity |].
  destruct (String.eqb format_type "chat"); reflexivity.
Qed.

Lemma error_payload_usage (p : parse_locals) (buffer : string) (t : TokenCounts) :
  Json.get "usage" (stream_error_payload p buffer t) =
  if negb (String.eqb buffer EmptyString) then Some (usage_json t) else None.
Proof.
  unfold stream_error_payload.
  destruct (negb (String.eqb buffer EmptyString)); reflexivity.
Qed.

(** The items of [stream_response_with_replace]: one chunk per event,
    then the final chunk or the error event, then the sentinel if the
    format has one.  No exception escapes. *)
Lemma stream_response_shape (model : string) (messages : list ProtocolMessage)
    (api_key format_type : string) (w : World) :
  let bot := normalize_model model in
  let stream := get_bot_response (bot_calls w) messages bot api_key in
  let run := stream_events bot format_type (fst stream) stream_start
               (snd (call_bot messages bot api_key w)) in
  let buffer := accumulated_response (fst (fst run)) in
  let counts := counters_at_end (snd stream) buffer (count_message_tokens messages) in
  fst (stream_response_with_replace model messages api_key format_type w) =
  ((snd (fst run) ++
      [Data match snd stream with
            | None => fst (create_final_chunk bot format_type (Some counts) (snd run))
            | Some e =>
                stream_error_payload (fst (parse_try e (parse_initial e)))
                  buffer counts
            end] ++
      (if wants_done format_type then [Done] else []))%list, None).
Proof.
  cbv zeta. unfold stream_response_with_replace, bind.
  unfold call_bot at 1. cbn [snd].
  destruct (get_bot_response (bot_calls w) messages (normalize_model model) api_key)
    as [events ending].
  cbn [fst snd].
  set (w1 := snd (call_bot messages (normalize_model model) api_key w)).
  change {| bot_calls := S (bot_calls w); upload_calls := upload_calls w;
            urandom_calls := urandom_calls w; time_calls := time_calls w |}
    with w1.
  destruct (stream_events (normalize_model model) format_type events stream_start w1)
    as [[l items] w2].
  cbn [fst snd]. destruct ending as [e |].
  - rewrite parse_poe_error_returns. reflexivity.
  - destruct (create_final_chunk (normalize_model model) format_type
                (Some (counters_at_end None (accumulated_response l)
                         (count_message_tokens messages))) w2) as [final w3].
    reflexivity.
Qed.

(** ** Usage counters *)

Lemma Data_inj (a b : json) : Data a = Data b -> a = b.
Proof. intros [= ->]. reflexivity. Qed.

Lemma count_message_tokens_consistent (messages : list ProtocolMessage) :
  consistent (count_message_tokens messages).
Proof.
  unfold count_message_tokens.
  destruct (count_roles messages 0 0) as [p c]. reflexivity.
Qed.

Lemma recount_consistent (buffer : string) (t : TokenCounts) :
  consistent (recount buffer t).
Proof. reflexivity. Qed.

Lemma counters_at_end_consistent (ending : option exn) (buffer : string)
    (t : TokenCounts) :
  consistent t -> consistent (counters_at_end ending buffer t).
Proof.
  intros Ht. unfold counters_at_end. destruct ending; [| apply recount_consistent].
  destruct (negb (String.eqb buffer EmptyString));
    [apply recount_consistent | exact Ht].
Qed.

(** C2. The total is the sum of the two other counters wherever the usage
    is computed or sent: in what [count_message_tokens] returns, in the
    counters held when the stream has ended (normally or not), in every
    usage member of an item the generator yields, and in the counters the
    non-streaming handler counts again.  The final chunk after a normal end does carry
    the counters, and so does the error event when some text had arrived. *)
Theorem usage_total_is_sum (model : string) (messages : list ProtocolMessage)
    (api_key format_type : string) (w : World) :
  consistent (count_message_tokens messages) /\
  (forall (ending : option exn) (buffer : string),
      consistent (counters_at_end ending buffer (count_message_tokens messages))) /\
  (forall (buffer : string),
      consistent (recount buffer (count_message_tokens messages))) /\
  (forall (j u : json),
      In (Data j)
         (fst (fst (stream_response_with_replace model messages api_key
                      format_type w))) ->
      Json.get "usage" j = Some u ->
      exists t : TokenCounts, u = usage_json t /\ consistent t) /\
  (exists (items tail : list sse) (last : json) (t : TokenCounts),
      fst (fst (stream_response_with_replace model messages api_key format_type w))
      = (items ++ Data last :: tail)%list /\
      Forall (content_item format_type) items /\
      consistent t /\
      Json.get "usage" last =
      match snd (get_bot_response (bot_calls w) messages (normalize_model model)
                   api_key) with
      | None => Some (usage_json t)
      | Some _ =>
          if String.eqb
               (stream_buffer (normalize_model model) format_type
                  (fst (get_bot_response (bot_calls w) messages
                          (normalize_model model) api_key))
                  (snd (call_bot messages (normalize_model model) api_key w)))
               EmptyString
          then None else Some (usage_json t)
      end).
Proof.
  pose proof (count_message_tokens_consistent messages) as Hc.
  pose proof (stream_response_shape model messages api_key format_type w) as Hs.
  cbv zeta in Hs.
  set (bot := normalize_model model) in *.
  set (stream := get_bot_response (bot_calls w) messages bot api_key) in *.
  set (w1 := snd (call_bot messages bot api_key w)) in *.
  pose proof (stream_events_items bot format_type (fst stream) stream_start w1)
    as [Hitems _].
  fold (stream_buffer bot format_type (fst stream) w1) in Hs.
  set (buffer := stream_buffer bot format_type (fst stream) w1) in *.
  set (counts := counters_at_end (snd stream) buffer (count_message_tokens messages))
    in *.
  assert (Hcounts : consistent counts)
    by (apply counters_at_end_consistent; exact Hc).
  split; [exact Hc |].
  split; [intros; apply counters_at_end_consistent; exact Hc |].
  split; [intros; apply recount_consistent |].
  split.
  - intros j u Hin Hu. rewrite Hs in Hin. cbn [fst] in Hin.
    apply in_app_or in Hin. destruct Hin as [Hin | Hin].
    + rewrite Forall_forall in Hitems. apply Hitems in Hin.
      apply content_item_no_usage in Hin. congruence.
    + apply in_app_or in Hin. destruct Hin as [[Hin | []] | Hin].
      * apply Data_inj in Hin. subst j. exists counts. split; [| exact Hcounts].
        clearbody counts. revert Hu. destruct (snd stream) as [e |]; intros Hu.
        -- rewrite error_payload_usage in Hu.
           destruct (negb (String.eqb buffer EmptyString)); congruence.
        -- rewrite final_chunk_usage in Hu. congruence.
      * destruct (wants_done format_type); [| destruct Hin].
        destruct Hin as [Hin | []]. discriminate Hin.
  - rewrite Hs. cbn [fst].
    eexists _, _, _, counts. split; [reflexivity |].
    split; [exact Hitems |]. split; [exact Hcounts |].
    destruct (snd stream) as [e |].
    + rewrite error_payload_usage.
      destruct (String.eqb buffer EmptyString); reflexivity.
    + apply final_chunk_usage.
Qed.

(** ** The end of a chat stream *)

Lemma filter_none {A} (f : A -> bool) (l : list A) :
  Forall (fun x => f x = false) l -> filter f l = [].
Proof.
  induction 1 as [| x l Hx _ IH]; [reflexivity |].
  cbn. now rewrite Hx.
Qed.

Lemma final_chunk_chat (model : string) (t : TokenCounts) (w : World) :
  finish_reason_of (fst (create_final_chunk model "chat" (Some t) w))
  = Some (JStr "stop") /\
  delta_of (fst (create_final_chunk model "chat" (Some t) w)) = Some (JObj []).
Proof. split; reflexivity. Qed.

(** C3. When the upstream stream of a chat request closes after its
    events, the generator yields one chunk per event, none of which is
    terminal, then one terminal chunk (stop signal, empty delta, the
    usage counted from the whole buffer), then the sentinel, and nothing
    else: there is exactly one terminal chunk and exactly one sentinel,
    however many events came. *)
Theorem chat_stream_ends_with_usage_then_done (model : string)
    (messages : list ProtocolMessage) (api_key : string) (w : World)
    (events : list PartialResponse) :
  get_bot_response (bot_calls w) messages (normalize_model model) api_key
  = (events, None) ->
  exists (chunks : list sse) (final : json),
    fst (stream_openai_format model messages api_key w)
    = ((chunks ++ [Data final; Done])%list, None) /\
    length chunks = length events /\
    Forall (fun item => is_terminal item = false /\ is_done item = false) chunks /\
    finish_reason_of final = Some (JStr "stop") /\
    delta_of final = Some (JObj []) /\
    Json.get "usage" final =
      Some (usage_json
              (recount
                 (stream_buffer (normalize_model model) "chat" events
                    (snd (call_bot messages (normalize_model model) api_key w)))
                 (count_message_tokens messages))) /\
    length (filter is_terminal (chunks ++ [Data final; Done])) = 1 /\
    length (filter is_done (chunks ++ [Data final; Done])) = 1.
Proof.
  intros Hstream. unfold stream_openai_format.
  pose proof (stream_response_shape model messages api_key "chat" w) as Hs.
  cbv zeta in Hs. rewrite Hstream in Hs. cbn [fst snd] in Hs.
  set (bot := normalize_model model) in *.
  set (w1 := snd (call_bot messages bot api_key w)) in *.
  pose proof (stream_events_items bot "chat" events stream_start w1)
    as [Hitems Hlen].
  fold (stream_buffer bot "chat" events w1) in Hs.
  set (buffer := stream_buffer bot "chat" events w1) in *.
  set (chunks := snd (fst (stream_events bot "chat" events stream_start w1))) in *.
  set (final := fst (create_final_chunk bot "chat"
                       (Some (counters_at_end None buffer
                                (count_message_tokens messages)))
                       (snd (stream_events bot "chat" events stream_start w1))))
    in *.
  assert (Hplain : Forall (fun item => is_terminal item = false
                                       /\ is_done item = false) chunks).
  { eapply Forall_impl; [| exact Hitems]. intros item. apply content_item_chat. }
  exists chunks, final.
  split; [exact Hs |]. split; [exact Hlen |]. split; [exact Hplain |].
  split; [apply final_chunk_chat |]. split; [apply final_chunk_chat |].
  split; [apply final_chunk_usage |].
  rewrite !filter_app.
  rewrite (filter_none is_terminal (l := chunks)),
          (filter_none is_done (l := chunks)).
  - split; reflexivity.
  - eapply Forall_impl; [| exact Hplain]. now intros item [_ ?].
  - eapply Forall_impl; [| exact Hplain]. now intros item [? _].
Qed.

End StreamingProperties.

(** The reply of the accumulation variant to the stream Hi, replace Bye. *)
Lemma replace_resets_buffer_witness :
  fst (@generate_poe_bot_response_with_files two_event_world "GPT-4o" [] "key" world0)
  = Return (JObj [("role", JStr "assistant"); ("content", JStr "Bye")]).
Proof.
  exact (proj2 (proj2 (proj2 (proj2 (proj2 (proj2
           (@replace_resets_buffer two_event_world "GPT-4o" "chat" [] "key"
              [delta "Hi"; replace_delta "Bye"] (delta "x") world0))))))
           eq_refl).
Defined.

(** A chat stream of two events: two chunks, the final chunk, the sentinel. *)
Lemma chat_stream_ends_with_usage_then_done_witness :
  exists (chunks : list sse) (final : json),
    fst (@stream_openai_format two_event_world "GPT-4o" [] "key" world0)
    = ((chunks ++ [Data final; Done])%list, None) /\
    length chunks = 2.
Proof.
  destruct (@chat_stream_ends_with_usage_then_done two_event_world
              "GPT-4o" [] "key" world0 [delta "Hi"; replace_delta "Bye"]
              eq_refl)
    as (chunks & final & Hout & Hlen & _).
  exists chunks, final. split; [exact Hout | exact Hlen].
Defined.

(* ===================================================================== *)
(** * Properties of the request normalizer *)
(* ===================================================================== *)

Section NormalizerProperties.
Context `{Env}.

(** Both upload paths turn every failure into a [ValueError]. *)
Lemma process_base64_image_raises_value_error (u api_key : string) (w : World)
    (e : exn) :
  fst (process_base64_image u api_key w) = Raise e ->
  isinstance e (Class ValueError) = true.
Proof.
  unfold process_base64_image, bind.
  destruct (process_base64_image_try u api_key w) as [[a | e0] w']; cbn;
    [discriminate |].
  intros [= <-]. reflexivity.
Qed.

Lemma process_image_url_raises_value_error (u api_key : string) (w : World)
    (e : exn) :
  fst (process_image_url u api_key w) = Raise e ->
  isinstance e (Class ValueError) = true.
Proof.
  unfold process_image_url, bind.
  destruct (call_upload (FileUrl u) api_key w) as [[a | e0] w']; cbn;
    [discriminate |].
  intros [= <-]. reflexivity.
Qed.

Lemma upload_image_raises_value_error (u api_key : string) (w : World) (e : exn) :
  fst (upload_image u api_key w) = Raise e ->
  isinstance e (Class ValueError) = true.
Proof.
  unfold upload_image. destruct (Py.startswith u "data:").
  - apply process_base64_image_raises_value_error.
  - apply process_image_url_raises_value_error.
Qed.

(** A data URL without the base64 marker, or whose payload does not
    decode, fails before anything is uploaded. *)
Lemma malformed_data_url_fails (u api_key : string) (w : World) :
  Py.startswith u "data:" = true ->
  (Py.cut_first ";base64," u = None \/
   exists header payload : string,
     Py.cut_first ";base64," u = Some (header, payload) /\
     b64decode payload = None) ->
  exists e : exn, upload_image u api_key w = (Raise e, w).
Proof.
  intros Hd Hbad. unfold upload_image. rewrite Hd.
  unfold process_base64_image, process_base64_image_try, bind, Py.split1.
  rewrite Hd. cbn [negb].
  destruct Hbad as [-> | (header & payload & -> & Hdec)].
  - eexists. reflexivity.
  - rewrite Hdec. eexists. reflexivity.
Qed.

(** What [attach_image] leaves for a URL that is a string: it never
    raises. *)
Lemma attach_image_string (u failed api_key : string) (st : parts_state)
    (w : World) :
  attach_image (JStr u) failed api_key st w =
  (Return match fst (upload_image u api_key w) with
          | Return a =>
              ((fst st ++
                  [JStr ((if Py.startswith u "data:" then "[Uploaded Image: "
                          else "[Image from URL: ") ++ name a ++ "]")])%list,
               (snd st ++ [a])%list)
          | Raise _ => ((fst st ++ [JStr (failed ++ u ++ "]")])%list, snd st)
          end,
   snd (upload_image u api_key w)).
Proof.
  destruct st as [text_parts attachments]. unfold attach_image, bind.
  destruct (upload_image u api_key w) as [[a | e] w'] eqn:Hup; cbn [fst snd ret].
  - reflexivity.
  - rewrite (@upload_image_raises_value_error u api_key w e)
      by (rewrite Hup; reflexivity).
    reflexivity.
Qed.

Lemma truthy_string (u : string) :
  u <> EmptyString -> Json.truthy (JStr u) = true.
Proof.
  intros Hu. cbn. destruct (String.eqb_spec u EmptyString); [contradiction | reflexivity].
Qed.

Lemma convert_image_url_part (u api_key : string) (st : parts_state) (w : World) :
  convert_part (image_url_part u) api_key st w =
  if Json.truthy (JStr u)
  then attach_image (JStr u) "[Image (upload failed): " api_key st w
  else (Return st, w).
Proof.
  destruct st. unfold convert_part, image_url_part. cbn -[attach_image].
  destruct (String.eqb u EmptyString); reflexivity.
Qed.

Lemma convert_legacy_image_part (u api_key : string) (st : parts_state) (w : World) :
  convert_part (legacy_image_part u) api_key st w =
  if Json.truthy (JStr u)
  then attach_image (JStr u) "[Image: " api_key st w
  else (Return st, w).
Proof.
  destruct st. unfold convert_part, legacy_image_part. cbn -[attach_image].
  destruct (String.eqb u EmptyString); reflexivity.
Qed.

Lemma convert_text_part (t api_key : string) (st : parts_state) (w : World) :
  convert_part (text_part t) api_key st w =
  (Return ((fst st ++ [JStr t])%list, snd st), w).
Proof. destruct st. reflexivity. Qed.

(** ** No part of a well-formed message aborts the conversion *)

Lemma all_strings_snoc (parts : list json) (s : string) :
  all_strings parts -> all_strings (parts ++ [JStr s]).
Proof.
  intros Hp. apply Forall_app. split; [exact Hp |].
  constructor; [now exists s | constructor].
Qed.

Lemma convert_part_well_formed (comp : json) (api_key : string)
    (st : parts_state) (w : World) :
  well_formed_part comp -> all_strings (fst st) ->
  exists st' : parts_state,
    fst (convert_part comp api_key st w) = Return st' /\ all_strings (fst st').
Proof.
  intros Hwf Hst. destruct Hwf as [t | u | u].
  - rewrite convert_text_part. eexists. split; [reflexivity |].
    now apply all_strings_snoc.
  - rewrite convert_image_url_part. destruct (Json.truthy (JStr u)).
    + rewrite attach_image_string. eexists. split; [reflexivity |].
      destruct (fst (upload_image u api_key w)); now apply all_strings_snoc.
    + now exists st.
  - rewrite convert_legacy_image_part. destruct (Json.truthy (JStr u)).
    + rewrite attach_image_string. eexists. split; [reflexivity |].
      destruct (fst (upload_image u api_key w)); now apply all_strings_snoc.
    + now exists st.
Qed.

Lemma convert_parts_well_formed (content : list json) (api_key : string)
    (st : parts_state) (w : World) :
  Forall well_formed_part content -> all_strings (fst st) ->
  exists st' : parts_state,
    fst (convert_parts content api_key st w) = Return st' /\ all_strings (fst st').
Proof.
  intros Hwf. revert st w. induction Hwf as [| comp content Hc _ IH]; intros st w Hst.
  - now exists st.
  - cbn [convert_parts]. unfold bind.
    destruct (@convert_part_well_formed comp api_key st w Hc Hst) as (st1 & H1 & Hs1).
    destruct (convert_part comp api_key st w) as [r w1]. cbn [fst] in H1. subst r.
    apply IH. exact Hs1.
Qed.

Lemma py_join_strings (sep : string) (parts : list json) :
  all_strings parts -> exists joined : string, py_join sep parts = Return joined.
Proof.
  intros Hp. unfold py_join.
  assert (Hi : exists l, py_join_items parts = Return l).
  { induction Hp as [| p parts [s ->] _ [l IH]]; [now exists [] |].
    cbn. rewrite IH. now eexists. }
  destruct Hi as [l ->]. now eexists.
Qed.

Lemma convert_well_formed (content : list json) (api_key : string) (w : World) :
  Forall well_formed_part content ->
  exists (joined : string) (atts : list Attachment),
    fst (convert_openai_content_to_poe content api_key w) = Return (joined, atts).
Proof.
  intros Hwf. unfold convert_openai_content_to_poe, bind.
  destruct (@convert_parts_well_formed content api_key ([], []) w Hwf)
    as ([text_parts atts] & Hr & Hs); [constructor |].
  destruct (convert_parts content api_key ([], []) w) as [r w1].
  cbn [fst] in Hr. subst r. cbn [ret fst].
  destruct (@py_join_strings " " text_parts Hs) as [joined ->].
  now exists joined, atts.
Qed.

(** What a failed upload leaves.  An image part with a non-empty URL whose
    upload fails does not stop the conversion: the loop goes on with the
    remaining parts, having added to the text a bracketed placeholder
    that holds the URL. For a part in the image_url form the placeholder
    reads Image (upload failed): URL; for a part in the legacy image form
    it reads Image: URL.  A data URL that lacks the base64 marker, or
    whose payload does not decode, is such a failure.  A message made of
    text parts and image parts is always converted, and the message built
    from it is always accepted. *)
Theorem failed_upload_leaves_placeholder (u api_key : string) (st : parts_state)
    (w : World) (rest : list json) (e : exn) :
  u <> EmptyString ->
  fst (upload_image u api_key w) = Raise e ->
  convert_parts (image_url_part u :: rest) api_key st w =
    convert_parts rest api_key
      ((fst st ++ [JStr ("[Image (upload failed): " ++ u ++ "]")])%list, snd st)
      (snd (upload_image u api_key w)) /\
  convert_parts (legacy_image_part u :: rest) api_key st w =
    convert_parts rest api_key
      ((fst st ++ [JStr ("[Image: " ++ u ++ "]")])%list, snd st)
      (snd (upload_image u api_key w)) /\
  (forall (content : list json) (w' : World),
      Forall well_formed_part content ->
      exists (joined : string) (atts : list Attachment),
        fst (convert_openai_content_to_poe content api_key w')
        = Return (joined, atts)) /\
  (forall (content : list json) (r : string) (w' : World),
      Forall well_formed_part content ->
      exists m : ProtocolMessage,
        fst (prepare_message {| msg_role := r; msg_content := JArr content |}
               api_key w') = Return m) /\
  (forall (d : string) (w' : World),
      Py.startswith d "data:" = true ->
      (Py.cut_first ";base64," d = None \/
       exists header payload : string,
         Py.cut_first ";base64," d = Some (header, payload) /\
         b64decode payload = None) ->
      exists e' : exn, upload_image d api_key w' = (Raise e', w')).
Proof.
  intros Hu Hfail.
  split; [| split; [| split; [| split]]].
  - cbn [convert_parts]. unfold bind.
    rewrite convert_image_url_part, (truthy_string Hu), attach_image_string, Hfail.
    reflexivity.
  - cbn [convert_parts]. unfold bind.
    rewrite convert_legacy_image_part, (truthy_string Hu), attach_image_string, Hfail.
    reflexivity.
  - intros content w' Hwf. now apply convert_well_formed.
  - intros content r w' Hwf. unfold prepare_message. cbn [msg_content msg_role].
    destruct content as [| comp content].
    + cbn. now eexists.
    + cbn [Json.truthy]. unfold bind.
      destruct (@convert_well_formed (comp :: content) api_key w' Hwf)
        as (joined & atts & Hr).
      destruct (convert_openai_content_to_poe (comp :: content) api_key w')
        as [res w1].
      cbn [fst] in Hr. subst res. cbn. now eexists.
  - intros d w' Hd Hbad. now apply malformed_data_url_fails.
Qed.

End NormalizerProperties.

(** A data URL without payload, followed by a text part. *)
Lemma failed_upload_leaves_placeholder_witness :
  fst (@convert_openai_content_to_poe two_event_world
         [image_url_part "data:image/png"; text_part "What is this?"]
         "key" world0)
  = Return ("[Image (upload failed): data:image/png] What is this?", []).
Proof.
  unfold convert_openai_content_to_poe, bind.
  rewrite (proj1 (@failed_upload_leaves_placeholder two_event_world
                    "data:image/png" "key" ([], []) world0
                    [text_part "What is this?"]
                    (py_error ValueError
                       "Failed to process base64 image: not enough values to unpack")
                    ltac:(discriminate) eq_refl)).
  reflexivity.
Defined.

(** C4, at an image part in the legacy form.  The upload of a data URL
    without payload fails; the conversion is not aborted and goes on to the
    text part that follows; but the placeholder left for the image, unlike
    the one left for a part in the image_url form, says nothing of a failed
    upload. *)
Lemma legacy_image_placeholder_is_silent :
  (exists e : exn,
      fst (@upload_image two_event_world "data:image/png" "key" world0) = Raise e) /\
  fst (@convert_openai_content_to_poe two_event_world
         [legacy_image_part "data:image/png"; text_part "What is this?"]
         "key" world0)
  = Return ("[Image: data:image/png] What is this?", []) /\
  Py.contains "upload failed" "[Image: data:image/png] What is this?" = false /\
  Py.contains "fail" "[Image: data:image/png] What is this?" = false /\
  fst (@convert_openai_content_to_poe two_event_world
         [image_url_part "data:image/png"; text_part "What is this?"]
         "key" world0)
  = Return ("[Image (upload failed): data:image/png] What is this?", []).
Proof.
  split; [eexists; reflexivity |]. repeat split.
Qed.

(* ===================================================================== *)
(** * Properties of the image endpoints *)
(* ===================================================================== *)

Section ImageProperties.
Context `{Env}.

Lemma image_attempt_spec (model : string) (messages : list ProtocolMessage)
    (api_key : string) (response_format : option string) (l : image_locals)
    (w : World) :
  image_attempt model messages api_key response_format l w =
  (match attempt_entry model messages api_key response_format (bot_calls w) with
   | Some entry =>
       {| data := (data l ++ [entry])%list;
          successful_generations := (successful_generations l + 1)%Z |}
   | None => l
   end, after_bot_calls 1 w).
Proof.
  unfold image_attempt, get_first_file_from_bot, bind, call_bot, attempt_entry,
    after_bot_calls.
  rewrite Nat.add_1_r.
  destruct (get_bot_response (bot_calls w) messages model api_key)
    as [events ending].
  cbn [fst snd ret].
  destruct (first_file events ending) as [[file |] | e]; try reflexivity.
  destruct (match response_format with
            | Some f => String.eqb f "b64_json"
            | None => false
            end); [| reflexivity].
  unfold call_http_get, bind. cbn [bot_calls].
  destruct (http_get (S (bot_calls w)) (url file)); reflexivity.
Qed.

Lemma entries_of_step (model : string) (messages : list ProtocolMessage)
    (api_key : string) (response_format : option string) (first count : nat) :
  entries_of model messages api_key response_format first (S count) =
  (match attempt_entry model messages api_key response_format first with
   | Some entry => [entry]
   | None => []
   end ++ entries_of model messages api_key response_format (S first) count)%list.
Proof. reflexivity. Qed.

(** The loop adds the entries of the successful attempts, counts them,
    and makes one bot call per turn. *)
Lemma image_attempts_spec (count : nat) (model : string)
    (messages : list ProtocolMessage) (api_key : string)
    (response_format : option string) (l : image_locals) (w : World) :
  image_attempts count model messages api_key response_format l w =
  ({| data :=
        (data l ++ entries_of model messages api_key response_format
                     (bot_calls w) count)%list;
      successful_generations :=
        (successful_generations l +
         Z.of_nat (length (entries_of model messages api_key response_format
                             (bot_calls w) count)))%Z |},
   after_bot_calls count w).
Proof.
  revert l w. induction count as [| count IH]; intros l w.
  - cbn. unfold ret, after_bot_calls. rewrite app_nil_r, Z.add_0_r, Nat.add_0_r.
    destruct l, w; reflexivity.
  - cbn [image_attempts]. unfold bind. rewrite image_attempt_spec, IH.
    rewrite entries_of_step.
    replace (bot_calls (after_bot_calls 1 w)) with (S (bot_calls w))
      by (cbn; lia).
    f_equal.
    + destruct (attempt_entry model messages api_key response_format (bot_calls w));
        cbn [data successful_generations app length].
      * f_equal; [now rewrite <- app_assoc | lia].
      * reflexivity.
    + unfold after_bot_calls. cbn. f_equal. lia.
Qed.

Lemma entries_of_length (model : string) (messages : list ProtocolMessage)
    (api_key : string) (response_format : option string) (first count : nat) :
  length (entries_of model messages api_key response_format first count) =
  successes model messages api_key response_format first count.
Proof.
  unfold entries_of, successes, attempt_succeeds.
  induction (seq first count) as [| k ks IH]; [reflexivity |].
  cbn [flat_map filter]. rewrite length_app, IH.
  destruct (attempt_entry model messages api_key response_format k); reflexivity.
Qed.

Lemma successes_bound (model : string) (messages : list ProtocolMessage)
    (api_key : string) (response_format : option string) (first count : nat) :
  successes model messages api_key response_format first count <= count.
Proof.
  unfold successes.
  rewrite <- (length_seq count first) at 2. apply filter_length_le.
Qed.

(** C9. An image-generation request makes N attempts, one bot call each.
    With K the number of attempts that succeed, the endpoint returns the
    body of a 200 whose data array has exactly K entries when K is at
    least 1, and raises the HTTP 500 error when K is 0. *)
Theorem image_generations_partial_success (request : ImageGenerationRequest)
    (api_key : string) (w : World) :
  let model := normalize_model (str_or (img_model request) "Imagen-3-Fast") in
  let messages := [{| role := "user"; content := img_prompt request;
                      attachments := [] |}] in
  let N := Z.to_nat (num_images_of (img_n request)) in
  let K := successes model messages api_key (img_response_format request)
             (bot_calls w) N in
  exists entries : list json,
    length entries = K /\ K <= N /\
    fst (image_generations request api_key w) =
    if (0 <? K)%nat
    then Return (JObj [("created", JInt (time_now (time_calls w)));
                       ("data", JArr entries)])
    else Raise (http_exception 500
                  (JObj [("error",
                          JObj [("message",
                                 JStr "Failed to generate image - no file returned from bot");
                                ("type", JStr "image_generation_error")])])).
Proof.
  cbv zeta.
  set (model := normalize_model (str_or (img_model request) "Imagen-3-Fast")).
  set (messages := [{| role := "user"; content := img_prompt request;
                       attachments := [] |}]).
  set (N := Z.to_nat (num_images_of (img_n request))).
  exists (entries_of model messages api_key (img_response_format request)
            (bot_calls w) N).
  split; [apply entries_of_length |]. split; [apply successes_bound |].
  unfold image_generations, bind.
  fold model. fold messages. fold N.
  rewrite image_attempts_spec. cbn [data successful_generations app].
  unfold image_result. cbn [successful_generations data].
  rewrite <- entries_of_length.
  destruct (entries_of model messages api_key (img_response_format request)
              (bot_calls w) N) as [| entry entries] eqn:He.
  - reflexivity.
  - cbn [length]. replace (0 <? 0 + Z.of_nat (S (length entries)))%Z with true
      by (symmetry; apply Z.ltb_lt; lia).
    reflexivity.
Qed.

(** ** The number of attempts *)

Lemma num_images_of_clamp (n : option Z) :
  num_images_of n =
  match n with
  | Some v => Z.max 1 (Z.min v 10)
  | None => 1%Z
  end.
Proof.
  unfold num_images_of. destruct n as [v |]; [| reflexivity].
  destruct (Z.eqb_spec v 0) as [-> | _]; reflexivity.
Qed.

Lemma upload_image_bot_calls (u api_key : string) (w : World) :
  bot_calls (snd (upload_image u api_key w)) = bot_calls w.
Proof.
  unfold upload_image, process_base64_image, process_base64_image_try,
    process_image_url, bind, call_upload, ret.
  destruct (Py.startswith u "data:"); cbn [negb]; [| reflexivity].
  destruct (Py.split1 u ";base64,") as [| header [| payload [| x rest]]];
    try reflexivity.
  destruct (b64decode payload); reflexivity.
Qed.

Lemma image_result_bot_calls (l : image_locals) (failure type : string)
    (w : World) :
  bot_calls (snd (image_result l failure type w)) = bot_calls w.
Proof.
  unfold image_result. destruct (0 <? successful_generations l)%Z; reflexivity.
Qed.

(** The content [image_edits] builds is always converted. *)
Lemma image_edits_content (prompt u api_key : string) (w : World) :
  u <> EmptyString ->
  exists (joined : string) (atts : list Attachment),
    convert_openai_content_to_poe [text_part prompt; image_url_part u] api_key w
    = (Return (joined, atts), snd (upload_image u api_key w)).
Proof.
  intros Hu. unfold convert_openai_content_to_poe, bind.
  cbn [convert_parts]. unfold bind.
  rewrite convert_text_part.
  rewrite convert_image_url_part, (truthy_string Hu), attach_image_string.
  cbn [fst snd ret app].
  destruct (fst (upload_image u api_key w)) as [a | e]; cbn;
    unfold ret; eexists _, _; reflexivity.
Qed.

(** C10. Both image endpoints make max(1, min(n, 10)) upstream bot calls,
    one per attempt: one call when n is absent, zero or negative, ten
    calls when n exceeds ten, and n calls otherwise. *)
Theorem image_attempt_count (request : ImageGenerationRequest)
    (image_content prompt : string) (model : option string) (n : option Z)
    (response_format : option string) (api_key : string) (w : World) :
  bot_calls (snd (image_generations request api_key w)) =
    bot_calls w + Z.to_nat (num_images_of (img_n request)) /\
  bot_calls (snd (image_edits image_content prompt model n response_format
                    api_key w)) =
    bot_calls w + Z.to_nat (num_images_of n) /\
  num_images_of None = 1%Z /\
  (forall v : Z, num_images_of (Some v) = Z.max 1 (Z.min v 10)) /\
  (forall v : Z, (v <= 0)%Z -> num_images_of (Some v) = 1%Z) /\
  (forall v : Z, (10 < v)%Z -> num_images_of (Some v) = 10%Z) /\
  (forall v : Z, (1 <= v <= 10)%Z -> num_images_of (Some v) = v).
Proof.
  split; [| split; [| split; [| split; [| split; [| split]]]]].
  - unfold image_generations, bind. rewrite image_attempts_spec.
    rewrite image_result_bot_calls. reflexivity.
  - unfold image_edits, bind.
    destruct (@image_edits_content prompt
                ("data:image/jpeg;base64," ++ b64encode image_content)
                api_key w) as (joined & atts & Hc); [discriminate |].
    unfold text_part, image_url_part in Hc. rewrite Hc.
    rewrite image_attempts_spec, image_result_bot_calls.
    cbn [bot_calls after_bot_calls]. now rewrite upload_image_bot_calls.
  - reflexivity.
  - intros v. apply (num_images_of_clamp (Some v)).
  - intros v Hv. rewrite (num_images_of_clamp (Some v)). lia.
  - intros v Hv. rewrite (num_images_of_clamp (Some v)). lia.
  - intros v Hv. rewrite (num_images_of_clamp (Some v)). lia.
Qed.

End ImageProperties.

(** Five attempts of which two fail: three entries.  Five attempts that
    all fail: the HTTP 500 error. *)
Lemma image_generations_partial_success_witness :
  (exists entries : list json,
      length entries = 3 /\
      fst (@image_generations five_attempt_world five_images "key" world0) =
      Return (JObj [("created", JInt 1700000000); ("data", JArr entries)])) /\
  (exists detail : json,
      fst (@image_generations barren_world five_images "key" world0) =
      Raise (http_exception 500 detail)).
Proof.
  split.
  - destruct (@image_generations_partial_success five_attempt_world five_images
                "key" world0) as (entries & Hlen & _ & Hres).
    exists entries. split; [exact Hlen | exact Hres].
  - destruct (@image_generations_partial_success barren_world five_images
                "key" world0) as (entries & _ & _ & Hres).
    eexists. exact Hres.
Defined.

(* ===================================================================== *)
(** * Further properties: strings *)
(* ===================================================================== *)

Lemma append_nil_r (s : string) : s ++ EmptyString = s.
Proof. induction s as [| c s IH]; [reflexivity |]. cbn. now rewrite IH. Qed.

Lemma append_assoc (a b c : string) : (a ++ b) ++ c = a ++ (b ++ c).
Proof. induction a as [| x a IH]; [reflexivity |]. cbn. now rewrite IH. Qed.

Lemma rev_append_spec (s acc : string) :
  Py.rev_append s acc = Py.rev s ++ acc.
Proof.
  unfold Py.rev. revert acc. induction s as [| c s IH]; intros acc; [reflexivity |].
  cbn. rewrite IH, (IH (String c EmptyString)), append_assoc. reflexivity.
Qed.

Lemma rev_cons (c : ascii) (s : string) :
  Py.rev (String c s) = Py.rev s ++ String c EmptyString.
Proof. unfold Py.rev at 1. cbn. apply rev_append_spec. Qed.

Lemma rev_app (a b : string) : Py.rev (a ++ b) = Py.rev b ++ Py.rev a.
Proof.
  induction a as [| c a IH]; cbn [append].
  - now rewrite append_nil_r.
  - now rewrite !rev_cons, IH, append_assoc.
Qed.

Lemma rev_involutive (s : string) : Py.rev (Py.rev s) = s.
Proof.
  induction s as [| c s IH]; [reflexivity |].
  rewrite rev_cons, rev_app, IH. reflexivity.
Qed.

(** What is left of a string stripped on the left does not start with a
    character of the stripped kind. *)
Lemma lstrip_with_head (p : ascii -> bool) (s : string) (c : ascii) (rest : string) :
  Py.lstrip_with p s = String c rest -> p c = false.
Proof.
  induction s as [| x s IH]; cbn; [discriminate |].
  destruct (p x) eqn:Hx; [exact IH |]. intros [= <- _]. exact Hx.
Qed.





Lemma rstrip_with_last (p : ascii -> bool) (s : string) (c : ascii) (rest : string) :
  Py.rev (Py.rstrip_with p s) = String c rest -> p c = false.
Proof.
  unfold Py.rstrip_with. rewrite rev_involutive. apply lstrip_with_head.
Qed.



(** ** Substring test and split agree *)



(* ===================================================================== *)
(** * Further properties: the error normalizer *)
(* ===================================================================== *)

Lemma load_error_data_id (payload s : string) (l : parse_locals) :
  error_id (fst (load_error_data payload s l)) = error_id l.
Proof.
  unfold load_error_data.
  destruct (json_loads payload) as [data | e]; [| reflexivity].
  destruct (py_get data "text" (JStr s)); reflexivity.
Qed.

Lemma extract_block_id (s : string) (l : parse_locals) :
  error_id (fst (extract_block s l)) = error_id l.
Proof.
  unfold extract_block.
  destruct (Py.startswith s "{" && Py.endswith s "}");
    [apply load_error_data_id |].
  destruct (Py.contains "BotError('" s && Py.contains "')" s); [| reflexivity].
  destruct (py_index (Py.split1 s "BotError('") 1) as [tail | e]; [| reflexivity].
  destruct (py_index (Py.rsplit1 tail "')") 0) as [part | e]; [| reflexivity].
  pose proof (load_error_data_id part s l) as Hl.
  destruct (load_error_data part s l) as [l1 [e |]]; cbn [fst] in Hl;
    [destruct (isinstance e (Class JSONDecodeError)) |]; exact Hl.
Qed.

Lemma classify_block_id (fault : exn) (s : string) (l : parse_locals) :
  error_id (fst (classify_block fault s l)) = error_id l.
Proof.
  unfold classify_block.
  destruct (isinstance fault (Class ValueError) && Py.contains "Model" s);
    [reflexivity |].
  destruct (py_in "Internal server error" (error_message l)) as [[|] | e];
    reflexivity.
Qed.

(** The identifier is absent or what line 262 computes from some text. *)
Lemma error_id_block_id (l : parse_locals) :
  error_id (fst (error_id_block l)) = error_id l \/
  exists piece : string,
    error_id (fst (error_id_block l)) = JStr (Py.rstrip (Py.strip piece) ")").
Proof.
  unfold error_id_block.
  destruct (py_in "error_id:" (error_message l)) as [[|] | e]; try now left.
  unfold scan_error_id. destruct (error_message l); try now left.
  destruct (py_index (Py.split1 s "error_id:") 1) as [piece | e];
    [right; now exists piece | now left].
Qed.

Lemma parse_try_id (fault : exn) :
  error_id (fst (parse_try fault (parse_initial fault))) = JNull \/
  exists piece : string,
    error_id (fst (parse_try fault (parse_initial fault)))
    = JStr (Py.rstrip (Py.strip piece) ")").
Proof.
  unfold parse_try, and_then.
  pose proof (extract_block_id (exn_text fault) (parse_initial fault)) as H1.
  destruct (extract_block (exn_text fault) (parse_initial fault)) as [l1 [e |]];
    cbn [fst] in *; [left; exact H1 |].
  pose proof (error_id_block_id l1) as H2.
  destruct (error_id_block l1) as [l2 [e |]]; cbn [fst] in *.
  - destruct H2 as [H2 | H2]; [left; now rewrite H2 | right; exact H2].
  - pose proof (classify_block_id fault (exn_text fault) l2) as H3.
    destruct (classify_block fault (exn_text fault) l2) as [l3 r]; cbn [fst] in *.
    rewrite H3. destruct H2 as [H2 | H2]; [left; now rewrite H2 | right; exact H2].
Qed.

Lemma rstrip_paren_not_closed (s : string) :
  Py.endswith (Py.rstrip s ")") ")" = false.
Proof.
  unfold Py.endswith, Py.rstrip.
  destruct (Py.rev (Py.rstrip_with
                      (fun c => Py.contains (String c EmptyString) ")") s))
    as [| c rest] eqn:Hr; [reflexivity |].
  apply rstrip_with_last in Hr.
  change (Py.rev ")") with ")". cbn [String.prefix].
  destruct (Ascii.ascii_dec ")" c) as [<- | Hne]; [| reflexivity].
  vm_compute in Hr. discriminate Hr.
Qed.

(** X2. The identifier [parse_poe_error] returns is None or a string, and
    a string it returns never ends with a closing parenthesis. *)
Theorem parse_poe_error_id_is_trimmed (fault : exn) :
  exists l : parse_locals,
    parse_poe_error fault = Return l /\
    (error_id l = JNull \/
     exists i : string, error_id l = JStr i /\ Py.endswith i ")" = false).
Proof.
  eexists. split; [apply parse_poe_error_returns |].
  destruct (parse_try_id fault) as [Hn | [piece Hp]]; [now left |].
  right. eexists. split; [exact Hp | apply rstrip_paren_not_closed].
Qed.

(** ** The types and the payload *)

Lemma load_error_data_extracted (payload s : string) (l : parse_locals) :
  error_type l = "server_error" -> extracted (fst (load_error_data payload s l)).
Proof.
  intros Hl. unfold load_error_data.
  destruct (json_loads payload) as [data | e]; [| left; exact Hl].
  destruct data; try (left; exact Hl).
  right. split; [reflexivity | now eexists].
Qed.

Lemma extract_block_extracted (s : string) (l : parse_locals) :
  error_type l = "server_error" -> extracted (fst (extract_block s l)).
Proof.
  intros Hl. unfold extract_block.
  destruct (Py.startswith s "{" && Py.endswith s "}");
    [now apply load_error_data_extracted |].
  destruct (Py.contains "BotError('" s && Py.contains "')" s); [| left; exact Hl].
  destruct (py_index (Py.split1 s "BotError('") 1) as [tail | e]; [| left; exact Hl].
  destruct (py_index (Py.rsplit1 tail "')") 0) as [part | e]; [| left; exact Hl].
  pose proof (@load_error_data_extracted part s l Hl) as He.
  destruct (load_error_data part s l) as [l1 [e |]]; cbn [fst] in He;
    [destruct (isinstance e (Class JSONDecodeError)) |]; exact He.
Qed.

Lemma error_id_block_data (l : parse_locals) :
  error_data (fst (error_id_block l)) = error_data l.
Proof.
  unfold error_id_block.
  destruct (py_in "error_id:" (error_message l)) as [[|] | e]; try reflexivity.
  destruct (scan_error_id (error_message l)) as [i | e]; [reflexivity |].
  destruct (isinstance e Exception); reflexivity.
Qed.

(** What the classification does to the type, and that it keeps the
    payload. *)
Lemma classify_block_outcome (fault : exn) (s : string) (l : parse_locals) :
  error_data (fst (classify_block fault s l)) = error_data l /\
  (error_type (fst (classify_block fault s l)) = error_type l \/
   error_type (fst (classify_block fault s l)) = "poe_server_error" \/
   (error_type (fst (classify_block fault s l)) = "model_not_found" /\
    isinstance fault (Class ValueError) = true /\ Py.contains "Model" s = true)).
Proof.
  unfold classify_block.
  destruct (isinstance fault (Class ValueError)) eqn:Hv;
    destruct (Py.contains "Model" s) eqn:Hm; cbn [andb].
  1: split; [reflexivity | right; right; repeat split; reflexivity].
  all: destruct (py_in "Internal server error" (error_message l)) as [[|] | e];
    split; try reflexivity; (now left) || (right; now left).
Qed.

(** X3. Whatever the fault, [parse_poe_error] returns, and the type it
    gives is one of server_error, poe_api_error, model_not_found and
    poe_server_error.  The type model_not_found is given only to a
    ValueError whose text mentions Model, and the type poe_api_error only
    together with a payload that is a JSON object. *)
Theorem parse_poe_error_type_is_known (fault : exn) :
  exists l : parse_locals,
    parse_poe_error fault = Return l /\
    known_type (error_type l) /\
    (error_type l = "model_not_found" ->
     isinstance fault (Class ValueError) = true /\
     Py.contains "Model" (exn_text fault) = true) /\
    (error_type l = "poe_api_error" ->
     exists d : list (string * json), error_data l = JObj d).
Proof.
  eexists. split; [apply parse_poe_error_returns |].
  unfold parse_try, and_then, known_type.
  pose proof (@extract_block_extracted (exn_text fault) (parse_initial fault)
                eq_refl) as H1.
  destruct (extract_block (exn_text fault) (parse_initial fault)) as [l1 [e |]];
    cbn [fst] in *.
  { destruct H1 as [H1 | [H1 Hd]]; rewrite H1; repeat split; auto;
      discriminate. }
  pose proof (error_id_block_type l1) as H2.
  pose proof (error_id_block_data l1) as H2d.
  destruct (error_id_block l1) as [l2 [e |]]; cbn [fst] in *.
  { rewrite H2, H2d.
    destruct H1 as [H1 | [H1 Hd]]; rewrite H1; repeat split; auto;
      discriminate. }
  pose proof (classify_block_outcome fault (exn_text fault) l2) as [H3d H3].
  destruct (classify_block fault (exn_text fault) l2) as [l3 r]; cbn [fst] in *.
  rewrite H3d, H2d.
  destruct H3 as [H3 | [H3 | (H3 & Hv & Hm)]]; rewrite H3.
  - rewrite H2. destruct H1 as [H1 | [H1 Hd]]; rewrite H1; repeat split; auto;
      discriminate.
  - repeat split; auto; discriminate.
  - repeat split; auto; discriminate.
Qed.



(** X5. A fault whose text is wrapped in braces but is no JSON comes back
    untouched: its text as the message, no payload, no identifier, and the
    type server_error, even for a ValueError that mentions Model and even
    when the text mentions Internal server error or the error_id: marker
    (the failed parse skips the rest of the analysis). *)
Theorem parse_poe_error_broken_json (fault : exn) :
  Py.startswith (exn_text fault) "{" && Py.endswith (exn_text fault) "}" = true ->
  Json.loads (exn_text fault) = None ->
  parse_poe_error fault =
  Return {| error_message := JStr (exn_text fault);
            error_data := JNull;
            error_type := "server_error";
            error_id := JNull |}.
Proof.
  intros Hb Hj. rewrite parse_poe_error_returns. f_equal.
  unfold parse_try, and_then, extract_block. rewrite Hb.
  unfold load_error_data, json_loads. rewrite Hj. reflexivity.
Qed.

Lemma parse_poe_error_broken_json_witness :
  parse_poe_error
    (py_error ValueError "{Model x: Internal server error (error_id: 42)}") =
  Return {| error_message :=
              JStr "{Model x: Internal server error (error_id: 42)}";
            error_data := JNull;
            error_type := "server_error";
            error_id := JNull |}.
Proof.
  exact (@parse_poe_error_broken_json
           (py_error ValueError "{Model x: Internal server error (error_id: 42)}")
           eq_refl eq_refl).
Defined.

(* ===================================================================== *)
(** * Further properties: [chat_completions] *)
(* ===================================================================== *)

Section ChatProperties.
Context `{Env}.

(** X6. A chat request without tools and without messages is refused with
    the HTTP 400 error of type invalid_request_error naming the parameter
    messages, before anything is asked of the outside world. *)
Theorem chat_completions_empty_messages (request : ChatCompletionRequest)
    (api_key : string) (w : World) :
  req_messages request = [] ->
  chat_completions request api_key w =
  (Raise (http_exception 400
            (JObj [("error",
                    JObj [("message", JStr "Messages array cannot be empty");
                          ("type", JStr "invalid_request_error");
                          ("param", JStr "messages")])])), w).
Proof.
  intros Hm. unfold chat_completions, chat_completions_try, bind.
  rewrite Hm. reflexivity.
Qed.

Lemma chat_completions_except_class (e : exn) :
  exn_class (chat_completions_except e) = HTTPException.
Proof.
  unfold chat_completions_except.
  destruct (isinstance e (Class HTTPException)) eqn:Hh.
  - unfold isinstance in Hh. cbn in Hh. now destruct (exn_class e).
  - destruct (isinstance e (Class PoeAPIError));
      [destruct (Json.truthy (exn_data e)); reflexivity |].
    destruct (isinstance e (Class ValueError));
      [destruct (Py.contains "Model" (exn_text e)); reflexivity |].
    rewrite parse_poe_error_returns.
    destruct (Json.truthy (error_data (fst (parse_try e (parse_initial e)))));
      reflexivity.
Qed.

(** X7. Whatever goes wrong while a chat request without tools is served
    (in the conversion of the messages, in the upstream call, in the
    upstream stream of a non-streaming request), the handler lets nothing
    but an HTTPException out. *)
Theorem chat_completions_raises_http_only (request : ChatCompletionRequest)
    (api_key : string) (w : World) (e : exn) :
  fst (chat_completions request api_key w) = Raise e ->
  exn_class e = HTTPException.
Proof.
  unfold chat_completions, bind.
  destruct (chat_completions_try request api_key w) as [[resp | e0] w1];
    cbn [ret fst]; [discriminate |].
  intros [= <-]. apply chat_completions_except_class.
Qed.

End ChatProperties.

(** A request without messages. *)
Lemma chat_completions_empty_messages_witness :
  exists detail : json,
    @chat_completions two_event_world
      {| req_model := "GPT-4o"; req_messages := []; req_stream := true |}
      "key" world0
    = (Raise (http_exception 400 detail), world0).
Proof.
  eexists.
  exact (@chat_completions_empty_messages two_event_world
           {| req_model := "GPT-4o"; req_messages := []; req_stream := true |}
           "key" world0 eq_refl).
Defined.

(** A non-streaming request whose upstream stream crashes at once. *)
Lemma chat_completions_raises_http_only_witness :
  exists e : exn,
    fst (@chat_completions barren_world
           {| req_model := "GPT-4o";
              req_messages := [{| msg_role := "user"; msg_content := JStr "hello" |}];
              req_stream := false |}
           "key" world0) = Raise e /\
    exn_class e = HTTPException /\ status_code e = 500%Z.
Proof.
  eexists. split; [reflexivity |]. split; [| reflexivity].
  exact (@chat_completions_raises_http_only barren_world
           {| req_model := "GPT-4o";
              req_messages := [{| msg_role := "user"; msg_content := JStr "hello" |}];
              req_stream := false |}
           "key" world0 _ eq_refl).
Defined.

(* ===================================================================== *)
(** * Further properties: the generators *)
(* ===================================================================== *)

Section GeneratorProperties.
Context `{Env}.

Lemma chunk_text_of_chunk (message_text model format_type : string)
    (first replace : bool) (w : World) :
  chunk_text format_type
    (Data (fst (create_stream_chunk message_text model format_type first replace w)))
  = Some (JStr message_text).
Proof.
  unfold chunk_text, create_stream_chunk, bind, call_urandom_hex, call_time, ret.
  cbn [fst].
  destruct (String.eqb format_type "completion"); [reflexivity |].
  destruct (String.eqb format_type "chat"); [| reflexivity].
  destruct first; reflexivity.
Qed.

Lemma chunk_role_of_chunk (message_text model : string) (first replace : bool)
    (w : World) :
  chunk_role (Data (fst (create_stream_chunk message_text model "chat" first
                           replace w)))
  = if first then Some (JStr "assistant") else None.
Proof. destruct first; reflexivity. Qed.

Lemma chunk_model_of_chunk (message_text model format_type : string)
    (first replace : bool) (w : World) :
  wants_done format_type = true ->
  Json.get "model"
    (fst (create_stream_chunk message_text model format_type first replace w))
  = Some (JStr model).
Proof.
  unfold wants_done, create_stream_chunk, bind, call_urandom_hex, call_time, ret.
  cbn [fst].
  destruct (String.eqb format_type "completion"); [reflexivity |].
  destruct (String.eqb format_type "chat"); [reflexivity | discriminate].
Qed.

(** ** The three loops *)

Lemma stream_events_outcome (model format_type : string)
    (events : list PartialResponse) (l : stream_locals) (w : World) :
  loop_outcome format_type message_text_of events l
    (fst (fst (stream_events model format_type events l w)))
    (snd (fst (stream_events model format_type events l w))).
Proof.
  revert l w. induction events as [| e events IH]; intros l w.
  - split; [| split; [| split; [| split]]]; cbn; auto. congruence.
  - cbn [stream_events]. unfold bind.
    destruct (stream_event model format_type e l w) as [[l1 item] w1] eqn:He.
    specialize (IH l1 w1).
    destruct (stream_events model format_type events l1 w1) as [[l2 items] w2].
    cbn [ret fst snd] in *.
    unfold stream_event, bind in He.
    destruct (create_stream_chunk (message_text_of e) model format_type
                (first_chunk l) (is_replace_response e) w) as [chunk w'] eqn:Hc.
    cbn [ret] in He. injection He as <- <- <-.
    assert (Hchunk : chunk = fst (create_stream_chunk (message_text_of e) model
                                    format_type (first_chunk l)
                                    (is_replace_response e) w))
      by now rewrite Hc.
    destruct IH as (Hlen & Htext & Hrole & Hfirst & Hnil).
    split; [| split; [| split; [| split]]].
    + cbn. now rewrite Hlen.
    + cbn [map]. rewrite Htext, Hchunk, chunk_text_of_chunk. reflexivity.
    + intros ->. split.
      * rewrite Hchunk, chunk_role_of_chunk. reflexivity.
      * specialize (Hrole eq_refl).
        destruct items as [| i later]; [constructor |].
        cbn [first_chunk] in Hrole. destruct Hrole as [Hi Hl].
        constructor; assumption.
    + intros _. destruct events as [| e' events'].
      * now rewrite (Hnil eq_refl).
      * apply Hfirst. discriminate.
    + discriminate.
Qed.

Lemma plain_events_outcome (model format_type : string)
    (events : list PartialResponse) (l : stream_locals) (w : World) :
  loop_outcome format_type text events l
    (fst (fst (plain_events model format_type events l w)))
    (snd (fst (plain_events model format_type events l w))).
Proof.
  revert l w. induction events as [| e events IH]; intros l w.
  - split; [| split; [| split; [| split]]]; cbn; auto. congruence.
  - cbn [plain_events]. unfold bind.
    destruct (plain_event model format_type e l w) as [[l1 item] w1] eqn:He.
    specialize (IH l1 w1).
    destruct (plain_events model format_type events l1 w1) as [[l2 items] w2].
    cbn [ret fst snd] in *.
    unfold plain_event, bind in He.
    destruct (create_stream_chunk (text e) model format_type
                (first_chunk l) false w) as [chunk w'] eqn:Hc.
    cbn [ret] in He. injection He as <- <- <-.
    assert (Hchunk : chunk = fst (create_stream_chunk (text e) model
                                    format_type (first_chunk l) false w))
      by now rewrite Hc.
    destruct IH as (Hlen & Htext & Hrole & Hfirst & Hnil).
    split; [| split; [| split; [| split]]].
    + cbn. now rewrite Hlen.
    + cbn [map]. rewrite Htext, Hchunk, chunk_text_of_chunk. reflexivity.
    + intros ->. split.
      * rewrite Hchunk, chunk_role_of_chunk. reflexivity.
      * specialize (Hrole eq_refl).
        destruct items as [| i later]; [constructor |].
        cbn [first_chunk] in Hrole. destruct Hrole as [Hi Hl].
        constructor; assumption.
    + intros _. destruct events as [| e' events'].
      * now rewrite (Hnil eq_refl).
      * apply Hfirst. discriminate.
    + discriminate.
Qed.

Lemma files_events_outcome (model : string)
    (events : list PartialResponse) (l : stream_locals) (w : World) :
  loop_outcome "completion" message_text_of events l
    (fst (fst (files_events model events l w)))
    (snd (fst (files_events model events l w))).
Proof.
  revert l w. induction events as [| e events IH]; intros l w.
  - split; [| split; [| split; [| split]]]; cbn; auto. congruence.
  - cbn [files_events]. unfold bind.
    destruct (files_event model e l w) as [[l1 item] w1] eqn:He.
    specialize (IH l1 w1).
    destruct (files_events model events l1 w1) as [[l2 items] w2].
    cbn [ret fst snd] in *.
    unfold files_event, bind in He.
    destruct (create_stream_chunk (message_text_of e) model "completion"
                (first_chunk l) false w) as [chunk w'] eqn:Hc.
    cbn [ret] in He. injection He as <- <- <-.
    assert (Hchunk : chunk = fst (create_stream_chunk (message_text_of e) model
                                    "completion" (first_chunk l) false w))
      by now rewrite Hc.
    destruct IH as (Hlen & Htext & Hrole & Hfirst & Hnil).
    split; [| split; [| split; [| split]]].
    + cbn. now rewrite Hlen.
    + cbn [map]. rewrite Htext, Hchunk, chunk_text_of_chunk. reflexivity.
    + discriminate.
    + intros _. destruct events as [| e' events'].
      * now rewrite (Hnil eq_refl).
      * apply Hfirst. discriminate.
    + discriminate.
Qed.

Lemma plain_events_buffer (model format_type : string)
    (events : list PartialResponse) (l : stream_locals) (w : World) :
  accumulated_response (fst (fst (plain_events model format_type events l w)))
  = accumulated_response l ++ String.concat EmptyString (map text events).
Proof.
  revert l w. induction events as [| e events IH]; intros l w.
  - cbn. now rewrite append_nil_r.
  - cbn [plain_events]. unfold bind.
    destruct (plain_event model format_type e l w) as [[l1 item] w1] eqn:He.
    specialize (IH l1 w1).
    destruct (plain_events model format_type events l1 w1) as [[l2 items] w2].
    cbn [ret fst] in *. rewrite IH.
    unfold plain_event, bind in He.
    destruct (create_stream_chunk (text e) model format_type (first_chunk l)
                false w) as [chunk w'].
    cbn [ret] in He. injection He as <- _ _. cbn [accumulated_response map].
    rewrite append_assoc. f_equal.
    destruct events as [| e' events']; cbn; [now rewrite append_nil_r | reflexivity].
Qed.

Lemma files_events_buffer (model : string)
    (events : list PartialResponse) (l : stream_locals) (w : World) :
  accumulated_response (fst (fst (files_events model events l w)))
  = accumulated_response l
    ++ String.concat EmptyString (map message_text_of events).
Proof.
  revert l w. induction events as [| e events IH]; intros l w.
  - cbn. now rewrite append_nil_r.
  - cbn [files_events]. unfold bind.
    destruct (files_event model e l w) as [[l1 item] w1] eqn:He.
    specialize (IH l1 w1).
    destruct (files_events model events l1 w1) as [[l2 items] w2].
    cbn [ret fst] in *. rewrite IH.
    unfold files_event, bind in He.
    destruct (create_stream_chunk (message_text_of e) model "completion"
                (first_chunk l) false w) as [chunk w'].
    cbn [ret] in He. injection He as <- _ _. cbn [accumulated_response map].
    rewrite append_assoc. f_equal.
    destruct events as [| e' events']; cbn; [now rewrite append_nil_r | reflexivity].
Qed.

(** On events without replace flag and without attachment the two loops
    are the same. *)
Lemma plain_events_stream_events (model format_type : string)
    (events : list PartialResponse) (l : stream_locals) (w : World) :
  Forall plain_delta events ->
  plain_events model format_type events l w
  = stream_events model format_type events l w.
Proof.
  intros Hp. revert l w. induction Hp as [| e events [Hr Ha] _ IH]; intros l w;
    [reflexivity |].
  cbn [plain_events stream_events]. unfold bind.
  assert (He : plain_event model format_type e l w
               = stream_event model format_type e l w).
  { unfold plain_event, stream_event, message_text_of. rewrite Hr, Ha.
    reflexivity. }
  rewrite He. destruct (stream_event model format_type e l w) as [[l1 item] w1].
  now rewrite IH.
Qed.

(** The items of [stream_response] and of
    [stream_completions_format_with_files], as for
    [stream_response_with_replace]. *)
Lemma stream_response_plain_shape (model : string)
    (messages : list ProtocolMessage) (api_key format_type : string) (w : World) :
  let bot := normalize_model model in
  let stream := get_bot_response (bot_calls w) messages bot api_key in
  let run := plain_events bot format_type (fst stream) stream_start
               (snd (call_bot messages bot api_key w)) in
  let buffer := accumulated_response (fst (fst run)) in
  let counts := counters_at_end (snd stream) buffer (count_message_tokens messages) in
  fst (stream_response model messages api_key format_type w) =
  ((snd (fst run) ++
      [Data match snd stream with
            | None => fst (create_final_chunk bot format_type (Some counts) (snd run))
            | Some e =>
                stream_error_payload (fst (parse_try e (parse_initial e)))
                  buffer counts
            end] ++
      (if wants_done format_type then [Done] else []))%list, None).
Proof.
  cbv zeta. unfold stream_response, bind.
  unfold call_bot at 1. cbn [snd].
  destruct (get_bot_response (bot_calls w) messages (normalize_model model) api_key)
    as [events ending].
  cbn [fst snd].
  set (w1 := snd (call_bot messages (normalize_model model) api_key w)).
  change {| bot_calls := S (bot_calls w); upload_calls := upload_calls w;
            urandom_calls := urandom_calls w; time_calls := time_calls w |}
    with w1.
  destruct (plain_events (normalize_model model) format_type events stream_start w1)
    as [[l items] w2].
  cbn [fst snd]. destruct ending as [e |].
  - rewrite parse_poe_error_returns. reflexivity.
  - destruct (create_final_chunk (normalize_model model) format_type
                (Some (counters_at_end None (accumulated_response l)
                         (count_message_tokens messages))) w2) as [final w3].
    reflexivity.
Qed.

Lemma stream_files_shape (model : string)
    (messages : list ProtocolMessage) (api_key : string) (w : World) :
  let bot := normalize_model model in
  let stream := get_bot_response (bot_calls w) messages bot api_key in
  let run := files_events bot (fst stream) stream_start
               (snd (call_bot messages bot api_key w)) in
  let buffer := accumulated_response (fst (fst run)) in
  let counts := counters_at_end (snd stream) buffer (count_message_tokens messages) in
  fst (stream_completions_format_with_files model messages api_key w) =
  ((snd (fst run) ++
      [Data match snd stream with
            | None => fst (create_final_chunk "completion" "completion"
                             (Some counts) (snd run))
            | Some e =>
                stream_error_payload (fst (parse_try e (parse_initial e)))
                  buffer counts
            end; Done])%list, None).
Proof.
  cbv zeta. unfold stream_completions_format_with_files, bind.
  unfold call_bot at 1. cbn [snd].
  destruct (get_bot_response (bot_calls w) messages (normalize_model model) api_key)
    as [events ending].
  cbn [fst snd].
  set (w1 := snd (call_bot messages (normalize_model model) api_key w)).
  change {| bot_calls := S (bot_calls w); upload_calls := upload_calls w;
            urandom_calls := urandom_calls w; time_calls := time_calls w |}
    with w1.
  destruct (files_events (normalize_model model) events stream_start w1)
    as [[l items] w2].
  cbn [fst snd]. destruct ending as [e |].
  - rewrite parse_poe_error_returns. reflexivity.
  - destruct (create_final_chunk "completion" "completion"
                (Some (counters_at_end None (accumulated_response l)
                         (count_message_tokens messages))) w2) as [final w3].
    reflexivity.
Qed.



Lemma firstn_exact {A} (l r : list A) : firstn (length l) (l ++ r) = l.
Proof.
  rewrite firstn_app, Nat.sub_diag, firstn_all. cbn. apply app_nil_r.
Qed.

(** X9. The wire format is incremental: the chunk sent for an event
    carries the text of that event alone, never the buffer, also after a
    replace event.  [stream_response_with_replace] and
    [stream_completions_format_with_files] add the URL of the event's
    attachment on a line of its own; [stream_response] sends the text
    without it. *)
Theorem chunks_carry_deltas (model : string) (messages : list ProtocolMessage)
    (api_key format_type : string) (w : World) :
  let events := fst (get_bot_response (bot_calls w) messages
                       (normalize_model model) api_key) in
  map (chunk_text format_type)
      (firstn (length events)
         (fst (fst (stream_response_with_replace model messages api_key
                      format_type w))))
  = map (fun e => Some (JStr (message_text_of e))) events /\
  map (chunk_text format_type)
      (firstn (length events)
         (fst (fst (stream_response model messages api_key format_type w))))
  = map (fun e => Some (JStr (text e))) events /\
  map (chunk_text "completion")
      (firstn (length events)
         (fst (fst (stream_completions_format_with_files model messages
                      api_key w))))
  = map (fun e => Some (JStr (message_text_of e))) events.
Proof.
  cbv zeta.
  rewrite stream_response_shape, stream_response_plain_shape, stream_files_shape.
  cbn [fst].
  set (bot := normalize_model model).
  set (stream := get_bot_response (bot_calls w) messages bot api_key).
  set (w1 := snd (call_bot messages bot api_key w)).
  destruct (stream_events_outcome bot format_type (fst stream) stream_start w1)
    as (H1 & T1 & _).
  destruct (plain_events_outcome bot format_type (fst stream) stream_start w1)
    as (H2 & T2 & _).
  destruct (files_events_outcome bot (fst stream) stream_start w1)
    as (H3 & T3 & _).
  rewrite <- H1 at 1. rewrite <- H2 at 1. rewrite <- H3 at 1.
  rewrite !firstn_exact. auto.
Qed.

Lemma final_chunk_role (model format_type : string) (t : option TokenCounts)
    (w : World) :
  chunk_role (Data (fst (create_final_chunk model format_type t w))) = None.
Proof.
  unfold create_final_chunk, bind, call_urandom_hex, call_time, ret. cbn [fst].
  destruct (String.eqb format_type "completion");
    [destruct t; reflexivity |].
  destruct (String.eqb format_type "chat"); destruct t; reflexivity.
Qed.

Lemma error_payload_plain (p : parse_locals) (buffer : string) (t : TokenCounts) :
  chunk_role (Data (stream_error_payload p buffer t)) = None /\
  is_terminal (Data (stream_error_payload p buffer t)) = false.
Proof.
  unfold stream_error_payload.
  destruct (Json.truthy (error_id p));
    destruct (negb (String.eqb buffer EmptyString)); split; reflexivity.
Qed.

(** X10. In a chat stream the role is announced once: the chunk of the
    first event carries the role assistant, and no later item does (no
    chunk, no final chunk, no error event).  A stream without events
    announces no role at all. *)
Theorem role_announced_once (model : string) (messages : list ProtocolMessage)
    (api_key : string) (w : World) :
  exists (first : sse) (later : list sse),
    fst (fst (stream_openai_format model messages api_key w)) = first :: later /\
    chunk_role first =
      match fst (get_bot_response (bot_calls w) messages (normalize_model model)
                   api_key) with
      | [] => None
      | _ :: _ => Some (JStr "assistant")
      end /\
    Forall (fun item => chunk_role item = None) later.
Proof.
  unfold stream_openai_format. rewrite stream_response_shape. cbn [fst].
  set (bot := normalize_model model).
  set (stream := get_bot_response (bot_calls w) messages bot api_key).
  set (w1 := snd (call_bot messages bot api_key w)).
  destruct (stream_events_outcome bot "chat" (fst stream) stream_start w1)
    as (Hlen & _ & Hrole & _).
  specialize (Hrole eq_refl).
  set (last_item := Data match snd stream with
                         | Some e => _
                         | None => _
                         end).
  assert (Hlast : chunk_role last_item = None).
  { subst last_item. destruct (snd stream).
    - apply error_payload_plain.
    - apply final_chunk_role. }
  destruct (snd (fst (stream_events bot "chat" (fst stream) stream_start w1)))
    as [| item items].
  - destruct (fst stream); [| discriminate Hlen].
    eexists _, _. split; [reflexivity |]. split; [exact Hlast |].
    repeat constructor.
  - destruct (fst stream) as [| e events]; [discriminate Hlen |].
    destruct Hrole as [Hitem Hitems].
    eexists _, _. split; [reflexivity |]. split; [exact Hitem |].
    apply Forall_app. split; [exact Hitems |].
    constructor; [exact Hlast |]. repeat constructor.
Qed.

(** X11. On an upstream stream without replace events and without
    attachments, [stream_response] and [stream_response_with_replace] do
    the same: the same items, the same calls. *)
Theorem stream_response_agrees (model : string) (messages : list ProtocolMessage)
    (api_key format_type : string) (w : World) :
  Forall plain_delta
         (fst (get_bot_response (bot_calls w) messages (normalize_model model)
                 api_key)) ->
  stream_response model messages api_key format_type w
  = stream_response_with_replace model messages api_key format_type w.
Proof.
  intros Hp. unfold stream_response, stream_response_with_replace, bind.
  unfold call_bot.
  destruct (get_bot_response (bot_calls w) messages (normalize_model model) api_key)
    as [events ending].
  cbn [fst] in Hp. now rewrite (plain_events_stream_events _ _ _ _ Hp).
Qed.

(** X12. The streaming completions path takes no account of replace
    events: when the upstream stream closes, the usage of its final chunk
    counts the texts of all events, one after the other.  That final chunk
    names the model completion, whatever model was asked, and the
    sentinel follows it. *)
Theorem completions_stream_counts_every_text (model : string)
    (messages : list ProtocolMessage) (api_key : string) (w : World)
    (events : list PartialResponse) :
  get_bot_response (bot_calls w) messages (normalize_model model) api_key
  = (events, None) ->
  exists (chunks : list sse) (final : json),
    fst (stream_completions_format_with_files model messages api_key w)
    = ((chunks ++ [Data final; Done])%list, None) /\
    length chunks = length events /\
    Json.get "model" final = Some (JStr "completion") /\
    finish_reason_of final = Some (JStr "stop") /\
    Json.get "usage" final =
      Some (usage_json
              (recount (String.concat EmptyString (map message_text_of events))
                       (count_message_tokens messages))).
Proof.
  intros Hstream. rewrite stream_files_shape, Hstream. cbn [fst snd].
  set (bot := normalize_model model).
  set (w1 := snd (call_bot messages bot api_key w)).
  destruct (files_events_outcome bot events stream_start w1) as (Hlen & _).
  rewrite files_events_buffer. cbn [accumulated_response stream_start append].
  eexists _, _. split; [reflexivity |]. split; [exact Hlen |].
  split; [reflexivity |]. split; [reflexivity |]. apply final_chunk_usage.
Qed.

(** X13. When the upstream stream of a chat request raises, the chunks of
    the events received so far are followed by one error event and the
    sentinel.  The error object carries the message and the type found by
    [parse_poe_error], the type again as its code, and no item of the
    stream carries the stop signal. *)
Theorem chat_stream_error_event (model : string) (messages : list ProtocolMessage)
    (api_key : string) (w : World) (events : list PartialResponse) (e : exn) :
  get_bot_response (bot_calls w) messages (normalize_model model) api_key
  = (events, Some e) ->
  exists (chunks : list sse) (payload : json) (inner : list (string * json))
         (p : parse_locals),
    fst (stream_openai_format model messages api_key w)
    = ((chunks ++ [Data payload; Done])%list, None) /\
    length chunks = length events /\
    parse_poe_error e = Return p /\
    Json.get "error" payload = Some (JObj inner) /\
    Json.dict_get "message" inner = Some (error_message p) /\
    Json.dict_get "type" inner = Some (JStr (error_type p)) /\
    Json.dict_get "code" inner = Some (JStr (error_type p)) /\
    Forall (fun item => is_terminal item = false)
           (chunks ++ [Data payload; Done]).
Proof.
  intros Hstream. unfold stream_openai_format.
  rewrite stream_response_shape, Hstream. cbn [fst snd].
  set (bot := normalize_model model).
  set (w1 := snd (call_bot messages bot api_key w)).
  destruct (stream_events_items bot "chat" events stream_start w1)
    as [Hitems Hlen].
  set (p := fst (parse_try e (parse_initial e))).
  eexists _, _, _, p. split; [reflexivity |]. split; [exact Hlen |].
  split; [apply parse_poe_error_returns |].
  unfold stream_error_payload.
  split; [destruct (negb (String.eqb _ EmptyString)); reflexivity |].
  split; [destruct (Json.truthy (error_id p)); reflexivity |].
  split; [destruct (Json.truthy (error_id p)); reflexivity |].
  split; [destruct (Json.truthy (error_id p)); reflexivity |].
  apply Forall_app. split.
  - eapply Forall_impl; [| exact Hitems]. intros item Hi.
    now apply content_item_chat in Hi.
  - constructor; [| repeat constructor].
    fold (stream_error_payload p
            (accumulated_response
               (fst (fst (stream_events bot "chat" events stream_start w1))))
            (counters_at_end (Some e)
               (accumulated_response
                  (fst (fst (stream_events bot "chat" events stream_start w1))))
               (count_message_tokens messages))).
    apply error_payload_plain.
Qed.

End GeneratorProperties.

(** A stream of one plain event: both generators yield the same. *)
Lemma stream_response_agrees_witness :
  @stream_response barren_world "GPT-4o" [] "key" "chat"
    {| bot_calls := 1; upload_calls := 0; urandom_calls := 0; time_calls := 0 |}
  = @stream_response_with_replace barren_world "GPT-4o" [] "key" "chat"
      {| bot_calls := 1; upload_calls := 0; urandom_calls := 0; time_calls := 0 |}.
Proof.
  apply (@stream_response_agrees barren_world).
  repeat constructor.
Defined.

(** The stream Hi, replace Bye on the completions path: the usage counts
    HiBye. *)
Lemma completions_stream_counts_every_text_witness :
  exists (chunks : list sse) (final : json),
    fst (@stream_completions_format_with_files two_event_world "GPT-4o" [] "key"
           world0)
    = ((chunks ++ [Data final; Done])%list, None) /\
    Json.get "usage" final =
      Some (usage_json (@recount two_event_world "HiBye"
                          (@count_message_tokens two_event_world []))).
Proof.
  destruct (@completions_stream_counts_every_text two_event_world "GPT-4o" []
              "key" world0 [delta "Hi"; replace_delta "Bye"] eq_refl)
    as (chunks & final & Hout & _ & _ & _ & Husage).
  exists chunks, final. split; [exact Hout | exact Husage].
Defined.

(** A chat stream that crashes before its first event. *)
Lemma chat_stream_error_event_witness :
  exists (payload : json) (inner : list (string * json)),
    fst (@stream_openai_format barren_world "GPT-4o" [] "key" world0)
    = ([Data payload; Done], None) /\
    Json.get "error" payload = Some (JObj inner) /\
    Json.dict_get "type" inner = Some (JStr "server_error").
Proof.
  destruct (@chat_stream_error_event barren_world "GPT-4o" [] "key" world0 []
              (py_error OtherException "bot crashed") eq_refl)
    as (chunks & payload & inner & p & Hout & Hlen & Hp & He & _ & Ht & _).
  destruct chunks; [| discriminate Hlen].
  injection Hp as <-.
  exists payload, inner. split; [exact Hout |]. split; [exact He | exact Ht].
Defined.

(* ===================================================================== *)
(** * Further properties: token accounting *)
(* ===================================================================== *)

Section TokenProperties.
Context `{Env}.

Lemma count_tokens_nonneg (s : string) : (0 <= count_tokens s)%Z.
Proof.
  unfold count_tokens. destruct (tiktoken_len s); [lia |].
  apply Z.div_pos; lia.
Qed.

(** The loop adds to the counters it starts from. *)
Lemma count_roles_shift (messages : list ProtocolMessage) (p c : Z) :
  count_roles messages p c =
  ((p + fst (count_roles messages 0 0))%Z, (c + snd (count_roles messages 0 0))%Z).
Proof.
  revert p c. induction messages as [| m ms IH]; intros p c.
  - cbn. f_equal; lia.
  - cbn [count_roles]. set (t := count_tokens (content m)).
    destruct (String.eqb (role m) "bot" || String.eqb (role m) "assistant").
    + rewrite (IH p (c + t)%Z), (IH 0%Z (0 + t)%Z). cbn [fst snd]. f_equal; lia.
    + rewrite (IH (p + t)%Z c), (IH (0 + t)%Z 0%Z). cbn [fst snd]. f_equal; lia.
Qed.

Lemma count_roles_nonneg (messages : list ProtocolMessage) :
  (0 <= fst (count_roles messages 0 0))%Z /\ (0 <= snd (count_roles messages 0 0))%Z.
Proof.
  induction messages as [| m ms [IHp IHc]]; [cbn; lia |].
  cbn [count_roles]. pose proof (count_tokens_nonneg (content m)) as Ht.
  destruct (String.eqb (role m) "bot" || String.eqb (role m) "assistant");
    rewrite count_roles_shift; cbn [fst snd]; lia.
Qed.

Lemma count_roles_permutation (ms ms' : list ProtocolMessage) :
  Permutation ms ms' -> forall p c : Z, count_roles ms p c = count_roles ms' p c.
Proof.
  induction 1 as [| x l l' _ IH | x y l | l l' l'' _ IH1 _ IH2]; intros p c.
  - reflexivity.
  - cbn [count_roles].
    destruct (String.eqb (role x) "bot" || String.eqb (role x) "assistant");
      apply IH.
  - cbn [count_roles].
    destruct (String.eqb (role x) "bot" || String.eqb (role x) "assistant");
      destruct (String.eqb (role y) "bot" || String.eqb (role y) "assistant");
      f_equal; lia.
  - now rewrite IH1.
Qed.

(** X14. The counters do not depend on the order of the messages. *)
Theorem count_message_tokens_permutation (ms ms' : list ProtocolMessage) :
  Permutation ms ms' -> count_message_tokens ms = count_message_tokens ms'.
Proof.
  intros Hp. unfold count_message_tokens.
  now rewrite (count_roles_permutation Hp).
Qed.

(** X15. All counters are non-negative, and the prompt counter is at least
    the overhead of 3, before and after the completion is counted again
    from the reply; counting again keeps the prompt counter and replaces
    the completion counter by the count of the reply. *)
Theorem token_counts_bounds (messages : list ProtocolMessage) (reply : string) :
  (3 <= prompt_tokens (count_message_tokens messages))%Z /\
  (0 <= completion_tokens (count_message_tokens messages))%Z /\
  (3 <= total_tokens (count_message_tokens messages))%Z /\
  prompt_tokens (recount reply (count_message_tokens messages))
  = prompt_tokens (count_message_tokens messages) /\
  completion_tokens (recount reply (count_message_tokens messages))
  = count_tokens reply /\
  (0 <= completion_tokens (recount reply (count_message_tokens messages)))%Z /\
  (3 <= total_tokens (recount reply (count_message_tokens messages)))%Z.
Proof.
  pose proof (count_roles_nonneg messages) as [Hp Hc].
  pose proof (count_tokens_nonneg reply) as Hr.
  unfold count_message_tokens, recount.
  destruct (count_roles messages 0 0) as [p c]. cbn in *.
  repeat split; lia.
Qed.

Lemma count_roles_app (a b : list ProtocolMessage) (p c : Z) :
  count_roles (a ++ b) p c =
  count_roles b (fst (count_roles a p c)) (snd (count_roles a p c)).
Proof.
  revert p c. induction a as [| m a IH]; intros p c; [reflexivity |].
  cbn [app count_roles].
  destruct (String.eqb (role m) "bot" || String.eqb (role m) "assistant");
    apply IH.
Qed.

(** X16. The replies of the assistant that a conversation already holds
    are billed nowhere in the final usage: with or without such a message
    among the messages, the counters after the reply has been counted are
    the same. *)
Theorem assistant_history_is_not_billed (before after : list ProtocolMessage)
    (m : ProtocolMessage) (reply : string) :
  role m = "assistant" \/ role m = "bot" ->
  recount reply (count_message_tokens (before ++ m :: after))
  = recount reply (count_message_tokens (before ++ after)).
Proof.
  intros Hrole. unfold count_message_tokens.
  rewrite !count_roles_app. cbn [count_roles].
  replace (String.eqb (role m) "bot" || String.eqb (role m) "assistant")
    with true by (destruct Hrole as [-> | ->]; reflexivity).
  destruct (count_roles before 0 0) as [p c]. cbn [fst snd].
  rewrite (count_roles_shift after p (c + count_tokens (content m))).
  rewrite (count_roles_shift after p c).
  reflexivity.
Qed.

End TokenProperties.

(** Two messages in both orders. *)
Lemma count_message_tokens_permutation_witness :
  @count_message_tokens two_event_world
    [{| role := "user"; content := "What is the capital of France?";
        attachments := [] |};
     {| role := "bot"; content := "Paris."; attachments := [] |}]
  = @count_message_tokens two_event_world
      [{| role := "bot"; content := "Paris."; attachments := [] |};
       {| role := "user"; content := "What is the capital of France?";
          attachments := [] |}].
Proof.
  apply (@count_message_tokens_permutation two_event_world).
  apply perm_swap.
Defined.

(** A conversation with one earlier reply of the assistant. *)
Lemma assistant_history_is_not_billed_witness :
  @recount two_event_world "Berlin."
    (@count_message_tokens two_event_world
       [{| role := "user"; content := "What is the capital of France?";
           attachments := [] |};
        {| role := "assistant"; content := "Paris."; attachments := [] |};
        {| role := "user"; content := "And of Germany?"; attachments := [] |}])
  = @recount two_event_world "Berlin."
      (@count_message_tokens two_event_world
         [{| role := "user"; content := "What is the capital of France?";
             attachments := [] |};
          {| role := "user"; content := "And of Germany?"; attachments := [] |}]).
Proof.
  exact (@assistant_history_is_not_billed two_event_world
           [{| role := "user"; content := "What is the capital of France?";
               attachments := [] |}]
           [{| role := "user"; content := "And of Germany?"; attachments := [] |}]
           {| role := "assistant"; content := "Paris."; attachments := [] |}
           "Berlin." (or_introl eq_refl)).
Defined.

(* ===================================================================== *)
(** * Further properties: the accumulation paths and [completions] *)
(* ===================================================================== *)

Section AccumulationProperties.
Context `{Env}.

Lemma accumulate_without_files (events : list PartialResponse)
    (l : accumulate_locals) (pl : plain_locals) :
  Forall (fun e => attachment e = None) events ->
  accumulated_text l = plain_text pl ->
  response_content l = plain_content pl ->
  let l' := accumulate_events events l in
  let pl' := fold_left (fun a e => plain_accumulate_event e a) events pl in
  response_content l' = plain_content pl' /\ received_files l' = received_files l.
Proof.
  intros Hf. revert l pl. unfold accumulate_events.
  induction Hf as [| e events He _ IH]; intros l pl Ht Hc; [now split |].
  cbn [fold_left].
  destruct (IH (accumulate_event e l) (plain_accumulate_event e pl)) as [H1 H2].
  - cbn. now rewrite Ht.
  - cbn. now rewrite Ht.
  - split; [exact H1 |]. rewrite H2. cbn. now rewrite He.
Qed.

(** X17. On an upstream stream without attachments,
    [generate_poe_bot_response] and
    [generate_poe_bot_response_with_files] give the same reply or raise
    the same exception. *)
Theorem generate_agrees_without_files (model : string)
    (messages : list ProtocolMessage) (api_key : string) (w : World) :
  Forall (fun e => attachment e = None)
         (fst (get_bot_response (bot_calls w) messages (normalize_model model)
                 api_key)) ->
  generate_poe_bot_response model messages api_key w
  = generate_poe_bot_response_with_files model messages api_key w.
Proof.
  intros Hf.
  unfold generate_poe_bot_response, generate_poe_bot_response_with_files, bind,
    call_bot.
  destruct (get_bot_response (bot_calls w) messages (normalize_model model) api_key)
    as [events ending].
  cbn [fst] in Hf.
  destruct (@accumulate_without_files events accumulate_start
              {| plain_text := EmptyString; plain_content := EmptyString |}
              Hf eq_refl eq_refl) as [Hc Hr].
  destruct ending as [e |]; [reflexivity |].
  rewrite Hr, Hc. reflexivity.
Qed.



End AccumulationProperties.

(** The stream Hi, replace Bye has no attachment. *)
Lemma generate_agrees_without_files_witness :
  @generate_poe_bot_response two_event_world "GPT-4o" [] "key" world0
  = @generate_poe_bot_response_with_files two_event_world "GPT-4o" [] "key" world0.
Proof.
  apply (@generate_agrees_without_files two_event_world).
  repeat constructor.
Defined.



(* ===================================================================== *)
(** * Further properties: the request normalizer *)
(* ===================================================================== *)

Section ContentProperties.
Context `{Env}.

Lemma convert_text_parts (texts : list string) (api_key : string)
    (st : parts_state) (w : World) :
  convert_parts (map text_part texts) api_key st w =
  (Return ((fst st ++ map JStr texts)%list, snd st), w).
Proof.
  revert st. induction texts as [| t texts IH]; intros st.
  - cbn. rewrite app_nil_r. now destruct st.
  - cbn [map convert_parts]. unfold bind. rewrite convert_text_part, IH.
    cbn [fst snd]. now rewrite <- app_assoc.
Qed.

Lemma py_join_items_strings (texts : list string) :
  py_join_items (map JStr texts) = Return texts.
Proof.
  induction texts as [| t texts IH]; [reflexivity |]. cbn. now rewrite IH.
Qed.

(** X20. A message content made of text parts only is converted to its
    texts joined by single blanks, in order, without attachment and
    without any call to the outside world. *)
Theorem convert_text_only (texts : list string) (api_key : string) (w : World) :
  convert_openai_content_to_poe (map text_part texts) api_key w =
  (Return (Py.join " " texts, []), w).
Proof.
  unfold convert_openai_content_to_poe, bind. rewrite convert_text_parts.
  cbn [fst snd ret app]. unfold py_join. now rewrite py_join_items_strings.
Qed.

(** ** Uploads *)

Lemma upload_image_calls (u api_key : string) (w : World) :
  uploads_between w (snd (upload_image u api_key w)) 1 /\
  (forall a, fst (upload_image u api_key w) = Return a ->
             upload_calls (snd (upload_image u api_key w)) = S (upload_calls w)).
Proof.
  unfold uploads_between, upload_image, process_base64_image,
    process_base64_image_try, process_image_url, bind, call_upload, ret.
  destruct (Py.startswith u "data:"); cbn [negb].
  - destruct (Py.split1 u ";base64,") as [| header [| payload [| x rest]]];
      cbn; try (split; [repeat split; lia | discriminate]).
    destruct (b64decode payload); cbn;
      [| split; [repeat split; lia | discriminate]].
    split; [repeat split; lia |]. intros a _. reflexivity.
  - cbn. split; [repeat split; lia |]. intros a _. reflexivity.
Qed.

Lemma attach_image_calls (target : json) (failed api_key : string)
    (st : parts_state) (w : World) :
  uploads_between w (snd (attach_image target failed api_key st w)) 1 /\
  (forall st', fst (attach_image target failed api_key st w) = Return st' ->
     length (snd st') + upload_calls w
     <= length (snd st) + upload_calls (snd (attach_image target failed api_key st w))).
Proof.
  destruct target as [| b | n | f | u | items | d];
    try (destruct st; cbn; split; [repeat split; lia | discriminate]).
  rewrite attach_image_string. cbn [fst snd].
  destruct (upload_image_calls u api_key w) as [Hb Hr].
  split; [exact Hb |]. intros st' [= <-].
  destruct (fst (upload_image u api_key w)) as [a | e] eqn:Hup; cbn [snd].
  - rewrite (Hr a eq_refl), length_app. cbn. lia.
  - destruct Hb as (_ & _ & _ & Hu). lia.
Qed.

Lemma convert_part_calls (comp : json) (api_key : string) (st : parts_state)
    (w : World) :
  uploads_between w (snd (convert_part comp api_key st w)) 1 /\
  (forall st', fst (convert_part comp api_key st w) = Return st' ->
     length (snd st') + upload_calls w
     <= length (snd st) + upload_calls (snd (convert_part comp api_key st w))).
Proof.
  assert (Hsame : forall r : result parts_state,
             (forall st', r = Return st' -> length (snd st') <= length (snd st)) ->
             uploads_between w w 1 /\
             (forall st', r = Return st' ->
                length (snd st') + upload_calls w
                <= length (snd st) + upload_calls w)).
  { intros r Hr. split; [repeat split; lia |].
    intros st' Hs. specialize (Hr st' Hs). lia. }
  unfold convert_part. destruct st as [text_parts atts].
  destruct comp as [| b | n | f | u | items | d];
    try (apply Hsame; intros st' [= <-]; cbn; lia).
  destruct (if type_is d "text" then Json.dict_get "text" d else None);
    [apply Hsame; intros st' [= <-]; cbn; lia |].
  destruct (type_is d "image_url").
  - destruct (py_get _ "url" (JStr EmptyString)) as [target | e];
      [| apply Hsame; discriminate].
    destruct (Json.truthy target); [apply attach_image_calls |].
    apply Hsame; intros st' [= <-]; cbn; lia.
  - destruct (type_is d "image"); [| apply Hsame; intros st' [= <-]; cbn; lia].
    destruct (Json.truthy _); [apply attach_image_calls |].
    apply Hsame; intros st' [= <-]; cbn; lia.
Qed.

Lemma convert_parts_calls (content : list json) (api_key : string)
    (st : parts_state) (w : World) :
  uploads_between w (snd (convert_parts content api_key st w)) (length content) /\
  (forall st', fst (convert_parts content api_key st w) = Return st' ->
     length (snd st') + upload_calls w
     <= length (snd st) + upload_calls (snd (convert_parts content api_key st w))).
Proof.
  revert st w. induction content as [| comp content IH]; intros st w.
  - cbn. split; [repeat split; lia |]. intros st' [= <-]. lia.
  - cbn [convert_parts length]. unfold bind.
    destruct (convert_part_calls comp api_key st w) as [Hb Hr].
    destruct (convert_part comp api_key st w) as [[st1 | e] w1]; cbn [fst snd] in *.
    + destruct (IH st1 w1) as [Hb' Hr'].
      destruct Hb as (B1 & B2 & B3 & B4), Hb' as (C1 & C2 & C3 & C4).
      split; [repeat split; lia |].
      intros st' Hs. specialize (Hr st1 eq_refl). specialize (Hr' st' Hs). lia.
    + destruct Hb as (B1 & B2 & B3 & B4).
      split; [repeat split; cbn; lia | discriminate].
Qed.

(** X21. Whatever the content parts are, their conversion makes no upstream
    bot call, draws no identifier and reads no clock; it makes at most one
    upload per part, and every attachment it returns was given by one of
    these uploads. *)
Theorem convert_uploads_are_bounded (content : list json) (api_key : string)
    (w : World) :
  let w' := snd (convert_openai_content_to_poe content api_key w) in
  bot_calls w' = bot_calls w /\
  urandom_calls w' = urandom_calls w /\
  time_calls w' = time_calls w /\
  upload_calls w <= upload_calls w' <= upload_calls w + length content /\
  (forall (joined : string) (atts : list Attachment),
      fst (convert_openai_content_to_poe content api_key w) = Return (joined, atts) ->
      length atts <= upload_calls w' - upload_calls w).
Proof.
  cbv zeta. unfold convert_openai_content_to_poe, bind.
  destruct (convert_parts_calls content api_key ([], []) w) as [Hb Hr].
  destruct (convert_parts content api_key ([], []) w) as [r w1];
    cbn [fst snd ret] in *.
  destruct Hb as (B1 & B2 & B3 & B4).
  repeat split; try lia.
  intros joined atts Hj. destruct r as [[text_parts atts'] | e]; [| discriminate].
  specialize (Hr _ eq_refl). cbn in Hr.
  destruct (py_join " " text_parts); [| discriminate].
  injection Hj as _ <-. lia.
Qed.

(** ** Messages *)




End ContentProperties.


(* ===================================================================== *)
(** * Further properties: malformed parts *)
(* ===================================================================== *)

Section MalformedParts.
Context `{Env}.

Lemma convert_parts_app (a b : list json) (api_key : string) (st : parts_state)
    (w : World) :
  convert_parts (a ++ b) api_key st w =
  match convert_parts a api_key st w with
  | (Return st', w') => convert_parts b api_key st' w'
  | (Raise e, w') => (Raise e, w')
  end.
Proof.
  revert st w. induction a as [| comp a IH]; intros st w; [reflexivity |].
  cbn [app convert_parts]. unfold bind.
  destruct (convert_part comp api_key st w) as [[st1 | e] w1]; [apply IH |].
  reflexivity.
Qed.

Lemma fallback_parts_app (a b parts : list json) :
  fallback_parts (a ++ b) parts =
  match fallback_parts a parts with
  | Return parts' => fallback_parts b parts'
  | Raise e => Raise e
  end.
Proof.
  revert parts. induction a as [| comp a IH]; intros parts; [reflexivity |].
  cbn [app fallback_parts].
  destruct (fallback_part comp parts); [apply IH | reflexivity].
Qed.

Lemma fallback_parts_well_formed (content parts : list json) :
  Forall well_formed_part content ->
  exists parts' : list json, fallback_parts content parts = Return parts'.
Proof.
  intros Hwf. revert parts.
  induction Hwf as [| comp content Hc _ IH]; intros parts; [now eexists |].
  cbn [fallback_parts]. destruct Hc; cbn; apply IH.
Qed.

(** X23. A part of type image_url whose image_url member is not an object
    (a bare URL string, say) aborts the whole request, even between
    well-formed parts: the conversion raises an AttributeError, the
    fallback to plain text raises it again, and the chat handler answers
    with the status 500 and the type server_error. *)
Theorem flat_image_url_aborts (before after : list json) (v : json)
    (r api_key : string) (w : World) :
  Forall well_formed_part before ->
  (forall d, v <> JObj d) ->
  exists e : exn,
    fst (prepare_message
           {| msg_role := r;
              msg_content := JArr (before ++ flat_image_url_part v :: after) |}
           api_key w) = Raise e /\
    exn_class e = AttributeError /\
    status_code (chat_completions_except e) = 500%Z /\
    detail_type (exn_data (chat_completions_except e)) = Some (JStr "server_error").
Proof.
  intros Hwf Hv.
  exists (py_error AttributeError "object has no attribute get").
  split; [| repeat split].
  assert (Hget : py_get v "url" (JStr EmptyString)
                 = Raise (py_error AttributeError "object has no attribute get")).
  { destruct v; try reflexivity. now destruct (Hv members). }
  unfold prepare_message. cbn [msg_content msg_role].
  replace (Json.truthy (JArr (before ++ flat_image_url_part v :: after)))
    with true by (now destruct before).
  unfold bind, convert_openai_content_to_poe, bind.
  rewrite convert_parts_app.
  destruct (@convert_parts_well_formed _ before api_key ([], []) w Hwf)
    as (st1 & Hr & _); [constructor |].
  destruct (convert_parts before api_key ([], []) w) as [res w1].
  cbn [fst] in Hr. subst res.
  cbn [convert_parts]. unfold bind.
  assert (Hpart : convert_part (flat_image_url_part v) api_key st1 w1
                  = (Raise (py_error AttributeError "object has no attribute get"),
                     w1)).
  { destruct st1. unfold convert_part, flat_image_url_part.
    cbn -[py_get]. rewrite Hget. reflexivity. }
  rewrite Hpart. cbn [ret fst].
  rewrite fallback_parts_app.
  destruct (@fallback_parts_well_formed before [] Hwf) as [parts' ->].
  cbn [fallback_parts]. unfold fallback_part, flat_image_url_part.
  cbn -[py_get]. rewrite Hget. reflexivity.
Qed.

End MalformedParts.

(** A bare URL where an object is expected. *)
Lemma flat_image_url_aborts_witness :
  exists e : exn,
    fst (@prepare_message two_event_world
           {| msg_role := "user";
              msg_content :=
                JArr [text_part "What is this?";
                      flat_image_url_part (JStr "https://example.org/cat.png")] |}
           "key" world0) = Raise e /\
    exn_class e = AttributeError.
Proof.
  destruct (@flat_image_url_aborts two_event_world [text_part "What is this?"] []
              (JStr "https://example.org/cat.png") "user" "key" world0)
    as (e & He & Hc & _).
  - apply Forall_cons; [apply wf_text | apply Forall_nil].
  - discriminate.
  - exists e. split; [exact He | exact Hc].
Defined.

(* ===================================================================== *)
(** * Further properties: the image endpoints *)
(* ===================================================================== *)

Section ImageExtras.
Context `{Env}.

(** X24. An image attempt takes the first file of the upstream stream and
    then leaves the stream: what follows that event is never seen, so an
    exception the stream would raise later does not fail the attempt.
    Without any file, the attempt fails with the exception of the stream,
    or finds nothing when the stream closes. *)
Theorem first_file_wins (before after : list PartialResponse)
    (e : PartialResponse) (a : Attachment) (ending : option exn) :
  Forall (fun m => attachment m = None) before ->
  attachment e = Some a ->
  first_file (before ++ e :: after) ending = Return (Some a) /\
  first_file before ending =
    match ending with
    | Some x => Raise x
    | None => Return None
    end.
Proof.
  intros Hb He. induction Hb as [| m before Hm _ [IH1 IH2]].
  - cbn. now rewrite He.
  - cbn [app first_file]. rewrite Hm. now split.
Qed.

Lemma entries_of_shape (model : string) (messages : list ProtocolMessage)
    (api_key : string) (response_format : option string) (first count : nat) :
  Forall (entry_with (entry_key response_format))
         (entries_of model messages api_key response_format first count).
Proof.
  unfold entries_of. induction (seq first count) as [| k ks IH]; [constructor |].
  cbn [flat_map]. apply Forall_app. split; [| exact IH].
  unfold attempt_entry, entry_key.
  destruct (first_file _ _) as [[file |] | e]; try constructor.
  destruct response_format as [f |];
    [destruct (String.eqb f "b64_json") |].
  - destruct (http_get (S k) (url file)); repeat constructor. now eexists.
  - repeat constructor. now eexists.
  - repeat constructor. now eexists.
Qed.

Lemma num_images_of_range (n : option Z) :
  1 <= Z.to_nat (num_images_of n) <= 10.
Proof.
  unfold num_images_of.
  destruct n as [v |]; [destruct (Z.eqb v 0) |]; lia.
Qed.

(** X25. The body an image-generation request is answered with holds
    between 1 and 10 entries, and every entry has exactly one member:
    b64_json when that response format was asked, url otherwise. *)
Theorem image_generations_data_shape (request : ImageGenerationRequest)
    (api_key : string) (w : World) (body : json) :
  fst (image_generations request api_key w) = Return body ->
  exists (created : Z) (entries : list json),
    body = JObj [("created", JInt created); ("data", JArr entries)] /\
    1 <= length entries <= 10 /\
    Forall (entry_with (entry_key (img_response_format request))) entries.
Proof.
  unfold image_generations, bind. rewrite image_attempts_spec.
  unfold image_result. cbn [successful_generations data app].
  set (model := normalize_model (str_or (img_model request) "Imagen-3-Fast")).
  set (messages := [{| role := "user"; content := img_prompt request;
                       attachments := [] |}]).
  set (entries := entries_of model messages api_key (img_response_format request)
                    (bot_calls w) (Z.to_nat (num_images_of (img_n request)))).
  destruct (0 <? 0 + Z.of_nat (length entries))%Z eqn:Hpos; [| discriminate].
  cbn. intros [= <-]. eexists _, entries. split; [reflexivity |].
  apply Z.ltb_lt in Hpos.
  pose proof (successes_bound model messages api_key
                (img_response_format request) (bot_calls w)
                (Z.to_nat (num_images_of (img_n request)))) as Hk.
  rewrite <- entries_of_length in Hk. fold entries in Hk.
  pose proof (num_images_of_range (img_n request)) as Hn.
  split; [lia | apply entries_of_shape].
Qed.

(** The message [image_edits] sends to the bot. *)
Lemma image_edits_message (prompt u api_key : string) (w : World) :
  Py.startswith u "data:" = true ->
  convert_openai_content_to_poe [text_part prompt; image_url_part u] api_key w =
  (Return match fst (upload_image u api_key w) with
          | Return a => (prompt ++ " [Uploaded Image: " ++ name a ++ "]", [a])
          | Raise _ => (prompt ++ " [Image (upload failed): " ++ u ++ "]", [])
          end,
   snd (upload_image u api_key w)).
Proof.
  intros Hd. assert (Hu : u <> EmptyString) by (intros ->; discriminate Hd).
  unfold convert_openai_content_to_poe, bind.
  cbn [convert_parts]. unfold bind.
  rewrite convert_text_part.
  rewrite convert_image_url_part, (truthy_string Hu), attach_image_string.
  cbn [fst snd ret app]. rewrite Hd.
  destruct (fst (upload_image u api_key w)) as [a | e]; reflexivity.
Qed.

(** X26. An image-edit request is never stopped by the upload of its
    image.  When the upload succeeds the bot is asked with the prompt, a
    note naming the uploaded file, and the attachment; when it fails the
    bot is asked all the same, with the prompt followed by a placeholder
    that holds the whole data URL, and no attachment.  Either way the
    attempts are made, and the answer is the body with one entry per
    successful attempt, or the HTTP 500 error of type image_edit_error
    when none succeeds. *)
Theorem image_edits_outcome (image_content prompt : string) (model : option string)
    (n : option Z) (response_format : option string) (api_key : string)
    (w : World) :
  let u := "data:image/jpeg;base64," ++ b64encode image_content in
  let messages :=
    [match fst (upload_image u api_key w) with
     | Return a =>
         {| role := "user";
            content := prompt ++ " [Uploaded Image: " ++ name a ++ "]";
            attachments := [a] |}
     | Raise _ =>
         {| role := "user";
            content := prompt ++ " [Image (upload failed): " ++ u ++ "]";
            attachments := [] |}
     end] in
  let bot := normalize_model (str_or model "StableDiffusionXL") in
  let N := Z.to_nat (num_images_of n) in
  let K := successes bot messages api_key response_format (bot_calls w) N in
  exists entries : list json,
    length entries = K /\ K <= N /\
    fst (image_edits image_content prompt model n response_format api_key w) =
    if (0 <? K)%nat
    then Return (JObj [("created", JInt (time_now (time_calls w)));
                       ("data", JArr entries)])
    else Raise (http_exception 500
                  (JObj [("error",
                          JObj [("message",
                                 JStr "Failed to edit image - no file returned from bot");
                                ("type", JStr "image_edit_error")])])).
Proof.
  cbv zeta.
  set (u := "data:image/jpeg;base64," ++ b64encode image_content).
  set (bot := normalize_model (str_or model "StableDiffusionXL")).
  set (N := Z.to_nat (num_images_of n)).
  destruct (upload_image_calls u api_key w) as [(Hb & _ & Ht & _) _].
  unfold image_edits, bind.
  change (JObj [("type", JStr "text"); ("text", JStr prompt)])
    with (text_part prompt).
  change (JObj [("type", JStr "image_url");
                ("image_url",
                 JObj [("url",
                        JStr ("data:image/jpeg;base64," ++ b64encode image_content))])])
    with (image_url_part u).
  rewrite (@image_edits_message prompt u api_key w eq_refl).
  fold bot. fold N.
  set (w1 := snd (upload_image u api_key w)) in *.
  destruct (fst (upload_image u api_key w)) as [a | e].
  - rewrite image_attempts_spec. unfold image_result, bind, call_time, ret.
    cbn [successful_generations data app after_bot_calls time_calls].
    rewrite Hb.
    eexists. split; [apply entries_of_length |]. split; [apply successes_bound |].
    rewrite <- entries_of_length.
    destruct (entries_of bot _ api_key response_format (bot_calls w) N)
      as [| entry entries]; [reflexivity |].
    cbn [length]. replace (0 <? 0 + Z.of_nat (S (length entries)))%Z with true
      by (symmetry; apply Z.ltb_lt; lia).
    cbn. now rewrite Ht.
  - rewrite image_attempts_spec. unfold image_result, bind, call_time, ret.
    cbn [successful_generations data app after_bot_calls time_calls].
    rewrite Hb.
    eexists. split; [apply entries_of_length |]. split; [apply successes_bound |].
    rewrite <- entries_of_length.
    destruct (entries_of bot _ api_key response_format (bot_calls w) N)
      as [| entry entries]; [reflexivity |].
    cbn [length]. replace (0 <? 0 + Z.of_nat (S (length entries)))%Z with true
      by (symmetry; apply Z.ltb_lt; lia).
    cbn. now rewrite Ht.
Qed.

End ImageExtras.

(** A stream that delivers a file and then crashes. *)
Lemma first_file_wins_witness :
  first_file
    ([delta "working"]
       ++ {| text := EmptyString; is_replace_response := false;
             attachment := Some (picture 0) |} :: [delta "more"])
    (Some (py_error OtherException "bot crashed"))
  = Return (Some (picture 0)).
Proof.
  apply (@first_file_wins [delta "working"] [delta "more"]
           {| text := EmptyString; is_replace_response := false;
              attachment := Some (picture 0) |}
           (picture 0) (Some (py_error OtherException "bot crashed"))).
  - repeat constructor.
  - reflexivity.
Defined.

(** Five attempts, three files. *)
Lemma image_generations_data_shape_witness :
  exists (created : Z) (entries : list json),
    fst (@image_generations five_attempt_world five_images "key" world0)
    = Return (JObj [("created", JInt created); ("data", JArr entries)]) /\
    Forall (entry_with "url") entries.
Proof.
  destruct (@image_generations_data_shape five_attempt_world five_images "key"
              world0 _ eq_refl)
    as (created & entries & Hbody & _ & Hshape).
  exists created, entries. split; [| exact Hshape].
  rewrite <- Hbody. reflexivity.
Defined.

(* ===================================================================== *)
(** * Further properties: bearer authentication *)
(* ===================================================================== *)

Lemma all_chars_app (p : ascii -> bool) (a b : string) :
  Json.all_chars p (a ++ b) = Json.all_chars p a && Json.all_chars p b.
Proof.
  induction a as [| c a IH]; [reflexivity |]. cbn. now rewrite IH, andb_assoc.
Qed.

Lemma all_chars_rev (p : ascii -> bool) (s : string) :
  Json.all_chars p (Py.rev s) = Json.all_chars p s.
Proof.
  induction s as [| c s IH]; [reflexivity |].
  rewrite rev_cons, all_chars_app, IH. cbn.
  now rewrite andb_true_r, andb_comm.
Qed.

Lemma rev_not_empty (s : string) : s <> EmptyString -> Py.rev s <> EmptyString.
Proof.
  destruct s as [| c s]; [contradiction |]. intros _. rewrite rev_cons.
  now destruct (Py.rev s).
Qed.

(** The fields [split] returns are not empty and hold no blank. *)
Lemma split_from_fields (s word : string) :
  no_blank word ->
  Forall (fun field => field <> EmptyString /\ no_blank field)
         (Auth.split_from s word).
Proof.
  unfold no_blank. revert word. induction s as [| c s IH]; intros word Hw.
  - cbn. destruct word as [| x word]; [constructor |].
    constructor; [| constructor].
    split; [now apply rev_not_empty | now rewrite all_chars_rev].
  - cbn [Auth.split_from]. destruct (Auth.isspace c) eqn:Hc.
    + destruct word as [| x word]; [now apply IH |].
      constructor; [| now apply IH].
      split; [now apply rev_not_empty | now rewrite all_chars_rev].
    + apply IH. cbn. now rewrite Hc.
Qed.

Lemma split_from_word (a rest word : string) :
  no_blank a ->
  Auth.split_from (a ++ rest) word = Auth.split_from rest (Py.rev_append a word).
Proof.
  unfold no_blank. revert word. induction a as [| c a IH]; intros word Ha;
    [reflexivity |].
  cbn in Ha. apply andb_prop in Ha as [Hc Ha].
  cbn [append Auth.split_from Py.rev_append].
  apply negb_true_iff in Hc. rewrite Hc. now apply IH.
Qed.

Lemma split_two_fields (a b : string) :
  a <> EmptyString -> no_blank a -> b <> EmptyString -> no_blank b ->
  Auth.split (a ++ " " ++ b) = [a; b].
Proof.
  intros Ha Hna Hb Hnb. unfold Auth.split.
  rewrite (split_from_word _ _ Hna). cbn [append Auth.split_from].
  change (Auth.isspace " ") with true. cbn iota.
  fold (Py.rev a).
  destruct (Py.rev a) as [| x ra] eqn:Hra;
    [now apply rev_not_empty in Ha |].
  rewrite <- Hra, rev_involutive. f_equal.
  rewrite <- (append_nil_r b) at 1. rewrite (split_from_word _ _ Hnb).
  cbn [Auth.split_from]. fold (Py.rev b).
  destruct (Py.rev b) as [| y rb] eqn:Hrb;
    [now apply rev_not_empty in Hb |].
  now rewrite <- Hrb, rev_involutive.
Qed.

Lemma lower_char_blank (c : ascii) :
  Auth.isspace c = true -> Auth.lower_char c = c.
Proof.
  destruct c as [[] [] [] [] [] [] [] []]; vm_compute;
    (reflexivity || discriminate).
Qed.

Lemma lower_no_blank (s : string) : no_blank (Auth.lower s) -> no_blank s.
Proof.
  unfold no_blank. induction s as [| c s IH]; [reflexivity |].
  cbn [Auth.lower Json.all_chars]. intros Hl.
  apply andb_prop in Hl as [Hc Hs]. rewrite (IH Hs), andb_true_r.
  destruct (Auth.isspace c) eqn:Hb; [| reflexivity].
  now rewrite (lower_char_blank _ Hb), Hb in Hc.
Qed.

(** X27. The bearer check accepts a header exactly when it has two fields
    separated by blanks, the first of which is the word bearer in any
    letter case: the second field is then the key, it is not empty and it
    holds no blank.  Every refusal is the HTTP 401 error of type
    authentication_error with the header WWW-Authenticate: Bearer. *)
Theorem bearer_accepts_two_fields (authorization : option string) :
  match Auth.bearer authorization with
  | Auth.Credentials scheme key =>
      exists header : string,
        authorization = Some header /\
        Auth.split header = [scheme; key] /\
        Auth.lower scheme = "bearer" /\
        key <> EmptyString /\ no_blank key /\
        Auth.get_api_key authorization = Return key
  | Auth.Refused status detail headers =>
      status = 401%Z /\
      detail_type detail = Some (JStr "authentication_error") /\
      headers = [("WWW-Authenticate", "Bearer")] /\
      Auth.get_api_key authorization = Raise (http_exception 401 detail) /\
      (forall header scheme key,
          authorization = Some header ->
          Auth.split header = [scheme; key] ->
          Auth.lower scheme <> "bearer")
  end.
Proof.
  unfold Auth.get_api_key, Auth.bearer.
  destruct authorization as [header |].
  2: { cbn. repeat split. discriminate. }
  destruct (String.eqb_spec header EmptyString) as [-> | Hne].
  { cbn. repeat split. intros h s k [= <-]. discriminate. }
  pose proof (@split_from_fields header EmptyString eq_refl) as Hf.
  fold (Auth.split header) in Hf.
  destruct (Auth.split header) as [| scheme [| key [| x rest]]] eqn:Hs;
    try (cbn; repeat split; intros h s k [= <-]; rewrite Hs; discriminate).
  destruct (String.eqb_spec (Auth.lower scheme) "bearer") as [Hl | Hl]; cbn [negb].
  - inversion Hf as [| ? ? _ Hf']. inversion Hf' as [| ? ? [Hk Hnk] _]. subst.
    exists header. repeat split; assumption.
  - cbn. repeat split. intros h s k [= <-]. rewrite Hs. intros [= <- <-].
    exact Hl.
Qed.

(** X28. A header made of the word bearer in any letter case, one blank,
    and a key that is not empty and holds no blank, gives back that key. *)
Theorem bearer_round_trip (scheme key : string) :
  Auth.lower scheme = "bearer" ->
  key <> EmptyString -> no_blank key ->
  Auth.get_api_key (Some (scheme ++ " " ++ key)) = Return key.
Proof.
  intros Hl Hk Hnk.
  assert (Hns : no_blank scheme) by (apply lower_no_blank; now rewrite Hl).
  assert (Hs : scheme <> EmptyString) by (intros ->; discriminate Hl).
  unfold Auth.get_api_key, Auth.bearer.
  destruct (String.eqb_spec (scheme ++ " " ++ key) EmptyString) as [He | _].
  { destruct scheme; [contradiction | discriminate He]. }
  rewrite (split_two_fields Hs Hns Hk Hnk), Hl. reflexivity.
Qed.

Lemma bearer_round_trip_witness :
  Auth.get_api_key (Some ("BeArEr" ++ " " ++ "sk-poe-123")) = Return "sk-poe-123".
Proof.
  apply bearer_round_trip; [reflexivity | discriminate | reflexivity].
Defined.

(* ===================================================================== *)
(** * Further properties: data URLs and upstream faults *)
(* ===================================================================== *)

Section UploadProperties.
Context `{Env}.

Lemma prefix_app (a b : string) : String.prefix a (a ++ b) = true.
Proof.
  induction a as [| c a IH]; [now destruct b |].
  cbn. destruct (Ascii.ascii_dec c c); [exact IH | contradiction].
Qed.

Lemma cut_first_cons (sep : string) (c : ascii) (s : string) :
  Py.cut_first sep (String c s) =
  if String.prefix sep (String c s)
  then Some (EmptyString, Py.drop (String.length sep) (String c s))
  else match Py.cut_first sep s with
       | Some (a, b) => Some (String c a, b)
       | None => None
       end.
Proof. reflexivity. Qed.

Lemma cut_first_marker (header payload : string) :
  Json.all_chars (fun c => negb (Ascii.eqb c ";")) header = true ->
  Py.cut_first ";base64," (header ++ ";base64," ++ payload)
  = Some (header, payload).
Proof.
  induction header as [| c header IH]; intros Hh;
    [destruct payload; vm_compute; reflexivity |].
  cbn in Hh. apply andb_prop in Hh as [Hc Hh].
  change (String c header ++ ";base64," ++ payload)
    with (String c (header ++ ";base64," ++ payload)).
  rewrite cut_first_cons, (IH Hh).
  replace (String.prefix ";base64," (String c (header ++ ";base64," ++ payload)))
    with false; [reflexivity |].
  cbn [String.prefix]. apply negb_true_iff, Ascii.eqb_neq in Hc.
  destruct (Ascii.ascii_dec ";" c) as [<- | _]; [contradiction | reflexivity].
Qed.

(** X29. A data URL made of the prefix data:, a MIME type without
    semicolon, the marker ;base64, and a payload that decodes is uploaded
    once, as the decoded bytes, under the name uploaded_file with the
    extension the table gives for the MIME type (bin for a type the table
    does not know).  The attachment the upload gives is returned; a
    failure of the upload comes back as a ValueError that quotes it. *)
Theorem data_url_is_uploaded (mime payload bytes api_key : string) (w : World) :
  Json.all_chars (fun c => negb (Ascii.eqb c ";")) mime = true ->
  b64decode payload = Some bytes ->
  process_base64_image ("data:" ++ mime ++ ";base64," ++ payload) api_key w =
  (match upload_file (upload_calls w)
           (FileBytes bytes ("uploaded_file." ++ extension_of mime)) api_key with
   | Return a => Return a
   | Raise e =>
       Raise (py_error ValueError ("Failed to process base64 image: " ++ exn_text e))
   end,
   {| bot_calls := bot_calls w; upload_calls := S (upload_calls w);
      urandom_calls := urandom_calls w; time_calls := time_calls w |}).
Proof.
  intros Hm Hd.
  unfold process_base64_image, process_base64_image_try, bind, Py.split1.
  unfold Py.startswith. rewrite prefix_app. cbn [negb].
  change ("data:" ++ mime ++ ";base64," ++ payload)
    with (("data:" ++ mime) ++ ";base64," ++ payload).
  rewrite cut_first_marker by exact Hm.
  change (Py.drop 5 ("data:" ++ mime)) with mime. rewrite Hd.
  unfold call_upload, ret.
  destruct (upload_file (upload_calls w)
              (FileBytes bytes ("uploaded_file." ++ extension_of mime)) api_key);
    reflexivity.
Qed.


End UploadProperties.

(** A PNG that uploads. *)
Lemma data_url_is_uploaded_witness :
  @process_base64_image
    (scripted (fun _ => ([], None)) (fun _ => Return (picture 0))
              (fun _ => Raise (py_error OtherException "no fetch")))
    "data:image/png;base64,iVBORw0KGgo=" "key" world0
  = (Return (picture 0),
     {| bot_calls := 0; upload_calls := 1; urandom_calls := 0; time_calls := 0 |}).
Proof.
  exact (@data_url_is_uploaded
           (scripted (fun _ => ([], None)) (fun _ => Return (picture 0))
                     (fun _ => Raise (py_error OtherException "no fetch")))
           "image/png" "iVBORw0KGgo=" "iVBORw0KGgo=" "key" world0
           eq_refl eq_refl).
Defined.

